(** * Model-training notebook: a shallow embedding and its properties

    The notebook [Model-training.ipynb] defines a dataset wrapper
    ([CustomDataset]), a layer-pooling helper ([sum_model_layers]), a
    classification head on top of a pretrained encoder
    ([CNNLSTMClassifier]) and three loops ([train_model],
    [evaluate_model], [test_model]), and runs them for three encoders.

    Data.  Tensors of floating-point numbers are nested lists over the exact
    rationals [Qc]; integer tensors are nested lists over [Z]; Python
    dictionaries with string keys are [gmap string _]; a raised exception is
    the [Raise] branch of [res].

    The framework.  The layers of the head (Conv1d, LSTM, Linear) are
    written out with their shape checks; the pretrained encoder, the
    criterion, the derivative of the loss and the optimizer step are
    parameters.  Gradient tracking is kept as the set of parameter names a
    tensor was computed from.  A data loader is the list of batches that one
    pass over it yields.

    The first part of the file holds the definitions, the second part the
    properties. *)

From Stdlib Require Import ZArith Qcanon Lia.
From stdpp Require Import numbers strings gmap list.

Open Scope Z_scope.

(** ** Exceptions and results

    [ValueError msg] is a [ValueError] with the message the notebook gives
    it; [LibraryValueError] is a [ValueError] raised inside a library (the
    tensor library, the data loader, the metrics), whose message varies
    with the version and is left out. *)

Inductive exn : Type :=
| ValueError (msg : string)
| KeyError (key : string)
| IndexError
| RuntimeError
| ZeroDivisionError
| AttributeError
| FileNotFoundError (path : string)
| LibraryValueError.

Inductive res (A : Type) : Type :=
| Ok (a : A)
| Raise (e : exn).
Arguments Ok {A} a.
Arguments Raise {A} e.

#[global] Instance res_ret : MRet res := fun _ a => Ok a.
#[global] Instance res_bind : MBind res := fun _ _ f m =>
  match m with
  | Ok a => f a
  | Raise e => Raise e
  end.

(** ** Python indexing *)

(** [d[k]] on a dictionary: [KeyError] when the key is absent. *)
Definition dict_get {V} (d : gmap string V) (k : string) : res V :=
  match d !! k with
  | Some v => Ok v
  | None => Raise (KeyError k)
  end.

(** Whether a Python integer fits the signed 64-bit index of a tensor. *)
Definition fits_int64 (z : Z) : bool :=
  (- 9223372036854775808 <=? z) && (z <? 9223372036854775808).

(** [t[idx]] on the first dimension of a tensor: negative indices count
    from the end; an index out of range raises [IndexError] when it fits 64
    bits and the [ValueError] of the overflow when it does not. *)
Definition py_index {A} (t : list A) (idx : Z) : res A :=
  let n := Z.of_nat (length t) in
  let j := if idx <? 0 then idx + n else idx in
  if (0 <=? j) && (j <? n) then
    match t !! Z.to_nat j with
    | Some x => Ok x
    | None => Raise IndexError
    end
  else if fits_int64 idx then Raise IndexError
  else Raise LibraryValueError.

(** ** CustomDataset *)

(** What [__getitem__] binds a key to: a row of a two-dimensional integer
    tensor, or a scalar label. *)
Inductive item_value : Type :=
| Row (r : list Z)
| Scalar (z : Z).

Module CustomDataset.

Record t : Type := mk {
  inputs : gmap string (list (list Z));
  labels : list Z
}.

Definition __init__ (inputs : gmap string (list (list Z))) (labels : list Z) : t :=
  {| inputs := inputs; labels := labels |}.

Definition __len__ (self : t) : res nat :=
  ids ← dict_get (inputs self) "input_ids";
  mret (length ids).

Definition __getitem__ (self : t) (idx : Z) : res (gmap string item_value) :=
  ids ← dict_get (inputs self) "input_ids";
  input_ids ← py_index ids idx;
  masks ← dict_get (inputs self) "attention_mask";
  attention_mask ← py_index masks idx;
  label ← py_index (labels self) idx;
  mret (<["input_ids" := Row input_ids]>
        (<["attention_mask" := Row attention_mask]>
         (<["labels" := Scalar label]> ∅))).

End CustomDataset.

(** ** Tensors

    A floating-point tensor is a nested list of rationals; its shape is
    read off the lists.  The layers check shapes where the framework
    does and raise [RuntimeError] on a mismatch. *)

Abbreviation vec := (list Qc).
Abbreviation mat := (list (list Qc)).
Abbreviation ten3 := (list (list (list Qc))).

Definition shape2 {A} (r c : nat) (m : list (list A)) : Prop :=
  length m = r ∧ Forall (λ v, length v = c) m.

Definition shape3 {A} (b r c : nat) (t : list (list (list A))) : Prop :=
  length t = b ∧ Forall (shape2 r c) t.

(** A nested list stands for exactly one tensor when no dimension has size
    zero: the shape of a tensor with an empty dimension cannot be read off
    its list (tensors of shape (0, 5, 3) and (0, 2, 3) are both []). *)
Definition proper_tensor {A} (t : list (list (list A))) : Prop :=
  ∃ b r c, (1 ≤ b)%nat ∧ (1 ≤ r)%nat ∧ (1 ≤ c)%nat ∧ shape3 b r c t.

Definition shape2b {A} (r c : nat) (m : list (list A)) : bool :=
  Nat.eqb (length m) r && forallb (λ v, Nat.eqb (length v) c) m.

Definition shape3b {A} (b r c : nat) (t : list (list (list A))) : bool :=
  Nat.eqb (length t) b && forallb (shape2b r c) t.

Definition dims3 {A} (t : list (list (list A))) : nat * nat * nat :=
  (length t, length (hd [] t), length (hd [] (hd [] t))).

(** Entry [t[i][j][k]], zero outside the tensor. *)
Definition elem3 (t : ten3) (i j k : nat) : Qc :=
  nth k (nth j (nth i t []) []) 0%Qc.

Definition Qc_sum (l : list Qc) : Qc := foldr Qcplus 0%Qc l.

(** [sum_{j < n} w j * x[j]]. *)
Definition dot (n : nat) (w : nat → Qc) (x : vec) : Qc :=
  Qc_sum (map (λ j, w j * nth j x 0)%Qc (seq 0 n)).

(** [l[-k:]] for a positive literal [k]: the last [k] elements, or all of
    [l] when it has fewer. *)
Definition py_slice_last {A} (k : nat) (l : list A) : list A :=
  drop (length l - k) l.

(** [torch.stack(tensors)]: a new leading dimension; the list must be
    non-empty and all tensors of one shape.  The shapes are those of the
    nested lists, which are the shapes of the tensors when these are
    [proper_tensor]s. *)
Definition torch_stack (tensors : list ten3) : res (list ten3) :=
  match tensors with
  | [] => Raise RuntimeError
  | t0 :: _ =>
      let '(b, r, c) := dims3 t0 in
      if forallb (shape3b b r c) tensors then Ok tensors else Raise RuntimeError
  end.

Definition tadd3 (x y : ten3) : ten3 :=
  zip_with (zip_with (zip_with Qcplus)) x y.

(** [.sum(dim=0)] of a stacked tensor. *)
Definition sum_dim0 (stacked : list ten3) : ten3 :=
  match stacked with
  | [] => []
  | t0 :: rest => foldl tadd3 t0 rest
  end.

(** [.permute(0, 2, 1)]: every sample is transposed. *)
Definition transpose (m : mat) : mat :=
  map (λ j, map (λ row, nth j row 0%Qc) m) (seq 0 (length (hd [] m))).

Definition permute_0_2_1 (t : ten3) : ten3 := map transpose t.

(** ** sum_model_layers *)

Definition sum_model_layers (model_name : string) (hidden_states : list ten3)
  : res ten3 :=
  if decide (model_name = "distilbert") then
    stacked ← torch_stack (py_slice_last 6 hidden_states);
    mret (sum_dim0 stacked)
  else if decide (model_name = "tinybert") then
    stacked ← torch_stack (py_slice_last 4 hidden_states);
    mret (sum_dim0 stacked)
  else if decide (model_name = "electra") then
    stacked ← torch_stack (py_slice_last 12 hidden_states);
    mret (sum_dim0 stacked)
  else Raise (ValueError ("Unsupported model: " +:+ model_name)).

(** ** Layers of the framework

    A layer carries its dimensions and its weights; a weight tensor is a
    function of its indices, so that the dimensions alone fix the shapes.
    The two activation functions of the recurrent cell are not rational
    functions and stay abstract. *)

Class Activation : Type := {
  sigmoid : Qc → Qc;
  tanh : Qc → Qc
}.

Module Conv1d.

Record t : Type := mk {
  in_channels : nat;
  out_channels : nat;
  kernel_size : nat;
  padding : nat;
  weight : nat → nat → nat → Qc;
  bias : nat → Qc
}.

(** Entry [u] of channel [c] of the zero-padded input. *)
Definition padded (self : t) (x : mat) (c u : nat) : Qc :=
  if (u <? padding self)%nat then 0%Qc
  else nth (u - padding self) (nth c x []) 0%Qc.

Definition out_entry (self : t) (x : mat) (o p : nat) : Qc :=
  (bias self o +
   Qc_sum (map (λ c,
     Qc_sum (map (λ j, weight self o c j * padded self x c (p + j))
                 (seq 0 (kernel_size self))))
     (seq 0 (in_channels self))))%Qc.

(** One sample of shape (in_channels, L) to (out_channels, L + 2p - k + 1),
    stride 1. *)
Definition forward1 (self : t) (x : mat) : res mat :=
  let L := length (hd [] x) in
  if shape2b (in_channels self) L x
     && (kernel_size self <=? L + 2 * padding self)%nat then
    Ok (map (λ o, map (out_entry self x o)
                      (seq 0 (L + 2 * padding self - kernel_size self + 1)))
            (seq 0 (out_channels self)))
  else Raise RuntimeError.

Definition forward (self : t) (x : ten3) : res ten3 := mapM (forward1 self) x.

End Conv1d.

Module LSTM.

Record t : Type := mk {
  input_size : nat;
  hidden_size : nat;
  weight_ih : nat → nat → Qc;
  weight_hh : nat → nat → Qc;
  bias_ih : nat → Qc;
  bias_hh : nat → Qc
}.

Section Cell.
Context `{!Activation}.

Definition gate (self : t) (x h : vec) (r : nat) : Qc :=
  (bias_ih self r + dot (input_size self) (weight_ih self r) x
   + (bias_hh self r + dot (hidden_size self) (weight_hh self r) h))%Qc.

(** One time step: the new hidden and cell vectors.  The rows of the
    weights hold the input, forget, cell and output gates in turn. *)
Definition cell (self : t) (x : vec) (hc : vec * vec) : vec * vec :=
  let H := hidden_size self in
  let '(h, c) := hc in
  let c' := map (λ k,
              sigmoid (gate self x h (H + k)) * nth k c 0
              + sigmoid (gate self x h k) * tanh (gate self x h (2 * H + k)))%Qc
              (seq 0 H) in
  let h' := map (λ k,
              sigmoid (gate self x h (3 * H + k)) * tanh (nth k c' 0))%Qc
              (seq 0 H) in
  (h', c').

Fixpoint run (self : t) (xs : mat) (hc : vec * vec) : mat * (vec * vec) :=
  match xs with
  | [] => ([], hc)
  | x :: xs' =>
      let hc' := cell self x hc in
      let '(out, hcn) := run self xs' hc' in
      (fst hc' :: out, hcn)
  end.

(** One sample of shape (L, input_size), from the zero state: the hidden
    vector of every time step, and the final state. *)
Definition forward1 (self : t) (xs : mat) : res (mat * (vec * vec)) :=
  if forallb (λ x, Nat.eqb (length x) (input_size self)) xs then
    let zeros := repeat 0%Qc (hidden_size self) in
    Ok (run self xs (zeros, zeros))
  else Raise RuntimeError.

(** [batch_first=True]: input (batch, seq_len, input_size), output
    (batch, seq_len, hidden_size) and the final states. *)
Definition forward (self : t) (x : ten3) : res (ten3 * list (vec * vec)) :=
  r ← mapM (forward1 self) x;
  mret (map fst r, map snd r).

End Cell.

End LSTM.

Module Linear.

Record t : Type := mk {
  in_features : nat;
  out_features : nat;
  weight : nat → nat → Qc;
  bias : nat → Qc
}.

Definition forward1 (self : t) (x : vec) : res vec :=
  if Nat.eqb (length x) (in_features self) then
    Ok (map (λ k, bias self k + dot (in_features self) (weight self k) x)%Qc
            (seq 0 (out_features self)))
  else Raise RuntimeError.

Definition forward (self : t) (x : mat) : res mat := mapM (forward1 self) x.

End Linear.

(** ** Autograd bookkeeping

    A tensor produced by the framework remembers the parameters its value
    was computed from while gradient tracking was on ([graph]); with
    tracking off the result of an operation has an empty graph.
    [loss.backward()] fills the gradient of the parameters in the graph of
    the loss. *)

Record tracked (A : Type) : Type := Tracked {
  data : A;
  graph : gset string
}.
Arguments Tracked {A} data graph.
Arguments data {A} _.
Arguments graph {A} _.

(** An operation [f] of a module with parameters [params], applied to [x]
    in grad mode [enabled]. *)
Definition apply_op {A B} (enabled : bool) (params : list string)
    (f : A → res B) (x : tracked A) : res (tracked B) :=
  y ← f (data x);
  mret (Tracked y (if enabled then graph x ∪ list_to_set params else ∅)).

(** ** The pretrained encoder

    The transformer is a black box: a training flag, the names of its
    parameters (all of them require gradients as loaded), those among them
    that the hidden states are computed from, and the tuple of hidden
    states it returns for a batch, which may depend on the mode.  A
    parameter that only another output of the encoder uses, such as the
    pooling layer that the printed tinybert model shows, is in
    [parameters] and not in [hidden_parameters]. *)

Module Encoder.

Record t : Type := mk {
  training : bool;
  parameters : list string;
  hidden_parameters : list string;
  hidden_states : bool → list (list Z) → list (list Z) → list ten3
}.

(** [nn.Module.train(mode)] *)
Definition train (mode : bool) (self : t) : t :=
  {| training := mode;
     parameters := parameters self;
     hidden_parameters := hidden_parameters self;
     hidden_states := hidden_states self |}.

(** The call [self.bert(input_ids=..., attention_mask=...,
    output_hidden_states=True).hidden_states] in grad mode [enabled];
    [prefix] is the name the module is registered under. *)
Definition call (prefix : string) (enabled : bool) (self : t)
    (input_ids attention_mask : list (list Z)) : tracked (list ten3) :=
  Tracked (hidden_states self (training self) input_ids attention_mask)
          (if enabled
           then list_to_set (map (String.append prefix) (hidden_parameters self))
           else ∅).

End Encoder.

(** ** CNNLSTMClassifier *)

(** The initial values of the head's weights, drawn by the constructors of
    the three layers. *)
Record head_init : Type := {
  init_cnn_weight : nat → nat → nat → Qc;
  init_cnn_bias : nat → Qc;
  init_lstm_weight_ih : nat → nat → Qc;
  init_lstm_weight_hh : nat → nat → Qc;
  init_lstm_bias_ih : nat → Qc;
  init_lstm_bias_hh : nat → Qc;
  init_fc_weight : nat → nat → Qc;
  init_fc_bias : nat → Qc
}.

Module CNNLSTMClassifier.

Record t : Type := mk {
  training : bool;
  model_name : string;
  bert : Encoder.t;
  cnn : Conv1d.t;
  lstm : LSTM.t;
  fc : Linear.t
}.

(** Default values of the keyword arguments of [__init__]. *)
Definition default_cnn_out_channels : nat := 64.
Definition default_lstm_hidden_dim : nat := 64.
Definition default_num_classes : nat := 2.

Definition __init__ (model_name : string) (bert : Encoder.t) (in_channels : nat)
    (cnn_out_channels lstm_hidden_dim num_classes : nat) (w : head_init) : t :=
  {| training := true;
     model_name := model_name;
     bert := bert;
     cnn := Conv1d.mk in_channels cnn_out_channels 3 1
              (init_cnn_weight w) (init_cnn_bias w);
     lstm := LSTM.mk cnn_out_channels lstm_hidden_dim
               (init_lstm_weight_ih w) (init_lstm_weight_hh w)
               (init_lstm_bias_ih w) (init_lstm_bias_hh w);
     fc := Linear.mk lstm_hidden_dim num_classes
             (init_fc_weight w) (init_fc_bias w) |}.

(** [nn.Module.train(mode)]: the flag of the module and of every child.
    The three head layers behave alike in both modes and keep no flag. *)
Definition train (mode : bool) (self : t) : t :=
  {| training := mode;
     model_name := model_name self;
     bert := Encoder.train mode (bert self);
     cnn := cnn self;
     lstm := lstm self;
     fc := fc self |}.

Definition eval (self : t) : t := train false self.

Definition cnn_parameters : list string := ["cnn.weight"; "cnn.bias"].
Definition lstm_parameters : list string :=
  ["lstm.weight_ih_l0"; "lstm.weight_hh_l0"; "lstm.bias_ih_l0"; "lstm.bias_hh_l0"].
Definition fc_parameters : list string := ["fc.weight"; "fc.bias"].

(** [nn.Module.parameters()]: the parameters of the children in the order
    of their registration. *)
Definition parameters (self : t) : list string :=
  map (String.append "bert.") (Encoder.parameters (bert self))
  ++ cnn_parameters ++ lstm_parameters ++ fc_parameters.

(** The dimensions that [__init__] gives the three layers of the head;
    neither [train] nor an optimizer step changes them. *)
Definition head_dims (self : t)
    (in_channels cnn_out_channels lstm_hidden_dim num_classes : nat) : Prop :=
  Conv1d.in_channels (cnn self) = in_channels ∧
  Conv1d.out_channels (cnn self) = cnn_out_channels ∧
  Conv1d.kernel_size (cnn self) = 3%nat ∧
  Conv1d.padding (cnn self) = 1%nat ∧
  LSTM.input_size (lstm self) = cnn_out_channels ∧
  LSTM.hidden_size (lstm self) = lstm_hidden_dim ∧
  Linear.in_features (fc self) = lstm_hidden_dim ∧
  Linear.out_features (fc self) = num_classes.

Section Forward.
Context `{!Activation}.

(** The body of [with torch.set_grad_enabled(self.bert.training)]: the
    grad mode inside the block is the argument of [set_grad_enabled],
    whatever it was outside. *)
Definition encoder_block (self : t) (input_ids attention_mask : list (list Z))
  : res (tracked ten3) :=
  let enabled := Encoder.training (bert self) in
  let hidden_states :=
    Encoder.call "bert." enabled (bert self) input_ids attention_mask in
  summed ← apply_op enabled [] (sum_model_layers (model_name self)) hidden_states;
  apply_op enabled [] (λ x, Ok (permute_0_2_1 x)) summed.

(** [lstm_out[:, -1, :]] *)
Definition last_step (lstm_out : ten3) : res mat :=
  mapM (λ sample, py_index sample (-1)) lstm_out.

(** The statements of [forward] after the [with] block, in the ambient
    grad mode [grad_enabled], which is in force again there. *)
Definition classification_head (self : t) (embeddings : tracked ten3)
    (grad_enabled : bool) : res (tracked mat) :=
  cnn_out ← apply_op grad_enabled cnn_parameters
              (Conv1d.forward (cnn self)) embeddings;
  lstm_in ← apply_op grad_enabled [] (λ x, Ok (permute_0_2_1 x)) cnn_out;
  lstm_out ← apply_op grad_enabled lstm_parameters
               (λ x, r ← LSTM.forward (lstm self) x; mret (fst r)) lstm_in;
  last ← apply_op grad_enabled [] last_step lstm_out;
  apply_op grad_enabled fc_parameters (Linear.forward (fc self)) last.

(** [forward], called in the ambient grad mode [grad_enabled]. *)
Definition forward (self : t) (input_ids attention_mask : list (list Z))
    (grad_enabled : bool) : res (tracked mat) :=
  embeddings ← encoder_block self input_ids attention_mask;
  classification_head self embeddings grad_enabled.

End Forward.

End CNNLSTMClassifier.

(** [AdamW(params, lr=...)] *)
Record AdamW : Type := {
  param_groups : list string;
  lr : Qc
}.

(** ** Batches and Python arithmetic *)

(** A batch as the data loader collates it from the items of a
    [CustomDataset]; a data loader is the list of batches one pass over it
    yields, in order, and [len(dataloader)] is the length of that list. *)
Record batch : Type := {
  input_ids : list (list Z);
  attention_mask : list (list Z);
  labels : list Z
}.

(** [x % y] on Python integers. *)
Definition py_mod (x y : Z) : res Z :=
  if y =? 0 then Raise ZeroDivisionError else Ok (x mod y).

(** [x / y] of a Python float by an integer. *)
Definition py_truediv (x : Qc) (y : Z) : res Qc :=
  if y =? 0 then Raise ZeroDivisionError else Ok (x / Qc_of_Z y)%Qc.

(** ** train_model *)

(** A scalar loss tensor: its value ([.item()]) and the gradient with
    respect to the parameters that [.backward()] adds to their [.grad]. *)
Record loss (G : Type) : Type := Loss {
  item : Qc;
  grad : G
}.
Arguments Loss {G} item grad.
Arguments item {G} _.
Arguments grad {G} _.

(** The calls into the framework that [train_model] makes, in order. *)
Inductive event (G : Type) : Type :=
| EvCriterion (l : loss G)
| EvBackward (l : loss G)
| EvStep (g : G)
| EvZeroGrad
| EvPrint (epoch num_epochs : Z) (avg_loss : Qc).
Arguments EvCriterion {G} l.
Arguments EvBackward {G} l.
Arguments EvStep {G} g.
Arguments EvZeroGrad {G}.
Arguments EvPrint {G} epoch num_epochs avg_loss.

(** The model and the optimizer are objects that the loop mutates; [grads]
    is the content of the [.grad] fields of the parameters. *)
Record train_state (Model Opt G : Type) : Type := TrainState {
  model : Model;
  optimizer : Opt;
  grads : G;
  trace : list (event G)
}.
Arguments TrainState {Model Opt G} model optimizer grads trace.
Arguments model {Model Opt G} _.
Arguments optimizer {Model Opt G} _.
Arguments grads {Model Opt G} _.
Arguments trace {Model Opt G} _.

Section Train.
Context {Model Opt G : Type}.

(** [model(input_ids, attention_mask)] in a given grad mode. *)
Variable call : Model → list (list Z) → list (list Z) → bool → res (tracked mat).
(** The value of [criterion(outputs, labels)]. *)
Variable criterion : mat → list Z → Qc.
(** The gradient of that value with respect to the parameters, which
    autograd derives from the graph of [outputs]. *)
Variable gradient : Model → batch → tracked mat → G.
(** Gradients: zero, sum, and multiplication by a scalar. *)
Variable gzero : G.
Variable gadd : G → G → G.
Variable gscale : Qc → G → G.
(** [optimizer.step()]: new optimizer state and new parameters from the
    accumulated gradient. *)
Variable optimizer_step : Opt → Model → G → Opt * Model.

Abbreviation state := (train_state Model Opt G).

Definition log (e : event G) (s : state) : state :=
  TrainState (model s) (optimizer s) (grads s) (trace s ++ [e]).

(** [optimizer.zero_grad()] *)
Definition zero_grad (s : state) : state :=
  log EvZeroGrad (TrainState (model s) (optimizer s) gzero (trace s)).

(** [optimizer.step()] *)
Definition step (s : state) : state :=
  let '(o, m) := optimizer_step (optimizer s) (model s) (grads s) in
  log (EvStep (grads s)) (TrainState m o (grads s) (trace s)).

(** [loss.backward()]: gradients accumulate. *)
Definition backward (l : loss G) (s : state) : state :=
  log (EvBackward l)
      (TrainState (model s) (optimizer s) (gadd (grads s) (grad l)) (trace s)).

(** [loss / accumulation_steps]: the value and, by linearity, the
    gradient are divided. *)
Definition loss_div (l : loss G) (a : Z) : loss G :=
  Loss (item l / Qc_of_Z a)%Qc (gscale (/ Qc_of_Z a)%Qc (grad l)).

(** The body of the inner loop at index [i] of [enumerate]; [n] is
    [len(dataloader)]. *)
Definition train_batch (accumulation_steps : Z) (n : nat) (i : nat) (batches : batch)
    (st : state * Qc) : res (state * Qc) :=
  let '(s, total_loss) := st in
  outputs ← call (model s) (input_ids batches) (attention_mask batches) true;
  let loss := Loss (criterion (data outputs) (labels batches))
                   (gradient (model s) batches outputs) in
  let s := log (EvCriterion loss) s in
  let loss := loss_div loss accumulation_steps in
  let s := backward loss s in
  let total_loss := (total_loss + item loss * Qc_of_Z accumulation_steps)%Qc in
  r ← py_mod (Z.of_nat i + 1) accumulation_steps;
  if (r =? 0) || (Z.of_nat i + 1 =? Z.of_nat n) then
    Ok (zero_grad (step s), total_loss)
  else Ok (s, total_loss).

Fixpoint train_batches (accumulation_steps : Z) (n : nat) (i : nat)
    (dataloader : list batch) (st : state * Qc) : res (state * Qc) :=
  match dataloader with
  | [] => Ok st
  | batches :: rest =>
      st' ← train_batch accumulation_steps n i batches st;
      train_batches accumulation_steps n (S i) rest st'
  end.

(** One iteration of the loop over the epochs. *)
Definition train_epoch (dataloader : list batch) (num_epochs accumulation_steps : Z)
    (epoch : nat) (s : state) : res state :=
  st ← train_batches accumulation_steps (length dataloader) 0 dataloader (s, 0%Qc);
  avg_loss ← py_truediv (snd st) (Z.of_nat (length dataloader));
  mret (log (EvPrint (Z.of_nat epoch + 1) num_epochs avg_loss) (fst st)).

Fixpoint train_epochs (dataloader : list batch) (num_epochs accumulation_steps : Z)
    (epochs : list nat) (s : state) : res state :=
  match epochs with
  | [] => Ok s
  | epoch :: rest =>
      s' ← train_epoch dataloader num_epochs accumulation_steps epoch s;
      train_epochs dataloader num_epochs accumulation_steps rest s'
  end.

(** [train_model]; [g0] is whatever the [.grad] fields hold on entry.  The
    returned state holds the model that the function returns. *)
Definition train_model (m : Model) (dataloader : list batch) (o : Opt)
    (num_epochs accumulation_steps : Z) (g0 : G) : res state :=
  let s := zero_grad (TrainState m o g0 []) in
  train_epochs dataloader num_epochs accumulation_steps
    (seq 0 (Z.to_nat num_epochs)) s.

(** *** The schedule of the specification

    These definitions follow the description of gradient accumulation, not
    the loop: batches are numbered from 1, and a step is due after batch [i]
    when [i] is a multiple of the accumulation steps or the last batch. *)
Definition step_due (a : Z) (n i : nat) : bool :=
  (Z.of_nat i mod a =? 0) || Nat.eqb i n.

(** The last batch before batch [i] after which a step was due; 0 when
    there is none. *)
Definition previous_step (a : Z) (n i : nat) : nat :=
  max_list (filter (λ k, step_due a n k = true) (seq 1 (i - 1))).

(** The sum of the scaled gradients of the batches after the previous
    step, up to batch [i]. *)
Definition accumulated (a : Z) (n : nat) (ls : list (loss G)) (i : nat) : G :=
  foldl gadd gzero
    (map (λ l, grad (loss_div l a)) (drop (previous_step a n i) (take i ls))).

(** The calls expected for batch [i + 1], whose criterion loss is [l]: the
    loss, the backward pass of the loss divided by [a] and, when a step is
    due, the step with the accumulated gradient followed by [zero_grad]. *)
Definition schedule_batch (a : Z) (n : nat) (ls : list (loss G)) (i : nat)
    (l : loss G) : list (event G) :=
  [EvCriterion l; EvBackward (loss_div l a)]
  ++ (if step_due a n (S i) then [EvStep (accumulated a n ls (S i)); EvZeroGrad]
      else []).

(** The calls expected in one epoch over [n] batches with criterion losses
    [ls]. *)
Definition schedule (a : Z) (n : nat) (ls : list (loss G)) : list (event G) :=
  concat (imap (schedule_batch a n ls) ls).

Definition is_step (e : event G) : bool :=
  match e with EvStep _ => true | _ => false end.

Definition criterion_losses (tr : list (event G)) : list (loss G) :=
  omap (λ e, match e with EvCriterion l => Some l | _ => None end) tr.

Definition count_steps (tr : list (event G)) : nat :=
  length (List.filter is_step tr).

Definition printed_losses (tr : list (event G)) : list Qc :=
  omap (λ e, match e with EvPrint _ _ avg => Some avg | _ => None end) tr.

(** The arithmetic mean of the values of [n] losses. *)
Definition mean_loss (n : nat) (ls : list (loss G)) : Qc :=
  (Qc_sum (map item ls) / Qc_of_Z (Z.of_nat n))%Qc.

End Train.

(** ** evaluate_model and test_model *)

(** The largest entry of a row and the index of its first occurrence. *)
Fixpoint max_from (best : Qc) (best_i i : nat) (row : vec) : Qc * nat :=
  match row with
  | [] => (best, best_i)
  | x :: rest =>
      if decide (best < x)%Qc then max_from x i (S i) rest
      else max_from best best_i (S i) rest
  end.

Definition row_max (row : vec) : res (Qc * Z) :=
  match row with
  | [] => Raise IndexError
  | x :: rest => let '(v, k) := max_from x 0 1 rest in Ok (v, Z.of_nat k)
  end.

(** [torch.max(outputs, dim=1)]: the pair (values, indices). *)
Definition torch_max_dim1 (outputs : mat) : res (list Qc * list Z) :=
  r ← mapM row_max outputs;
  mret (map fst r, map snd r).

(** [p] is the index of the first largest entry of [row]. *)
Definition is_argmax (row : vec) (p : Z) : Prop :=
  0 ≤ p ∧
  ∃ v, row !! Z.to_nat p = Some v ∧
       (∀ x, x ∈ row → (x ≤ v)%Qc) ∧
       (∀ j x, (j < Z.to_nat p)%nat → row !! j = Some x → (x < v)%Qc).

Definition newline : string := String (Ascii.ascii_of_nat 10) EmptyString.

(** What a call leaves behind: the model object (which [model.eval()]
    mutates), the printed lines, the two local lists, and the returned
    value. *)
Record frame (Model R : Type) : Type := Frame {
  frame_model : Model;
  stdout : list string;
  predictions : list Z;
  true_labels : list Z;
  returned : R
}.
Arguments Frame {Model R} frame_model stdout predictions true_labels returned.
Arguments frame_model {Model R} _.
Arguments stdout {Model R} _.
Arguments predictions {Model R} _.
Arguments true_labels {Model R} _.
Arguments returned {Model R} _.

(** The call [classification_report(true_labels, predictions, digits=4)]:
    the metrics library refuses two lists of different lengths and lists
    without a sample with a [ValueError]; on other lists it returns the
    text of the report, [report true_labels predictions]. *)
Definition report_call (report : list Z → list Z → string)
    (true_labels predictions : list Z) : res string :=
  if negb (Nat.eqb (length true_labels) (length predictions))
  then Raise LibraryValueError
  else if Nat.eqb (length true_labels) 0 then Raise LibraryValueError
  else Ok (report true_labels predictions).

Section Evaluate.
Context {Model : Type}.

Variable call : Model → list (list Z) → list (list Z) → bool → res (tracked mat).
(** [model.eval()] *)
Variable eval : Model → Model.
(** The text of [classification_report(true_labels, predictions, digits=4)]
    on lists that it accepts. *)
Variable classification_report : list Z → list Z → string.

(** The loop of [evaluate_model], under [torch.no_grad()]. *)
Fixpoint evaluate_batches (m : Model) (dataloader : list batch)
    (predictions true_labels : list Z) : res (list Z * list Z) :=
  match dataloader with
  | [] => Ok (predictions, true_labels)
  | batches :: rest =>
      outputs ← call m (input_ids batches) (attention_mask batches) false;
      vi ← torch_max_dim1 (data outputs);
      let preds := snd vi in
      evaluate_batches m rest (predictions ++ preds) (true_labels ++ labels batches)
  end.

Definition evaluate_model (m : Model) (dataloader : list batch) (device : string)
  : res (frame Model unit) :=
  let m := eval m in
  let out := ["Classification Report:" +:+ newline] in
  pt ← evaluate_batches m dataloader [] [];
  report ← report_call classification_report (snd pt) (fst pt);
  mret (Frame m (out ++ [report]) (fst pt) (snd pt) tt).

(** The loop of [test_model], under [torch.no_grad()]. *)
Fixpoint test_batches (m : Model) (dataloader : list batch)
    (predictions true_labels : list Z) : res (list Z * list Z) :=
  match dataloader with
  | [] => Ok (predictions, true_labels)
  | batches :: rest =>
      outputs ← call m (input_ids batches) (attention_mask batches) false;
      vi ← torch_max_dim1 (data outputs);
      let preds := snd vi in
      test_batches m rest (predictions ++ preds) (true_labels ++ labels batches)
  end.

Definition test_model (m : Model) (dataloader : list batch) (device : string)
  : res (frame Model (list Z * list Z)) :=
  let m := eval m in
  let out := ["Classification Report:" +:+ newline] in
  pt ← test_batches m dataloader [] [];
  report ← report_call classification_report (snd pt) (fst pt);
  mret (Frame m (out ++ [report]) (fst pt) (snd pt) (fst pt, snd pt)).

End Evaluate.

(** ** The data loaders

    [DataLoader(dataset, batch_size=..., shuffle=...)] over a
    [CustomDataset] as the notebook builds it: one worker, the default batch
    sampler with [drop_last=False] and the default collate function.  The
    batch size is positive (the constructor refuses any other).  A loader
    is built by [__init__]. *)

Module DataLoader.

Record t : Type := mk {
  dataset : CustomDataset.t;
  batch_size : positive;
  shuffle : bool
}.

(** The constructor.  With [shuffle=True] it builds the random sampler,
    which reads the length of the data set and refuses an empty one with a
    [ValueError]; the sequential sampler reads nothing before the first
    pass. *)
Definition __init__ (dataset : CustomDataset.t) (batch_size : positive)
    (shuffle : bool) : res t :=
  if shuffle then
    n ← CustomDataset.__len__ dataset;
    if Nat.eqb n 0 then Raise LibraryValueError
    else Ok (mk dataset batch_size shuffle)
  else Ok (mk dataset batch_size shuffle).

(** The indices of one pass over [n] items: in order, or, with
    [shuffle=True], in the order [randperm n] that the random generator
    draws for this pass. *)
Definition sampler (self : t) (randperm : nat → list nat) (n : nat) : list nat :=
  if shuffle self then randperm n else seq 0 n.

(** The batch sampler: indices are appended to [batch], which is yielded
    when it holds [batch_size] indices; what is left at the end is yielded
    when it is not empty. *)
Fixpoint batch_sampler (batch_size : nat) (sampler batch : list nat)
  : list (list nat) :=
  match sampler with
  | [] => match batch with [] => [] | _ => [batch] end
  | idx :: rest =>
      let batch := batch ++ [idx] in
      if Nat.eqb (length batch) batch_size
      then batch :: batch_sampler batch_size rest []
      else batch_sampler batch_size rest batch
  end.

Definition item_row (d : gmap string item_value) (key : string) : res (list Z) :=
  v ← dict_get d key;
  match v with Row r => Ok r | Scalar _ => Raise RuntimeError end.

Definition item_scalar (d : gmap string item_value) (key : string) : res Z :=
  v ← dict_get d key;
  match v with Scalar z => Ok z | Row _ => Raise RuntimeError end.

(** The default collate function on the items of a [CustomDataset]: the
    values under each key are stacked. *)
Definition collate (data : list (gmap string item_value)) : res batch :=
  ids ← mapM (λ d, item_row d "input_ids") data;
  masks ← mapM (λ d, item_row d "attention_mask") data;
  labels ← mapM (λ d, item_scalar d "labels") data;
  mret {| input_ids := ids; attention_mask := masks; labels := labels |}.

(** One batch: the items at [indices] are read and collated. *)
Definition fetch (dataset : CustomDataset.t) (indices : list nat) : res batch :=
  data ← mapM (λ idx, CustomDataset.__getitem__ dataset (Z.of_nat idx)) indices;
  collate data.

(** [len(dataloader)] *)
Definition __len__ (self : t) : res nat :=
  n ← CustomDataset.__len__ (dataset self);
  mret ((n + Pos.to_nat (batch_size self) - 1) / Pos.to_nat (batch_size self))%nat.

(** The batches that one complete pass over the data loader yields, or the
    exception that ends the pass. *)
Definition batches (self : t) (randperm : nat → list nat) : res (list batch) :=
  n ← CustomDataset.__len__ (dataset self);
  mapM (fetch (dataset self))
       (batch_sampler (Pos.to_nat (batch_size self)) (sampler self randperm n) []).

End DataLoader.

(** ** The cells of the notebook *)

Inductive file : Type :=
| SavedModel (m : CNNLSTMClassifier.t)
| SavedList (l : list Z).

Definition torch_save (obj : file) (path : string) (fs : gmap string file)
  : gmap string file := <[path := obj]> fs.

Definition torch_load (path : string) (fs : gmap string file) : res file :=
  match fs !! path with
  | Some f => Ok f
  | None => Raise (FileNotFoundError path)
  end.

(** [from_pretrained] returns the encoder in evaluation mode. *)
Definition from_pretrained (checkpoint : Encoder.t) : Encoder.t :=
  Encoder.train false checkpoint.

Module Notebook.

Section Experiment.
Context `{!Activation} {G OptState : Type}.

Variable criterion : mat → list Z → Qc.
Variable gradient : CNNLSTMClassifier.t → batch → tracked mat → G.
Variable gzero : G.
Variable gadd : G → G → G.
Variable gscale : Qc → G → G.
Variable optimizer_step :
  AdamW * OptState → CNNLSTMClassifier.t → G → (AdamW * OptState) * CNNLSTMClassifier.t.
Variable classification_report : list Z → list Z → string.
Variable device : string.

(** The cell that builds a classifier and puts it in training mode. *)
Definition build (model_name : string) (checkpoint : Encoder.t) (in_channels : nat)
    (w : head_init) : CNNLSTMClassifier.t :=
  CNNLSTMClassifier.train true
    (CNNLSTMClassifier.__init__ model_name (from_pretrained checkpoint) in_channels
       CNNLSTMClassifier.default_cnn_out_channels
       CNNLSTMClassifier.default_lstm_hidden_dim
       CNNLSTMClassifier.default_num_classes w).

(** [AdamW(model.parameters(), lr=2e-4)] *)
Definition make_optimizer (m : CNNLSTMClassifier.t) : AdamW :=
  {| param_groups := CNNLSTMClassifier.parameters m;
     lr := (Qc_of_Z 2 / Qc_of_Z 10000)%Qc |}.

(** The object a variable is bound to by [torch.load] of a saved model. *)
Definition load_model (path : string) (fs : gmap string file)
  : res CNNLSTMClassifier.t :=
  f ← torch_load path fs;
  match f with
  | SavedModel m => Ok m
  | SavedList _ => Raise AttributeError
  end.

(** The cells after the training of a model: the model is saved and
    loaded again, evaluated on the dev split and tested on the test
    split, and the predictions are saved.  The result is the final files
    and the frame of [test_model]. *)
Definition after_training (model_path preds_path : string)
    (dev_dataloader test_dataloader : list batch) (fs : gmap string file)
    (s : train_state CNNLSTMClassifier.t (AdamW * OptState) G)
  : res (gmap string file * frame CNNLSTMClassifier.t (list Z * list Z)) :=
  let m := model s in
  let fs := torch_save (SavedModel m) model_path fs in
  m ← load_model model_path fs;
  ev ← evaluate_model CNNLSTMClassifier.forward CNNLSTMClassifier.eval
         classification_report m dev_dataloader device;
  te ← test_model CNNLSTMClassifier.forward CNNLSTMClassifier.eval
         classification_report (frame_model ev) test_dataloader device;
  let '(preds, _) := returned te in
  let fs := torch_save (SavedList preds) preds_path fs in
  mret (fs, te).

(** The cells of one of the three parts of the notebook, from the
    construction of the model on. *)
Definition experiment (model_name : string) (checkpoint : Encoder.t)
    (in_channels : nat) (model_path preds_path : string)
    (w : head_init) (o0 : OptState) (g0 : G)
    (train_dataloader dev_dataloader test_dataloader : list batch)
    (fs : gmap string file)
  : res (gmap string file * frame CNNLSTMClassifier.t (list Z * list Z)) :=
  let m := build model_name checkpoint in_channels w in
  let optimizer := make_optimizer m in
  s ← train_model CNNLSTMClassifier.forward criterion gradient gzero gadd gscale
        optimizer_step m train_dataloader (optimizer, o0) 1 10 g0;
  after_training model_path preds_path dev_dataloader test_dataloader fs s.

Definition DB_model (distilbert : Encoder.t) (w : head_init) :=
  build "distilbert" distilbert 768 w.
Definition TB_model (tinybert : Encoder.t) (w : head_init) :=
  build "tinybert" tinybert 312 w.
Definition EL_model (electra : Encoder.t) (w : head_init) :=
  build "electra" electra 256 w.

Definition DB_experiment (distilbert : Encoder.t) :=
  experiment "distilbert" distilbert 768
    "models/DB_model.pt" "predictions/DB_preds.pt".
Definition TB_experiment (tinybert : Encoder.t) :=
  experiment "tinybert" tinybert 312
    "models/TB_model.pt" "predictions/TB_preds.pt".
Definition EL_experiment (electra : Encoder.t) :=
  experiment "electra" electra 256
    "models/EL_model.pt" "predictions/EL_preds.pt".

(** The classifiers that the notebook builds and passes to
    [train_model], in order. *)
Definition classifiers (distilbert tinybert electra : Encoder.t)
    (w1 w2 w3 : head_init) : list CNNLSTMClassifier.t :=
  [DB_model distilbert w1; TB_model tinybert w2; EL_model electra w3].

(** The three data loaders of one part of the notebook. *)
Record loaders : Type := Loaders {
  train_dataloader : list batch;
  dev_dataloader : list batch;
  test_dataloader : list batch
}.

(** The three parts of the notebook in order, each with its own encoder,
    head, optimizer and data loaders, and each starting from the files
    that the part before left.  The result is the final files and the
    frames of the three calls of [test_model]. *)
Definition run (distilbert tinybert electra : Encoder.t) (w1 w2 w3 : head_init)
    (o1 o2 o3 : OptState) (g1 g2 g3 : G) (DB TB EL : loaders)
    (fs : gmap string file)
  : res (gmap string file * list (frame CNNLSTMClassifier.t (list Z * list Z))) :=
  r1 ← DB_experiment distilbert w1 o1 g1
         (train_dataloader DB) (dev_dataloader DB) (test_dataloader DB) fs;
  r2 ← TB_experiment tinybert w2 o2 g2
         (train_dataloader TB) (dev_dataloader TB) (test_dataloader TB) (fst r1);
  r3 ← EL_experiment electra w3 o3 g3
         (train_dataloader EL) (dev_dataloader EL) (test_dataloader EL) (fst r2);
  mret (fst r3, [snd r1; snd r2; snd r3]).

End Experiment.

End Notebook.

(** ** Reading a trace *)

(** The losses on which [backward] was called, in order. *)
Definition backward_losses {G} (tr : list (event G)) : list (loss G) :=
  omap (λ e, match e with EvBackward l => Some l | _ => None end) tr.

(** The gradients with which the optimizer stepped, in order. *)
Definition applied_gradients {G} (tr : list (event G)) : list G :=
  omap (λ e, match e with EvStep g => Some g | _ => None end) tr.

(** Every optimizer step of a trace comes directly after a backward pass
    and is directly followed by the reset of the gradients. *)
Definition steps_in_place {G} (tr : list (event G)) : Prop :=
  ∀ pre g post, tr = pre ++ EvStep g :: post →
    (∃ pre' l, pre = pre' ++ [EvBackward l]) ∧
    (∃ post', post = EvZeroGrad :: post').

(** ** Small concrete inputs *)

Module Samples.

(** Stand-ins for the two activation functions. *)
Definition activation : Activation :=
  {| sigmoid := λ x, x; tanh := λ x, x |}.

Definition weights : head_init :=
  {| init_cnn_weight := λ _ _ _, 1%Qc;
     init_cnn_bias := λ _, 0%Qc;
     init_lstm_weight_ih := λ _ _, 1%Qc;
     init_lstm_weight_hh := λ _ _, 0%Qc;
     init_lstm_bias_ih := λ _, 0%Qc;
     init_lstm_bias_hh := λ _, 1%Qc;
     init_fc_weight := λ k _, Qc_of_Z (Z.of_nat k);
     init_fc_bias := λ _, 0%Qc |}.

(** An encoder with [layers] hidden states of [width] features, every
    entry being the token id. *)
Definition encoder (layers width : nat) : Encoder.t :=
  {| Encoder.training := false;
     Encoder.parameters :=
       ["embeddings.weight"; "layer.0.weight"; "pooler.dense.weight"];
     Encoder.hidden_parameters := ["embeddings.weight"; "layer.0.weight"];
     Encoder.hidden_states := λ _ ids _,
       repeat (map (map (λ tok, repeat (Qc_of_Z tok) width)) ids) layers |}.

Definition batch1 : batch :=
  {| input_ids := [[5; 7]; [2; 3]];
     attention_mask := [[1; 1]; [1; 1]];
     labels := [1; 0] |}.

Definition batch2 : batch :=
  {| input_ids := [[4; 1]];
     attention_mask := [[1; 0]];
     labels := [1] |}.

(** A model that ignores its input, a loss that is the number of labels
of the batch, and one rational number as the gradient. *)
Definition constant_model (m : unit) (ids mask : list (list Z)) (enabled : bool)
  : res (tracked mat) :=
  Ok (Tracked [[0%Qc; 1%Qc]] ∅).

Definition count_labels (outputs : mat) (labels : list Z) : Qc :=
  Qc_of_Z (Z.of_nat (length labels)).

Definition unit_gradient (m : unit) (b : batch) (outputs : tracked mat) : Qc := 1%Qc.

Definition keep_model (o : unit) (m : unit) (g : Qc) : unit * unit := (o, m).

Definition batch3 : batch :=
  {| input_ids := [[6]];
     attention_mask := [[1]];
     labels := [0] |}.

(** A run of the electra part of the notebook on these batches, with a
constant loss, gradients that carry no information and an optimizer that
leaves the model as it is. *)
Definition electra_run
  : res (gmap string file * frame CNNLSTMClassifier.t (list Z * list Z)) :=
  Notebook.EL_experiment (H := activation) (G := unit) (OptState := unit)
    (λ _ _, 0%Qc) (λ _ _ _, tt) tt (λ _ _, tt) (λ _ _, tt) (λ o m _, (o, m))
    (λ _ _, "report") "cpu"
    (encoder 13 256) weights tt tt [batch2] [batch3] [batch3] ∅.

(** A run of the whole notebook on one-token batches, starting from a
predictions file left by an earlier run. *)
Definition tiny_loaders : Notebook.loaders :=
  {| Notebook.train_dataloader := [batch3];
     Notebook.dev_dataloader := [batch3];
     Notebook.test_dataloader := [batch3] |}.

Definition notebook_run
  : res (gmap string file * list (frame CNNLSTMClassifier.t (list Z * list Z))) :=
  Notebook.run (H := activation) (G := unit) (OptState := unit)
    (λ _ _, 0%Qc) (λ _ _ _, tt) tt (λ _ _, tt) (λ _ _, tt) (λ o m _, (o, m))
    (λ _ _, "report") "cpu"
    (encoder 7 768) (encoder 5 312) (encoder 13 256) weights weights weights
    tt tt tt tt tt tt tiny_loaders tiny_loaders tiny_loaders
    (<["predictions/DB_preds.pt" := SavedList [0; 0; 1] ]> ∅).

End Samples.

(** * Properties *)

Lemma py_index_in_range {A} (t : list A) (idx : Z) :
  0 ≤ idx < Z.of_nat (length t) →
  ∃ x, t !! Z.to_nat idx = Some x ∧ py_index t idx = Ok x.
Proof.
  intros Hi. unfold py_index.
  destruct (Z.ltb_spec idx 0) as [?|_]; [lia|].
  destruct (Z.leb_spec 0 idx) as [_|?]; [|lia].
  destruct (Z.ltb_spec idx (Z.of_nat (length t))) as [_|?]; [|lia].
  simpl. destruct (lookup_lt_is_Some_2 t (Z.to_nat idx)) as [x Hx]; [lia|].
  exists x. by rewrite Hx.
Qed.

(** C10: [__len__] is the length of [inputs['input_ids']], and at every
    index inside that range [__getitem__] returns a dictionary with exactly
    the keys input_ids, attention_mask and labels, bound to the rows of the
    two input tensors and to the label at that index.  The attention mask
    and the labels are taken to cover every index of the input ids, as the
    tensors of one tokenised data set do. *)
Theorem CustomDataset_len_getitem
    (inputs : gmap string (list (list Z))) (labels : list Z)
    (ids masks : list (list Z)) (idx : Z) :
  inputs !! "input_ids" = Some ids →
  inputs !! "attention_mask" = Some masks →
  (length ids ≤ length masks)%nat →
  (length ids ≤ length labels)%nat →
  let self := CustomDataset.__init__ inputs labels in
  CustomDataset.__len__ self = Ok (length ids) ∧
  (0 ≤ idx < Z.of_nat (length ids) →
   ∃ (d : gmap string item_value) r m l,
     CustomDataset.__getitem__ self idx = Ok d ∧
     ids !! Z.to_nat idx = Some r ∧
     masks !! Z.to_nat idx = Some m ∧
     labels !! Z.to_nat idx = Some l ∧
     dom d = ({["input_ids"; "attention_mask"; "labels"]} : gset string) ∧
     d !! "input_ids" = Some (Row r) ∧
     d !! "attention_mask" = Some (Row m) ∧
     d !! "labels" = Some (Scalar l)).
Proof.
  intros Hids Hmasks Hlm Hll self. split.
  - unfold CustomDataset.__len__, dict_get. simpl. by rewrite Hids.
  - intros Hi.
    destruct (py_index_in_range ids idx) as (r & Hr & Er); [lia|].
    destruct (py_index_in_range masks idx) as (m & Hm & Em); [lia|].
    destruct (py_index_in_range labels idx) as (l & Hl & El); [lia|].
    eexists _, r, m, l.
    unfold CustomDataset.__getitem__, dict_get. simpl.
    rewrite Hids. simpl. rewrite Er. simpl. rewrite Hmasks. simpl.
    rewrite Em. simpl. rewrite El. simpl.
    repeat split; done.
Qed.

Lemma CustomDataset_len_getitem_witness :
  let inputs : gmap string (list (list Z)) :=
    <["input_ids" := [[101; 7; 102]; [101; 9; 102]]]>
    (<["attention_mask" := [[1; 1; 1]; [1; 1; 0]]]> ∅) in
  let self := CustomDataset.__init__ inputs [0; 1] in
  CustomDataset.__len__ self = Ok 2%nat ∧
  ∃ d, CustomDataset.__getitem__ self 1 = Ok d ∧
       d !! "labels" = Some (Scalar 1).
Proof.
  intros inputs self.
  assert (H1 : (2 ≤ 2)%nat) by lia.
  destruct (CustomDataset_len_getitem inputs [0; 1]
              [[101; 7; 102]; [101; 9; 102]] [[1; 1; 1]; [1; 1; 0]] 1
              eq_refl eq_refl H1 H1) as [Hlen Hget].
  split; [exact Hlen|].
  destruct Hget as (d & r & m & l & Hd & _ & _ & Hl & _ & _ & _ & Hdl);
    [simpl; lia|].
  exists d. split; [exact Hd|].
  simpl in Hl. injection Hl as <-. exact Hdl.
Defined.

(** ** Results and shapes *)

Lemma bind_Ok {A B} (f : A → res B) (a : A) : (Ok a ≫= f) = f a.
Proof. reflexivity. Qed.

Lemma mapM_res_Forall2 {A B} (f : A → res B) (P : A → B → Prop) (l : list A) :
  Forall (λ x, ∃ y, f x = Ok y ∧ P x y) l →
  ∃ k, mapM f l = Ok k ∧ Forall2 P l k.
Proof.
  induction 1 as [|x l (y & Hy & HP) _ (k & Hk & HF)].
  - exists []. split; [reflexivity | constructor].
  - exists (y :: k). split; [|by constructor].
    simpl. rewrite Hy. simpl. rewrite Hk. reflexivity.
Qed.

Lemma shape2b_spec {A} (r c : nat) (m : list (list A)) :
  shape2b r c m = true ↔ shape2 r c m.
Proof.
  unfold shape2b, shape2.
  rewrite andb_true_iff, Nat.eqb_eq, forallb_forall, Forall_forall.
  split; intros [H1 H2]; (split; [exact H1|]); intros v Hv.
  - apply Nat.eqb_eq, H2. by apply list_elem_of_In.
  - apply Nat.eqb_eq, H2. by apply list_elem_of_In.
Qed.

Lemma shape3b_spec {A} (b r c : nat) (t : list (list (list A))) :
  shape3b b r c t = true ↔ shape3 b r c t.
Proof.
  unfold shape3b, shape3.
  rewrite andb_true_iff, Nat.eqb_eq, forallb_forall, Forall_forall.
  split; intros [H1 H2]; (split; [exact H1|]); intros v Hv.
  - apply shape2b_spec, H2. by apply list_elem_of_In.
  - apply shape2b_spec, H2. by apply list_elem_of_In.
Qed.

(** Tensors of one shape pass the check of [torch.stack], whose reference
    dimensions are read off the first of them. *)
Lemma shape3_dims3 {A} (b r c : nat) (t0 t : list (list (list A))) :
  shape3 b r c t0 → shape3 b r c t →
  let '(b', r', c') := dims3 t0 in shape3 b' r' c' t.
Proof.
  intros [Hb0 H0] [Hb Ht]. unfold dims3.
  destruct t0 as [|m0 t0]; simpl in *.
  { subst b. destruct t; [|done]. split; [done | constructor]. }
  apply Forall_cons in H0 as [[Hr0 Hm0] _].
  destruct m0 as [|v0 m0]; simpl in *.
  { subst r. split; [congruence|].
    eapply Forall_impl; [exact Ht|]. intros m [Hm _].
    destruct m; [|done]. split; [done | constructor]. }
  apply Forall_cons in Hm0 as [Hc0 _].
  rewrite Hr0, Hc0. split; [congruence | exact Ht].
Qed.

Lemma torch_stack_ok (b r c : nat) (ts : list ten3) :
  ts ≠ [] → Forall (shape3 b r c) ts → torch_stack ts = Ok ts.
Proof.
  intros Hne Hts. unfold torch_stack.
  destruct ts as [|t0 ts']; [done|].
  assert (H0 : shape3 b r c t0) by (by apply Forall_cons in Hts as [? _]).
  destruct (dims3 t0) as [[b' r'] c'] eqn:Hd.
  assert (Hall : forallb (shape3b b' r' c') (t0 :: ts') = true).
  { apply forallb_forall. intros t Ht. apply shape3b_spec.
    pose proof (shape3_dims3 b r c t0 t H0) as Hs. rewrite Hd in Hs.
    apply Hs. rewrite Forall_forall in Hts. apply Hts. by apply list_elem_of_In. }
  by rewrite Hall.
Qed.



(** ** Element-wise sums *)

Lemma nth_zip_with {A B C} (f : A → B → C) (l : list A) (k : list B)
    (i : nat) (da : A) (db : B) (dc : C) :
  (i < length l)%nat → (i < length k)%nat →
  nth i (zip_with f l k) dc = f (nth i l da) (nth i k db).
Proof.
  revert k i. induction l as [|x l IH]; intros [|y k] [|i]; simpl; try lia.
  - reflexivity.
  - intros. apply IH; lia.
Qed.

Lemma Forall_zip_with_2 {A B C} (f : A → B → C)
    (P : A → Prop) (Q : B → Prop) (R : C → Prop) (l : list A) (k : list B) :
  (∀ x y, P x → Q y → R (f x y)) →
  Forall P l → Forall Q k → Forall R (zip_with f l k).
Proof.
  intros Hf Hl. revert k. induction Hl as [|x l Hx _ IH]; intros k Hk.
  - constructor.
  - destruct Hk as [|y k Hy Hk]; simpl; constructor; auto.
Qed.

Lemma shape3_nth {A} (b r c : nat) (t : list (list (list A))) (i : nat) :
  shape3 b r c t → (i < b)%nat → shape2 r c (nth i t []).
Proof.
  intros [Hb Ht] Hi.
  destruct (lookup_lt_is_Some_2 t i) as [m Hm]; [lia|].
  rewrite (nth_lookup_Some _ _ _ _ Hm). by eapply Forall_lookup_1.
Qed.

Lemma shape2_nth {A} (r c : nat) (m : list (list A)) (j : nat) :
  shape2 r c m → (j < r)%nat → length (nth j m []) = c.
Proof.
  intros [Hr Hm] Hj.
  destruct (lookup_lt_is_Some_2 m j) as [v Hv]; [lia|].
  rewrite (nth_lookup_Some _ _ _ _ Hv).
  by apply (Forall_lookup_1 _ _ _ _ Hm Hv).
Qed.

Lemma shape3_tadd3 (b r c : nat) (x y : ten3) :
  shape3 b r c x → shape3 b r c y → shape3 b r c (tadd3 x y).
Proof.
  intros [Hx Fx] [Hy Fy]. split.
  - unfold tadd3. rewrite length_zip_with. lia.
  - unfold tadd3. eapply Forall_zip_with_2; [|exact Fx|exact Fy].
    intros m1 m2 [H1 F1] [H2 F2]. split.
    + rewrite length_zip_with. lia.
    + eapply Forall_zip_with_2; [|exact F1|exact F2].
      intros v1 v2 Hv1 Hv2. simpl in *. rewrite length_zip_with. lia.
Qed.

Lemma elem3_tadd3 (b r c : nat) (x y : ten3) (i j l : nat) :
  shape3 b r c x → shape3 b r c y →
  (i < b)%nat → (j < r)%nat → (l < c)%nat →
  elem3 (tadd3 x y) i j l = (elem3 x i j l + elem3 y i j l)%Qc.
Proof.
  intros Hx Hy Hi Hj Hl. unfold elem3, tadd3.
  pose proof (shape3_nth _ _ _ _ i Hx Hi) as Hxi.
  pose proof (shape3_nth _ _ _ _ i Hy Hi) as Hyi.
  pose proof (shape2_nth _ _ _ j Hxi Hj) as Hxj.
  pose proof (shape2_nth _ _ _ j Hyi Hj) as Hyj.
  destruct Hx as [Hbx _], Hy as [Hby _], Hxi as [Hrx _], Hyi as [Hry _].
  rewrite (nth_zip_with _ x y i [] [] []) by lia.
  rewrite (nth_zip_with _ _ _ j [] [] []) by lia.
  rewrite (nth_zip_with _ _ _ l 0%Qc 0%Qc 0%Qc) by lia.
  reflexivity.
Qed.

Lemma foldl_tadd3 (b r c : nat) (rest : list ten3) (t0 : ten3) :
  shape3 b r c t0 → Forall (shape3 b r c) rest →
  shape3 b r c (foldl tadd3 t0 rest) ∧
  ∀ i j l, (i < b)%nat → (j < r)%nat → (l < c)%nat →
    elem3 (foldl tadd3 t0 rest) i j l
    = (elem3 t0 i j l + Qc_sum (map (λ t, elem3 t i j l) rest))%Qc.
Proof.
  revert t0. induction rest as [|t rest IH]; intros t0 H0 Hrest; simpl.
  - split; [exact H0|]. intros. ring.
  - apply Forall_cons in Hrest as [Ht Hrest].
    destruct (IH (tadd3 t0 t)) as [Hs He];
      [by apply shape3_tadd3 | exact Hrest |].
    split; [exact Hs|]. intros i j l Hi Hj Hl.
    rewrite He by assumption.
    rewrite (elem3_tadd3 b r c) by assumption. ring.
Qed.

Lemma sum_dim0_spec (b r c : nat) (ts : list ten3) :
  ts ≠ [] → Forall (shape3 b r c) ts →
  shape3 b r c (sum_dim0 ts) ∧
  ∀ i j l, (i < b)%nat → (j < r)%nat → (l < c)%nat →
    elem3 (sum_dim0 ts) i j l = Qc_sum (map (λ t, elem3 t i j l) ts).
Proof.
  intros Hne Hts. destruct ts as [|t0 rest]; [done|].
  apply Forall_cons in Hts as [H0 Hrest]. simpl.
  exact (foldl_tadd3 b r c rest t0 H0 Hrest).
Qed.

(** ** sum_model_layers *)

Lemma torch_stack_cases (ts : list ten3) :
  torch_stack ts = Ok ts ∨ torch_stack ts = Raise RuntimeError.
Proof.
  unfold torch_stack. destruct ts as [|t0 ts']; [by right|].
  destruct (dims3 t0) as [[b r] c].
  destruct (forallb _ _); [by left | by right].
Qed.

Lemma py_slice_last_nonempty {A} (k : nat) (l : list A) :
  (1 ≤ k)%nat → l ≠ [] → py_slice_last k l ≠ [].
Proof.
  intros Hk Hl Hnil. apply (f_equal length) in Hnil.
  unfold py_slice_last in Hnil. rewrite length_drop in Hnil. simpl in Hnil.
  destruct l; [done|]. simpl in Hnil. lia.
Qed.

Lemma sum_model_layers_supported (model_name : string) (k : nat)
    (hidden_states : list ten3) (b r c : nat) :
  (model_name = "distilbert" ∧ k = 6%nat) ∨ (model_name = "tinybert" ∧ k = 4%nat)
    ∨ (model_name = "electra" ∧ k = 12%nat) →
  hidden_states ≠ [] → Forall (shape3 b r c) hidden_states →
  sum_model_layers model_name hidden_states
  = Ok (sum_dim0 (py_slice_last k hidden_states)).
Proof.
  intros Hk Hne Hs.
  assert (Hst : torch_stack (py_slice_last k hidden_states)
                = Ok (py_slice_last k hidden_states)).
  { apply (torch_stack_ok b r c).
    - apply py_slice_last_nonempty; [|exact Hne].
      destruct Hk as [ [_ ->] | [ [_ ->] | [_ ->] ] ]; lia.
    - by apply Forall_drop. }
  unfold sum_model_layers.
  destruct Hk as [ [-> ->] | [ [-> ->] | [-> ->] ] ]; simpl; by rewrite Hst.
Qed.

(** C5: [sum_model_layers] raises [ValueError] exactly for a model name
    other than distilbert, tinybert and electra; for each of the three it
    returns a tensor, the hidden states being a non-empty tuple of tensors
    of one shape. *)
Theorem sum_model_layers_ValueError_iff :
  (∀ (model_name : string) (hidden_states : list ten3),
     (∃ msg, sum_model_layers model_name hidden_states = Raise (ValueError msg))
     ↔ ¬ (model_name = "distilbert" ∨ model_name = "tinybert"
          ∨ model_name = "electra")) ∧
  (∀ (model_name : string) (hidden_states : list ten3) (b r c : nat),
     model_name = "distilbert" ∨ model_name = "tinybert" ∨ model_name = "electra" →
     hidden_states ≠ [] → Forall (shape3 b r c) hidden_states →
     ∃ s, sum_model_layers model_name hidden_states = Ok s).
Proof.
  split.
  - intros model_name hs. unfold sum_model_layers.
    destruct (decide (model_name = "distilbert")) as [->|H1].
    { split; [|tauto]. intros [msg Hm].
      destruct (torch_stack_cases (py_slice_last 6 hs)) as [E|E];
        rewrite E in Hm; discriminate. }
    destruct (decide (model_name = "tinybert")) as [->|H2].
    { split; [|tauto]. intros [msg Hm].
      destruct (torch_stack_cases (py_slice_last 4 hs)) as [E|E];
        rewrite E in Hm; discriminate. }
    destruct (decide (model_name = "electra")) as [->|H3].
    { split; [|tauto]. intros [msg Hm].
      destruct (torch_stack_cases (py_slice_last 12 hs)) as [E|E];
        rewrite E in Hm; discriminate. }
    split; [tauto|]. intros _. by eexists.
  - intros model_name hs b r c Hn Hne Hs.
    destruct Hn as [-> | [-> | ->] ].
    + eexists. by apply (sum_model_layers_supported _ 6 _ b r c); [left|..].
    + eexists. by apply (sum_model_layers_supported _ 4 _ b r c); [right; left|..].
    + eexists. by apply (sum_model_layers_supported _ 12 _ b r c); [right; right|..].
Qed.

Lemma sum_model_layers_ValueError_iff_witness :
  (∃ msg, sum_model_layers "gpt2" [] = Raise (ValueError msg)) ∧
  (∃ s, sum_model_layers "tinybert"
          [[[[Qc_of_Z 1; Qc_of_Z 2]]]; [[[Qc_of_Z 3; Qc_of_Z 4]]]] = Ok s).
Proof.
  destruct sum_model_layers_ValueError_iff as [Hiff Hok]. split.
  - apply Hiff. intros [H | [H | H] ]; discriminate H.
  - apply (Hok "tinybert" _ 1%nat 1%nat 2%nat).
    + right. left. reflexivity.
    + discriminate.
    + repeat constructor.
Defined.

(** ** Transposition *)

Lemma nth_map_seq {A} (g : nat → A) (n l : nat) (d : A) :
  (l < n)%nat → nth l (map g (seq 0 n)) d = g l.
Proof.
  intros Hl. rewrite (List.nth_indep _ d (g 0%nat))
    by (rewrite List.length_map, List.length_seq; lia).
  rewrite List.map_nth, List.seq_nth by lia. reflexivity.
Qed.

Lemma shape2_hd {A} (r c : nat) (m : list (list A)) :
  shape2 r c m → (1 ≤ r)%nat → length (hd [] m) = c.
Proof.
  intros [Hr Hm] H1. destruct m as [|v m]; simpl in *; [lia|].
  by apply Forall_cons in Hm as [? _].
Qed.

Lemma shape2_transpose (r c : nat) (m : mat) :
  shape2 r c m → (1 ≤ r)%nat → shape2 c r (transpose m).
Proof.
  intros Hm H1. unfold transpose. rewrite (shape2_hd r c m Hm H1).
  destruct Hm as [Hr _]. split.
  - by rewrite List.length_map, List.length_seq.
  - apply Forall_forall. intros v Hv.
    apply list_elem_of_In, List.in_map_iff in Hv as (j & <- & _).
    by rewrite List.length_map.
Qed.

Lemma shape3_permute (b r c : nat) (t : ten3) :
  shape3 b r c t → (1 ≤ r)%nat → shape3 b c r (permute_0_2_1 t).
Proof.
  intros [Hb Ht] H1. unfold permute_0_2_1. split.
  - by rewrite List.length_map.
  - apply Forall_forall. intros m Hm.
    apply list_elem_of_In, List.in_map_iff in Hm as (m0 & <- & Hm0).
    apply shape2_transpose; [|exact H1].
    rewrite Forall_forall in Ht. apply Ht. by apply list_elem_of_In.
Qed.

Lemma elem3_permute (b r c : nat) (t : ten3) (i j l : nat) :
  shape3 b r c t → (i < b)%nat → (j < r)%nat → (l < c)%nat →
  elem3 (permute_0_2_1 t) i l j = elem3 t i j l.
Proof.
  intros Ht Hi Hj Hl. unfold elem3, permute_0_2_1.
  pose proof (shape3_nth _ _ _ _ i Ht Hi) as Hm.
  replace (nth i (map transpose t) []) with (transpose (nth i t []))
    by exact (eq_sym (List.map_nth transpose t [] i)).
  unfold transpose at 1. rewrite (shape2_hd r c _ Hm) by lia.
  rewrite nth_map_seq by exact Hl.
  destruct Hm as [Hr _].
  rewrite (List.nth_indep _ 0%Qc (nth l [] 0%Qc))
    by (rewrite List.length_map; lia).
  rewrite (List.map_nth (λ row, nth l row 0%Qc)). reflexivity.
Qed.

Lemma map_drop_seq {A B} (f : A → B) (d0 : A) (l : list A) (d : nat) :
  map f (drop d l)
  = map (λ n, f (nth (d + n) l d0)) (seq 0 (length l - d)).
Proof.
  revert d. induction l as [|x l IH]; intros [|d]; simpl; try reflexivity.
  - f_equal. specialize (IH 0%nat). rewrite drop_0 in IH. rewrite IH.
    rewrite Nat.sub_0_r, <- List.seq_shift, List.map_map. reflexivity.
  - apply IH.
Qed.

(** C4: the tensor that [sum_model_layers] returns is the element-wise sum
    of the last 6 (distilbert), 4 (tinybert) or 12 (electra) hidden states,
    and the head is applied to exactly this sum with its last two dimensions
    swapped.  The encoder is taken to return at least that many hidden
    states, all of one shape. *)
Theorem forward_pools_last_layers `{!Activation}
    (self : CNNLSTMClassifier.t) (input_ids attention_mask : list (list Z))
    (grad_enabled : bool) (k b L D : nat) :
  let hidden_states :=
    Encoder.hidden_states (CNNLSTMClassifier.bert self)
      (Encoder.training (CNNLSTMClassifier.bert self)) input_ids attention_mask in
  (CNNLSTMClassifier.model_name self = "distilbert" ∧ k = 6%nat)
    ∨ (CNNLSTMClassifier.model_name self = "tinybert" ∧ k = 4%nat)
    ∨ (CNNLSTMClassifier.model_name self = "electra" ∧ k = 12%nat) →
  (k ≤ length hidden_states)%nat →
  Forall (shape3 b L D) hidden_states →
  ∃ (pooled : ten3) (embeddings : tracked ten3),
    sum_model_layers (CNNLSTMClassifier.model_name self) hidden_states = Ok pooled ∧
    shape3 b L D pooled ∧
    (∀ i j l, (i < b)%nat → (j < L)%nat → (l < D)%nat →
       elem3 pooled i j l
       = Qc_sum (map (λ n, elem3 (nth (length hidden_states - k + n) hidden_states [])
                              i j l)
                     (seq 0 k))) ∧
    CNNLSTMClassifier.encoder_block self input_ids attention_mask = Ok embeddings ∧
    data embeddings = permute_0_2_1 pooled ∧
    (∀ i j l, (i < b)%nat → (j < L)%nat → (l < D)%nat →
       elem3 (data embeddings) i l j = elem3 pooled i j l) ∧
    CNNLSTMClassifier.forward self input_ids attention_mask grad_enabled
    = CNNLSTMClassifier.classification_head self embeddings grad_enabled.
Proof.
  intros hs Hk Hlen Hs.
  assert (Hne : hs ≠ []).
  { intros E. rewrite E in Hlen. simpl in Hlen.
    destruct Hk as [ [_ ->] | [ [_ ->] | [_ ->] ] ]; lia. }
  pose proof (sum_model_layers_supported _ k hs b L D Hk Hne Hs) as Hsum.
  assert (Hk1 : (1 ≤ k)%nat)
    by (destruct Hk as [ [_ ->] | [ [_ ->] | [_ ->] ] ]; lia).
  destruct (sum_dim0_spec b L D (py_slice_last k hs)) as [Hshape Helem].
  { by apply py_slice_last_nonempty. }
  { by apply Forall_drop. }
  set (pooled := sum_dim0 (py_slice_last k hs)) in *.
  assert (Hblock : CNNLSTMClassifier.encoder_block self input_ids attention_mask
                   = Ok (Tracked (permute_0_2_1 pooled)
                           (if Encoder.training (CNNLSTMClassifier.bert self)
                            then (if Encoder.training (CNNLSTMClassifier.bert self)
                                  then graph (Encoder.call "bert."
                                         (Encoder.training (CNNLSTMClassifier.bert self))
                                         (CNNLSTMClassifier.bert self)
                                         input_ids attention_mask)
                                       ∪ list_to_set []
                                  else ∅) ∪ list_to_set []
                            else ∅))).
  { unfold CNNLSTMClassifier.encoder_block, apply_op. simpl.
    fold hs. rewrite Hsum. reflexivity. }
  eexists pooled, _. split; [exact Hsum|]. split; [exact Hshape|].
  split.
  { intros i j l Hi Hj Hl. rewrite (Helem i j l Hi Hj Hl).
    unfold py_slice_last. rewrite (map_drop_seq _ []).
    replace (length hs - (length hs - k))%nat with k by lia. reflexivity. }
  split; [exact Hblock|]. split; [reflexivity|]. split.
  { intros i j l Hi Hj Hl. simpl. by apply (elem3_permute b L D). }
  unfold CNNLSTMClassifier.forward. rewrite Hblock. reflexivity.
Qed.

Lemma forward_pools_last_layers_witness :
  let self := CNNLSTMClassifier.__init__ "tinybert" (Samples.encoder 5 3) 3 4 2 2
                Samples.weights in
  ∃ (pooled : ten3) (embeddings : tracked ten3),
    sum_model_layers "tinybert"
      (Encoder.hidden_states (Samples.encoder 5 3) false
         (input_ids Samples.batch1) (attention_mask Samples.batch1)) = Ok pooled ∧
    elem3 pooled 0 1 2 = Qc_of_Z 28 ∧
    CNNLSTMClassifier.encoder_block self
      (input_ids Samples.batch1) (attention_mask Samples.batch1) = Ok embeddings ∧
    elem3 (data embeddings) 0 2 1 = Qc_of_Z 28.
Proof.
  intros self.
  assert (Hk : (CNNLSTMClassifier.model_name self = "distilbert" ∧ 4%nat = 6%nat)
               ∨ (CNNLSTMClassifier.model_name self = "tinybert" ∧ 4%nat = 4%nat)
               ∨ (CNNLSTMClassifier.model_name self = "electra" ∧ 4%nat = 12%nat))
    by (right; left; split; reflexivity).
  assert (Hlen : (4 ≤ 5)%nat) by lia.
  destruct (forward_pools_last_layers (H := Samples.activation) self
              (input_ids Samples.batch1) (attention_mask Samples.batch1) true
              4 2 2 3 Hk Hlen)
    as (pooled & embeddings & Hsum & _ & Hpool & Hblock & _ & Hperm & _).
  { repeat constructor. }
  exists pooled, embeddings.
  assert (Hv : elem3 pooled 0 1 2 = Qc_of_Z 28).
  { rewrite Hpool by lia. apply Qc_is_canon. vm_compute. reflexivity. }
  split; [exact Hsum|]. split; [exact Hv|]. split; [exact Hblock|].
  rewrite Hperm by lia. exact Hv.
Defined.

(** ** The layers of the head *)

Lemma Conv1d_forward1_ok (self : Conv1d.t) (x : mat) (L : nat) :
  shape2 (Conv1d.in_channels self) L x →
  (1 ≤ Conv1d.in_channels self)%nat →
  (Conv1d.kernel_size self ≤ L + 2 * Conv1d.padding self)%nat →
  ∃ y, Conv1d.forward1 self x = Ok y ∧
       shape2 (Conv1d.out_channels self)
         (L + 2 * Conv1d.padding self - Conv1d.kernel_size self + 1) y.
Proof.
  intros Hx Hc Hk. unfold Conv1d.forward1.
  rewrite (shape2_hd _ _ _ Hx Hc).
  rewrite (proj2 (shape2b_spec _ _ _) Hx).
  rewrite (proj2 (Nat.leb_le _ _) Hk). simpl.
  eexists. split; [reflexivity|]. split.
  - by rewrite List.length_map, List.length_seq.
  - apply Forall_forall. intros v Hv.
    apply list_elem_of_In, List.in_map_iff in Hv as (o & <- & _).
    by rewrite List.length_map, List.length_seq.
Qed.

Lemma LSTM_cell_length `{!Activation} (self : LSTM.t) (x : vec) (hc : vec * vec) :
  length (fst (LSTM.cell self x hc)) = LSTM.hidden_size self.
Proof.
  unfold LSTM.cell. destruct hc as [h c]. simpl.
  by rewrite List.length_map, List.length_seq.
Qed.

Lemma LSTM_run_shape `{!Activation} (self : LSTM.t) (xs : mat) (hc : vec * vec) :
  shape2 (length xs) (LSTM.hidden_size self) (fst (LSTM.run self xs hc)).
Proof.
  revert hc. induction xs as [|x xs IH]; intros hc; simpl.
  - split; [reflexivity | constructor].
  - specialize (IH (LSTM.cell self x hc)).
    destruct (LSTM.run self xs (LSTM.cell self x hc)) as [out hcn]. simpl in *.
    destruct IH as [Hlen Hall]. split; [simpl; by f_equal|].
    constructor; [apply LSTM_cell_length | exact Hall].
Qed.

Lemma LSTM_forward1_ok `{!Activation} (self : LSTM.t) (xs : mat) (L : nat) :
  shape2 L (LSTM.input_size self) xs →
  ∃ r, LSTM.forward1 self xs = Ok r ∧ shape2 L (LSTM.hidden_size self) (fst r).
Proof.
  intros [HL Hxs]. unfold LSTM.forward1.
  assert (Hchk : forallb (λ x, Nat.eqb (length x) (LSTM.input_size self)) xs = true).
  { apply forallb_forall. intros x Hx. apply Nat.eqb_eq.
    rewrite Forall_forall in Hxs. apply Hxs. by apply list_elem_of_In. }
  rewrite Hchk. eexists. split; [reflexivity|].
  rewrite <- HL. apply LSTM_run_shape.
Qed.

Lemma py_index_last {A} (l : list A) :
  (1 ≤ length l)%nat → ∃ x, py_index l (-1) = Ok x ∧ last l = Some x.
Proof.
  intros Hl. unfold py_index. simpl.
  destruct (Z.leb_spec 0 (-1 + Z.of_nat (length l))) as [_|?]; [|lia].
  destruct (Z.ltb_spec (-1 + Z.of_nat (length l)) (Z.of_nat (length l))) as [_|?];
    [|lia].
  simpl. rewrite last_lookup.
  replace (Z.to_nat (-1 + Z.of_nat (length l))) with (pred (length l)) by lia.
  destruct (lookup_lt_is_Some_2 l (pred (length l))) as [x Hx]; [lia|].
  exists x. by rewrite Hx.
Qed.

Lemma Linear_forward1_ok (self : Linear.t) (x : vec) :
  length x = Linear.in_features self →
  ∃ y, Linear.forward1 self x = Ok y ∧ length y = Linear.out_features self.
Proof.
  intros Hx. unfold Linear.forward1.
  rewrite (proj2 (Nat.eqb_eq _ _) Hx).
  eexists. split; [reflexivity|].
  by rewrite List.length_map, List.length_seq.
Qed.

Lemma Forall2_right {A B} (P : A → B → Prop) (Q : B → Prop)
    (l : list A) (k : list B) :
  Forall2 P l k → (∀ x y, P x y → Q y) → Forall Q k.
Proof. intros HF HPQ. induction HF; constructor; eauto. Qed.

Lemma Forall2_shape3 {A B} (P : A → list (list B) → Prop) (b r c : nat)
    (l : list A) (k : list (list (list B))) :
  length l = b → Forall2 (λ x y, P x y ∧ shape2 r c y) l k → shape3 b r c k.
Proof.
  intros Hb HF. split.
  - rewrite <- Hb. symmetry. by eapply Forall2_length.
  - clear Hb. induction HF as [|x y l k [_ Hy] _ IH]; constructor; auto.
Qed.

Lemma Conv1d_forward_ok (self : Conv1d.t) (x : ten3) (b L : nat) :
  shape3 b (Conv1d.in_channels self) L x →
  (1 ≤ Conv1d.in_channels self)%nat →
  (Conv1d.kernel_size self ≤ L + 2 * Conv1d.padding self)%nat →
  ∃ y, Conv1d.forward self x = Ok y ∧
       shape3 b (Conv1d.out_channels self)
         (L + 2 * Conv1d.padding self - Conv1d.kernel_size self + 1) y.
Proof.
  intros [Hb Hx] Hc Hk. unfold Conv1d.forward.
  destruct (mapM_res_Forall2 (Conv1d.forward1 self)
              (λ _ y, True ∧ shape2 (Conv1d.out_channels self)
                 (L + 2 * Conv1d.padding self - Conv1d.kernel_size self + 1) y) x)
    as (y & Hy & HF).
  { eapply Forall_impl; [exact Hx|]. intros m Hm.
    destruct (Conv1d_forward1_ok self m L Hm Hc Hk) as (y & Hy & Hs). eauto. }
  exists y. split; [exact Hy|].
  exact (Forall2_shape3 (λ _ _, True) _ _ _ x y Hb HF).
Qed.

Lemma LSTM_forward_ok `{!Activation} (self : LSTM.t) (x : ten3) (b L : nat) :
  shape3 b L (LSTM.input_size self) x →
  ∃ out states, LSTM.forward self x = Ok (out, states) ∧
                shape3 b L (LSTM.hidden_size self) out.
Proof.
  intros [Hb Hx]. unfold LSTM.forward.
  destruct (mapM_res_Forall2 (LSTM.forward1 self)
              (λ _ r, shape2 L (LSTM.hidden_size self) (fst r)) x)
    as (r & Hr & HF).
  { eapply Forall_impl; [exact Hx|]. intros m Hm.
    destruct (LSTM_forward1_ok self m L Hm) as (r & Hr & Hs). eauto. }
  exists (map fst r), (map snd r). rewrite Hr. split; [reflexivity|].
  split.
  - rewrite List.length_map, <- Hb. symmetry. by eapply Forall2_length.
  - clear Hr Hb Hx. induction HF as [|m r0 x r Hs _ IH]; simpl; constructor; auto.
Qed.

Lemma last_step_ok (lstm_out : ten3) (b L Hd : nat) :
  shape3 b L Hd lstm_out → (1 ≤ L)%nat →
  ∃ lastv, CNNLSTMClassifier.last_step lstm_out = Ok lastv ∧
           Forall2 (λ sample h, last sample = Some h ∧ length h = Hd)
             lstm_out lastv.
Proof.
  intros [Hb Hx] HL. unfold CNNLSTMClassifier.last_step.
  apply mapM_res_Forall2.
  eapply Forall_impl; [exact Hx|]. intros m [Hm Hrows].
  destruct (py_index_last m) as (h & Hh & Hlast); [lia|].
  exists h. split; [exact Hh|]. split; [exact Hlast|].
  rewrite last_lookup in Hlast.
  exact (Forall_lookup_1 _ _ _ _ Hrows Hlast).
Qed.

Lemma Linear_forward_ok (self : Linear.t) (x : mat) :
  Forall (λ v, length v = Linear.in_features self) x →
  ∃ y, Linear.forward self x = Ok y ∧
       Forall2 (λ h row, Linear.forward1 self h = Ok row
                         ∧ length row = Linear.out_features self) x y.
Proof.
  intros Hx. unfold Linear.forward. apply mapM_res_Forall2.
  eapply Forall_impl; [exact Hx|]. intros v Hv.
  destruct (Linear_forward1_ok self v Hv) as (y & Hy & Hlen). eauto.
Qed.

Lemma encoder_block_ok (self : CNNLSTMClassifier.t)
    (input_ids attention_mask : list (list Z)) (b L D : nat) :
  let hidden_states :=
    Encoder.hidden_states (CNNLSTMClassifier.bert self)
      (Encoder.training (CNNLSTMClassifier.bert self)) input_ids attention_mask in
  CNNLSTMClassifier.model_name self = "distilbert"
    ∨ CNNLSTMClassifier.model_name self = "tinybert"
    ∨ CNNLSTMClassifier.model_name self = "electra" →
  hidden_states ≠ [] → Forall (shape3 b L D) hidden_states → (1 ≤ L)%nat →
  ∃ embeddings,
    CNNLSTMClassifier.encoder_block self input_ids attention_mask = Ok embeddings ∧
    shape3 b D L (data embeddings) ∧
    graph embeddings
    = (if Encoder.training (CNNLSTMClassifier.bert self)
       then list_to_set (map (String.append "bert.")
                           (Encoder.hidden_parameters (CNNLSTMClassifier.bert self)))
       else ∅).
Proof.
  intros hs Hname Hne Hs HL.
  assert (∃ k, (CNNLSTMClassifier.model_name self = "distilbert" ∧ k = 6%nat)
               ∨ (CNNLSTMClassifier.model_name self = "tinybert" ∧ k = 4%nat)
               ∨ (CNNLSTMClassifier.model_name self = "electra" ∧ k = 12%nat))
    as [k Hk].
  { destruct Hname as [E | [E | E] ].
    - exists 6%nat. left. by split.
    - exists 4%nat. right. left. by split.
    - exists 12%nat. right. right. by split. }
  pose proof (sum_model_layers_supported _ k hs b L D Hk Hne Hs) as Hsum.
  assert (Hk1 : (1 ≤ k)%nat)
    by (destruct Hk as [ [_ ->] | [ [_ ->] | [_ ->] ] ]; lia).
  destruct (sum_dim0_spec b L D (py_slice_last k hs)) as [Hshape _].
  { by apply py_slice_last_nonempty. }
  { by apply Forall_drop. }
  unfold CNNLSTMClassifier.encoder_block, apply_op. simpl. fold hs.
  rewrite Hsum. simpl. eexists. split; [reflexivity|]. simpl. split.
  - by apply shape3_permute.
  - destruct (Encoder.training (CNNLSTMClassifier.bert self)); [|reflexivity].
    by rewrite !(right_id_L ∅ (∪)).
Qed.

(** ** forward *)

(** The whole of [forward] on a batch for which the encoder returns hidden
    states of shape (b, L, D): every intermediate tensor, the logits and
    the graph of the logits. *)
Lemma forward_spec `{!Activation} (self : CNNLSTMClassifier.t)
    (input_ids attention_mask : list (list Z)) (grad_enabled : bool)
    (b L D C Hd nc : nat) :
  let hidden_states :=
    Encoder.hidden_states (CNNLSTMClassifier.bert self)
      (Encoder.training (CNNLSTMClassifier.bert self)) input_ids attention_mask in
  CNNLSTMClassifier.head_dims self D C Hd nc →
  CNNLSTMClassifier.model_name self = "distilbert"
    ∨ CNNLSTMClassifier.model_name self = "tinybert"
    ∨ CNNLSTMClassifier.model_name self = "electra" →
  hidden_states ≠ [] → Forall (shape3 b L D) hidden_states →
  (1 ≤ L)%nat → (1 ≤ D)%nat → (1 ≤ C)%nat →
  ∃ embeddings cnn_out lstm_out states lastv logits,
    CNNLSTMClassifier.encoder_block self input_ids attention_mask = Ok embeddings ∧
    graph embeddings
    = (if Encoder.training (CNNLSTMClassifier.bert self)
       then list_to_set (map (String.append "bert.")
                           (Encoder.hidden_parameters (CNNLSTMClassifier.bert self)))
       else ∅) ∧
    Conv1d.forward (CNNLSTMClassifier.cnn self) (data embeddings) = Ok cnn_out ∧
    LSTM.forward (CNNLSTMClassifier.lstm self) (permute_0_2_1 cnn_out)
    = Ok (lstm_out, states) ∧
    shape3 b L Hd lstm_out ∧
    CNNLSTMClassifier.last_step lstm_out = Ok lastv ∧
    Forall2 (λ sample h, last sample = Some h ∧ length h = Hd) lstm_out lastv ∧
    Forall2 (λ h row, Linear.forward1 (CNNLSTMClassifier.fc self) h = Ok row
                      ∧ length row = nc) lastv (data logits) ∧
    CNNLSTMClassifier.forward self input_ids attention_mask grad_enabled = Ok logits ∧
    graph logits
    = (if grad_enabled
       then graph embeddings
            ∪ list_to_set (CNNLSTMClassifier.cnn_parameters
                           ++ CNNLSTMClassifier.lstm_parameters
                           ++ CNNLSTMClassifier.fc_parameters)
       else ∅).
Proof.
  intros hs (Hin & Hout & Hks & Hpad & Hli & Hlh & Hfi & Hfo) Hname Hne Hs HL HD HC.
  destruct (encoder_block_ok self input_ids attention_mask b L D Hname Hne Hs HL)
    as (emb & Hemb & Hes & Heg).
  destruct (Conv1d_forward_ok (CNNLSTMClassifier.cnn self) (data emb) b L)
    as (cnn_out & Hcnn & Hcs); [by rewrite Hin | lia | lia |].
  rewrite Hout, Hks, Hpad in Hcs.
  replace (L + 2 * 1 - 3 + 1)%nat with L in Hcs by lia.
  pose proof (shape3_permute b C L cnn_out Hcs HC) as Hps.
  rewrite <- Hli in Hps.
  destruct (LSTM_forward_ok (CNNLSTMClassifier.lstm self) _ b L Hps)
    as (lstm_out & states & Hlstm & Hls).
  rewrite Hlh in Hls.
  destruct (last_step_ok lstm_out b L Hd Hls HL) as (lastv & Hlast & HFl).
  destruct (Linear_forward_ok (CNNLSTMClassifier.fc self) lastv)
    as (logits & Hfc & HFf).
  { rewrite Hfi. eapply Forall2_right; [exact HFl|]. by intros ? ? [_ ?]. }
  rewrite Hfo in HFf.
  eexists emb, cnn_out, lstm_out, states, lastv, (Tracked logits _).
  split; [exact Hemb|]. split; [exact Heg|]. split; [exact Hcnn|].
  split; [exact Hlstm|]. split; [exact Hls|]. split; [exact Hlast|].
  split; [exact HFl|]. split; [exact HFf|].
  assert (Hfw : CNNLSTMClassifier.forward self input_ids attention_mask grad_enabled
          = Ok (Tracked logits
                  (if grad_enabled
                   then graph emb
                        ∪ list_to_set (CNNLSTMClassifier.cnn_parameters
                                       ++ CNNLSTMClassifier.lstm_parameters
                                       ++ CNNLSTMClassifier.fc_parameters)
                   else ∅))).
  { unfold CNNLSTMClassifier.forward. rewrite Hemb. simpl.
    unfold CNNLSTMClassifier.classification_head, apply_op.
    rewrite Hcnn. simpl. rewrite Hlstm. simpl. rewrite Hlast. simpl.
    rewrite Hfc. simpl. f_equal. f_equal.
    destruct grad_enabled; [|reflexivity].
    simpl. rewrite !(right_id_L ∅ (∪)), <- !(assoc_L (∪)). reflexivity. }
  split; [exact Hfw|]. reflexivity.
Qed.

Lemma head_dims_init (model_name : string) (bert : Encoder.t)
    (in_channels cnn_out_channels lstm_hidden_dim num_classes : nat) (w : head_init) :
  CNNLSTMClassifier.head_dims
    (CNNLSTMClassifier.__init__ model_name bert in_channels cnn_out_channels
       lstm_hidden_dim num_classes w)
    in_channels cnn_out_channels lstm_hidden_dim num_classes.
Proof. repeat split. Qed.

Lemma head_dims_train (mode : bool) (self : CNNLSTMClassifier.t) (D C Hd nc : nat) :
  CNNLSTMClassifier.head_dims self D C Hd nc →
  CNNLSTMClassifier.head_dims (CNNLSTMClassifier.train mode self) D C Hd nc.
Proof. intros Hdims. exact Hdims. Qed.

Lemma Forall2_compose {A B C} (P : A → B → Prop) (Q : B → C → Prop)
    (l : list A) (k : list B) (m : list C) :
  Forall2 P l k → Forall2 Q k m → Forall2 (λ x z, ∃ y, P x y ∧ Q y z) l m.
Proof.
  intros HP. revert m. induction HP as [|x y l k Hxy _ IH]; intros m HQ.
  - inversion HQ. constructor.
  - inversion HQ as [|? z ? m' Hyz HQ']; subst. constructor; eauto.
Qed.

(** C3: on a batch of [b] sequences [forward] returns logits of shape
    (b, 2), each row being the final linear layer applied to the output of
    the LSTM at the last time step of that sequence.  The head has the
    dimensions of [__init__] with two classes, and the encoder returns
    hidden states of shape (b, L, in_channels) for sequences of L >= 1
    tokens. *)
Theorem forward_logits_shape `{!Activation} (self : CNNLSTMClassifier.t)
    (input_ids attention_mask : list (list Z)) (grad_enabled : bool)
    (b L D C Hd : nat) :
  let hidden_states :=
    Encoder.hidden_states (CNNLSTMClassifier.bert self)
      (Encoder.training (CNNLSTMClassifier.bert self)) input_ids attention_mask in
  CNNLSTMClassifier.head_dims self D C Hd CNNLSTMClassifier.default_num_classes →
  CNNLSTMClassifier.model_name self = "distilbert"
    ∨ CNNLSTMClassifier.model_name self = "tinybert"
    ∨ CNNLSTMClassifier.model_name self = "electra" →
  length input_ids = b →
  hidden_states ≠ [] → Forall (shape3 b L D) hidden_states →
  (1 ≤ L)%nat → (1 ≤ D)%nat → (1 ≤ C)%nat →
  ∃ (logits : tracked mat) (embeddings : tracked ten3) (cnn_out lstm_out : ten3)
    (states : list (vec * vec)),
    CNNLSTMClassifier.forward self input_ids attention_mask grad_enabled = Ok logits ∧
    shape2 b 2 (data logits) ∧
    CNNLSTMClassifier.encoder_block self input_ids attention_mask = Ok embeddings ∧
    Conv1d.forward (CNNLSTMClassifier.cnn self) (data embeddings) = Ok cnn_out ∧
    LSTM.forward (CNNLSTMClassifier.lstm self) (permute_0_2_1 cnn_out)
    = Ok (lstm_out, states) ∧
    shape3 b L Hd lstm_out ∧
    Forall2 (λ sample row,
               ∃ h, last sample = Some h
                    ∧ Linear.forward1 (CNNLSTMClassifier.fc self) h = Ok row)
      lstm_out (data logits).
Proof.
  intros hs Hdims Hname Hb Hne Hs HL HD HC.
  destruct (forward_spec self input_ids attention_mask grad_enabled b L D C Hd _
              Hdims Hname Hne Hs HL HD HC)
    as (emb & cnn_out & lstm_out & states & lastv & logits
        & Hemb & _ & Hcnn & Hlstm & Hls & _ & HFl & HFf & Hfw & _).
  exists logits, emb, cnn_out, lstm_out, states.
  split; [exact Hfw|]. split.
  { split.
    - destruct Hls as [Hlb _]. rewrite <- Hlb.
      rewrite (Forall2_length _ _ _ HFl). symmetry.
      exact (Forall2_length _ _ _ HFf).
    - eapply Forall2_right; [exact HFf|]. by intros ? ? [_ ?]. }
  split; [exact Hemb|]. split; [exact Hcnn|]. split; [exact Hlstm|].
  split; [exact Hls|].
  eapply Forall2_impl; [exact (Forall2_compose _ _ _ _ _ HFl HFf)|].
  intros sample row (h & [Hlast _] & [Hrow _]). eauto.
Qed.

Lemma forward_logits_shape_witness :
  let self := CNNLSTMClassifier.__init__ "tinybert" (Samples.encoder 5 3) 3 4 2
                CNNLSTMClassifier.default_num_classes Samples.weights in
  ∃ logits : tracked mat,
    CNNLSTMClassifier.forward (H := Samples.activation) self
      (input_ids Samples.batch1) (attention_mask Samples.batch1) true = Ok logits ∧
    shape2 2 2 (data logits).
Proof.
  intros self.
  assert (Hname : CNNLSTMClassifier.model_name self = "distilbert"
                  ∨ CNNLSTMClassifier.model_name self = "tinybert"
                  ∨ CNNLSTMClassifier.model_name self = "electra")
    by (right; left; reflexivity).
  assert (Hne : Encoder.hidden_states (CNNLSTMClassifier.bert self)
                  (Encoder.training (CNNLSTMClassifier.bert self))
                  (input_ids Samples.batch1) (attention_mask Samples.batch1) ≠ [])
    by discriminate.
  assert (H1 : (1 ≤ 2)%nat) by lia.
  assert (H3 : (1 ≤ 3)%nat) by lia.
  assert (H4 : (1 ≤ 4)%nat) by lia.
  destruct (forward_logits_shape (H := Samples.activation) self
              (input_ids Samples.batch1) (attention_mask Samples.batch1) true
              2 2 3 4 2 (head_dims_init _ _ _ _ _ _ _) Hname eq_refl Hne)
    as (logits & _ & _ & _ & _ & Hfw & Hshape & _); [| exact H1 | exact H3 | exact H4 |].
  { repeat constructor. }
  exists logits. split; [exact Hfw | exact Hshape].
Defined.

(** ** Fine-tuning of the encoder *)






(** ** The classifiers of the notebook *)

(** C7: the notebook builds three classifiers and trains each of them: over
    the distilbert encoder with 768 input channels, over the tinybert encoder
    with 312 and over the electra encoder with 256; all three heads are a
    Conv1d to 64 channels with kernel size 3 and padding 1, an LSTM from 64
    to hidden size 64 and a Linear layer from 64 to 2 classes. *)
Theorem notebook_three_classifiers `{!Activation} {G OptState : Type}
    (criterion : mat → list Z → Qc)
    (gradient : CNNLSTMClassifier.t → batch → tracked mat → G)
    (gzero : G) (gadd : G → G → G) (gscale : Qc → G → G)
    (optimizer_step : AdamW * OptState → CNNLSTMClassifier.t → G
                      → (AdamW * OptState) * CNNLSTMClassifier.t)
    (classification_report : list Z → list Z → string) (device : string)
    (distilbert tinybert electra : Encoder.t) (w1 w2 w3 : head_init) :
  let ms := Notebook.classifiers distilbert tinybert electra w1 w2 w3 in
  length ms = 3%nat ∧
  map CNNLSTMClassifier.model_name ms = ["distilbert"; "tinybert"; "electra"] ∧
  map CNNLSTMClassifier.bert ms
  = [Encoder.train true (from_pretrained distilbert);
     Encoder.train true (from_pretrained tinybert);
     Encoder.train true (from_pretrained electra)] ∧
  map (λ m, Conv1d.in_channels (CNNLSTMClassifier.cnn m)) ms
  = [768%nat; 312%nat; 256%nat] ∧
  Forall (λ m,
      Conv1d.out_channels (CNNLSTMClassifier.cnn m) = 64%nat ∧
      Conv1d.kernel_size (CNNLSTMClassifier.cnn m) = 3%nat ∧
      Conv1d.padding (CNNLSTMClassifier.cnn m) = 1%nat ∧
      LSTM.input_size (CNNLSTMClassifier.lstm m) = 64%nat ∧
      LSTM.hidden_size (CNNLSTMClassifier.lstm m) = 64%nat ∧
      Linear.in_features (CNNLSTMClassifier.fc m) = 64%nat ∧
      Linear.out_features (CNNLSTMClassifier.fc m) = 2%nat) ms ∧
  (∀ w o0 g0 train_dataloader dev_dataloader test_dataloader fs,
     let train m :=
       train_model CNNLSTMClassifier.forward criterion gradient gzero gadd gscale
         optimizer_step m train_dataloader (Notebook.make_optimizer m, o0) 1 10 g0 in
     let cells := Notebook.after_training classification_report device in
     Notebook.DB_experiment criterion gradient gzero gadd gscale optimizer_step
       classification_report device distilbert w o0 g0
       train_dataloader dev_dataloader test_dataloader fs
     = train (Notebook.DB_model distilbert w)
       ≫= cells "models/DB_model.pt" "predictions/DB_preds.pt"
             dev_dataloader test_dataloader fs ∧
     Notebook.TB_experiment criterion gradient gzero gadd gscale optimizer_step
       classification_report device tinybert w o0 g0
       train_dataloader dev_dataloader test_dataloader fs
     = train (Notebook.TB_model tinybert w)
       ≫= cells "models/TB_model.pt" "predictions/TB_preds.pt"
             dev_dataloader test_dataloader fs ∧
     Notebook.EL_experiment criterion gradient gzero gadd gscale optimizer_step
       classification_report device electra w o0 g0
       train_dataloader dev_dataloader test_dataloader fs
     = train (Notebook.EL_model electra w)
       ≫= cells "models/EL_model.pt" "predictions/EL_preds.pt"
             dev_dataloader test_dataloader fs).
Proof.
  intros ms. split; [reflexivity|]. split; [reflexivity|]. split; [reflexivity|].
  split; [reflexivity|]. split.
  { repeat constructor. }
  intros. repeat split.
Qed.

(** ** evaluate_model and test_model *)

Lemma max_from_spec (row pre : vec) (best : Qc) (bi : nat) :
  pre !! bi = Some best →
  (∀ x, x ∈ pre → (x ≤ best)%Qc) →
  (∀ j x, (j < bi)%nat → pre !! j = Some x → (x < best)%Qc) →
  ∀ v k, max_from best bi (length pre) row = (v, k) →
    (pre ++ row) !! k = Some v ∧
    (∀ x, x ∈ pre ++ row → (x ≤ v)%Qc) ∧
    (∀ j x, (j < k)%nat → (pre ++ row) !! j = Some x → (x < v)%Qc).
Proof.
  revert pre best bi. induction row as [|x rest IH]; intros pre best bi Hb Hmax Hfirst v k.
  - simpl. intros [= <- <-]. rewrite app_nil_r. auto.
  - simpl. pose proof (lookup_lt_Some _ _ _ Hb) as Hlt.
    replace (pre ++ x :: rest) with ((pre ++ [x]) ++ rest)
      by (by rewrite <- app_assoc).
    replace (S (length pre)) with (length (pre ++ [x]))
      by (rewrite length_app; simpl; lia).
    destruct (decide (best < x)%Qc) as [Hlt'|Hge].
    + apply IH.
      * rewrite lookup_app_r by lia. by rewrite Nat.sub_diag.
      * intros y Hy. apply elem_of_app in Hy as [Hy|Hy].
        -- apply Qclt_le_weak. eapply Qcle_lt_trans; [by apply Hmax | exact Hlt'].
        -- apply list_elem_of_singleton in Hy as ->. apply Qcle_refl.
      * intros j y Hj Hy. rewrite lookup_app_l in Hy by exact Hj.
        eapply Qcle_lt_trans; [|exact Hlt'].
        apply Hmax. by eapply list_elem_of_lookup_2.
    + apply Qcnot_lt_le in Hge. apply IH.
      * by rewrite lookup_app_l.
      * intros y Hy. apply elem_of_app in Hy as [Hy|Hy]; [by apply Hmax|].
        by apply list_elem_of_singleton in Hy as ->.
      * intros j y Hj Hy. rewrite lookup_app_l in Hy by lia. by eapply Hfirst.
Qed.

Lemma row_max_spec (row : vec) :
  row ≠ [] → ∃ v p, row_max row = Ok (v, p) ∧ is_argmax row p.
Proof.
  intros Hne. destruct row as [|x rest]; [done|]. unfold row_max.
  destruct (max_from x 0 1 rest) as [v k] eqn:E.
  destruct (max_from_spec rest [x] x 0) with (v := v) (k := k)
    as (Hk & Hmax & Hfirst); [reflexivity | | | exact E |].
  { intros y Hy. apply list_elem_of_singleton in Hy as ->. apply Qcle_refl. }
  { intros j y Hj. lia. }
  exists v, (Z.of_nat k). split; [reflexivity|].
  split; [lia|]. exists v. rewrite Nat2Z.id. auto.
Qed.

Lemma torch_max_dim1_spec (outputs : mat) :
  Forall (λ row, row ≠ []) outputs →
  ∃ values indices, torch_max_dim1 outputs = Ok (values, indices) ∧
                    Forall2 is_argmax outputs indices.
Proof.
  intros Hne. unfold torch_max_dim1.
  destruct (mapM_res_Forall2 row_max (λ row r, is_argmax row (snd r)) outputs)
    as (r & Hr & HF).
  { eapply Forall_impl; [exact Hne|]. intros row Hrow.
    destruct (row_max_spec row Hrow) as (v & p & Hv & Hp). by exists (v, p). }
  exists (map fst r), (map snd r). rewrite Hr. split; [reflexivity|].
  clear Hr Hne. induction HF; simpl; constructor; auto.
Qed.

Lemma is_argmax_lt (row : vec) (p : Z) :
  is_argmax row p → 0 ≤ p < Z.of_nat (length row).
Proof.
  intros (Hp & v & Hv & _). apply lookup_lt_Some in Hv. lia.
Qed.

Lemma report_call_ok (report : list Z → list Z → string)
    (true_labels predictions : list Z) :
  length true_labels = length predictions → true_labels ≠ [] →
  report_call report true_labels predictions = Ok (report true_labels predictions).
Proof.
  intros Hlen Hne. unfold report_call.
  rewrite Hlen, Nat.eqb_refl. simpl. rewrite <- Hlen.
  destruct true_labels; [done | reflexivity].
Qed.

Lemma report_call_inv (report : list Z → list Z → string)
    (true_labels predictions : list Z) (r : string) :
  report_call report true_labels predictions = Ok r →
  r = report true_labels predictions ∧
  length true_labels = length predictions ∧ true_labels ≠ [].
Proof.
  unfold report_call.
  destruct (Nat.eqb_spec (length true_labels) (length predictions)) as [Hlen|_];
    [|discriminate].
  simpl. destruct true_labels; [discriminate|]. simpl.
  intros H. injection H as <-. by repeat split.
Qed.

Lemma evaluate_batches_test_batches {Model : Type}
    (call : Model → list (list Z) → list (list Z) → bool → res (tracked mat))
    (m : Model) (dataloader : list batch) (predictions true_labels : list Z) :
  evaluate_batches call m dataloader predictions true_labels
  = test_batches call m dataloader predictions true_labels.
Proof.
  revert predictions true_labels.
  induction dataloader as [|batches rest IH]; intros predictions true_labels.
  - reflexivity.
  - simpl. destruct (call m _ _ false) as [outputs|e]; [|reflexivity]. simpl.
    destruct (torch_max_dim1 (data outputs)) as [vi|e]; [|reflexivity]. simpl.
    apply IH.
Qed.

(** C8: on the same model and data loader [evaluate_model] and
    [test_model] either both raise the same exception or both finish, with
    the model in evaluation mode, the same printed report and the same
    prediction and label lists; [evaluate_model] returns nothing and
    [test_model] returns the two lists. *)
Theorem evaluate_model_test_model_agree {Model : Type}
    (call : Model → list (list Z) → list (list Z) → bool → res (tracked mat))
    (eval : Model → Model) (classification_report : list Z → list Z → string)
    (m : Model) (dataloader : list batch) (device : string) :
  match evaluate_model call eval classification_report m dataloader device,
        test_model call eval classification_report m dataloader device with
  | Ok fe, Ok ft =>
      frame_model fe = eval m ∧ frame_model ft = eval m ∧
      stdout fe = stdout ft ∧
      predictions fe = predictions ft ∧
      true_labels fe = true_labels ft ∧
      evaluate_batches call (eval m) dataloader [] []
      = Ok (predictions fe, true_labels fe) ∧
      returned fe = tt ∧
      returned ft = (predictions ft, true_labels ft)
  | Raise e1, Raise e2 => e1 = e2
  | _, _ => False
  end.
Proof.
  unfold evaluate_model, test_model.
  rewrite <- (evaluate_batches_test_batches call (eval m) dataloader [] []).
  destruct (evaluate_batches call (eval m) dataloader [] []) as [[p t]|e]; simpl.
  - destruct (report_call classification_report t p) as [r|e]; simpl.
    + repeat split; reflexivity.
    + reflexivity.
  - reflexivity.
Qed.

Lemma test_batches_spec {Model : Type}
    (call : Model → list (list Z) → list (list Z) → bool → res (tracked mat))
    (m : Model) (dataloader : list batch) (predictions true_labels : list Z) :
  Forall (λ batches,
      ∃ outputs, call m (input_ids batches) (attention_mask batches) false = Ok outputs
                 ∧ shape2 (length (input_ids batches)) 2 (data outputs)) dataloader →
  ∃ (logits : list mat) (preds : list Z),
    test_batches call m dataloader predictions true_labels
    = Ok (predictions ++ preds, true_labels ++ concat (map labels dataloader)) ∧
    Forall2 (λ batches out,
        ∃ outputs, call m (input_ids batches) (attention_mask batches) false
                   = Ok outputs
                   ∧ data outputs = out
                   ∧ shape2 (length (input_ids batches)) 2 out) dataloader logits ∧
    Forall2 is_argmax (concat logits) preds.
Proof.
  intros Hall. revert predictions true_labels.
  induction Hall as [|batches rest (outputs & Hcall & Hshape) _ IH];
    intros predictions true_labels.
  - exists [], []. simpl. rewrite !app_nil_r.
    split; [reflexivity|]. split; constructor.
  - simpl. rewrite Hcall. simpl.
    destruct (torch_max_dim1_spec (data outputs)) as (vals & idx & Hmax & Harg).
    { destruct Hshape as [_ Hrows]. eapply Forall_impl; [exact Hrows|].
      intros row Hrow ->. simpl in Hrow. lia. }
    rewrite Hmax. simpl.
    destruct (IH (predictions ++ idx) (true_labels ++ labels batches))
      as (logits & preds & Hrest & HF & Hargs).
    exists (data outputs :: logits), (idx ++ preds).
    rewrite Hrest, <- !app_assoc. split; [reflexivity|]. split.
    + constructor; [|exact HF]. exists outputs. auto.
    + simpl. by apply Forall2_app.
Qed.

Lemma experiment_saves_predictions `{!Activation} {G OptState : Type}
    (criterion : mat → list Z → Qc)
    (gradient : CNNLSTMClassifier.t → batch → tracked mat → G)
    (gzero : G) (gadd : G → G → G) (gscale : Qc → G → G)
    (optimizer_step : AdamW * OptState → CNNLSTMClassifier.t → G
                      → (AdamW * OptState) * CNNLSTMClassifier.t)
    (classification_report : list Z → list Z → string) (device : string)
    (model_name : string) (checkpoint : Encoder.t) (in_channels : nat)
    (model_path preds_path : string) (w : head_init) (o0 : OptState) (g0 : G)
    (train_dataloader dev_dataloader test_dataloader : list batch)
    (fs fs' : gmap string file)
    (te : frame CNNLSTMClassifier.t (list Z * list Z)) :
  Notebook.experiment criterion gradient gzero gadd gscale optimizer_step
    classification_report device model_name checkpoint in_channels
    model_path preds_path w o0 g0 train_dataloader dev_dataloader test_dataloader fs
  = Ok (fs', te) →
  fs' !! preds_path = Some (SavedList (fst (returned te))) ∧
  ∃ m', test_model CNNLSTMClassifier.forward CNNLSTMClassifier.eval
          classification_report m' test_dataloader device = Ok te.
Proof.
  unfold Notebook.experiment, Notebook.after_training. intros Hrun.
  destruct (train_model _ _ _ _ _ _ _ _ _ _ _ _ _) as [s|e]; [|discriminate Hrun].
  simpl in Hrun.
  destruct (Notebook.load_model _ _) as [m1|e]; [|discriminate Hrun].
  simpl in Hrun.
  destruct (evaluate_model _ _ _ m1 _ _) as [ev|e]; [|discriminate Hrun].
  simpl in Hrun.
  destruct (test_model _ _ _ (frame_model ev) _ _) as [te'|e] eqn:Htest;
    [|discriminate Hrun].
  simpl in Hrun. destruct (returned te') as [preds labs] eqn:Hret.
  injection Hrun as <- <-. split.
  - unfold torch_save. rewrite lookup_insert_eq, Hret. reflexivity.
  - by exists (frame_model ev).
Qed.

Lemma forward_shape `{!Activation} (self : CNNLSTMClassifier.t)
    (input_ids attention_mask : list (list Z)) (grad_enabled : bool)
    (b L D C Hd nc : nat) :
  let hidden_states :=
    Encoder.hidden_states (CNNLSTMClassifier.bert self)
      (Encoder.training (CNNLSTMClassifier.bert self)) input_ids attention_mask in
  CNNLSTMClassifier.head_dims self D C Hd nc →
  CNNLSTMClassifier.model_name self = "distilbert"
    ∨ CNNLSTMClassifier.model_name self = "tinybert"
    ∨ CNNLSTMClassifier.model_name self = "electra" →
  hidden_states ≠ [] → Forall (shape3 b L D) hidden_states →
  (1 ≤ L)%nat → (1 ≤ D)%nat → (1 ≤ C)%nat →
  ∃ logits,
    CNNLSTMClassifier.forward self input_ids attention_mask grad_enabled = Ok logits ∧
    shape2 b nc (data logits).
Proof.
  intros hs Hdims Hname Hne Hs HL HD HC.
  destruct (forward_spec self input_ids attention_mask grad_enabled b L D C Hd nc
              Hdims Hname Hne Hs HL HD HC)
    as (emb & cnn_out & lstm_out & states & lastv & logits
        & _ & _ & _ & _ & Hls & _ & HFl & HFf & Hfw & _).
  exists logits. split; [exact Hfw|]. split.
  - destruct Hls as [Hlb _]. rewrite <- Hlb.
    rewrite (Forall2_length _ _ _ HFl). symmetry.
    exact (Forall2_length _ _ _ HFf).
  - eapply Forall2_right; [exact HFf|]. by intros ? ? [_ ?].
Qed.

Lemma length_concat_Forall2 {A B C} (P : A → list B → Prop) (f : A → list C)
    (l : list A) (k : list (list B)) :
  Forall2 (λ x y, P x y ∧ length y = length (f x)) l k →
  length (concat k) = length (concat (map f l)).
Proof.
  induction 1 as [|x y l k [_ Hxy] _ IH]; simpl; [reflexivity|].
  rewrite !length_app. lia.
Qed.

(** C6: [test_model] returns the pair (predictions, true_labels); both
    lists have one entry per example of the data loader, in the order of the
    data loader; every prediction is the index of the largest of the two
    logits of its example, so 0 or 1; and in each of the three parts of the
    notebook the returned predictions are what is saved under
    predictions/.  The model has the head of [__init__] with two classes,
    its encoder returns hidden states of shape (b, L, in_channels) on every
    batch, and the data loader holds at least one example (on none, the
    report that [test_model] prints before it returns is refused). *)
Theorem test_model_predictions `{!Activation} {G OptState : Type}
    (criterion : mat → list Z → Qc)
    (gradient : CNNLSTMClassifier.t → batch → tracked mat → G)
    (gzero : G) (gadd : G → G → G) (gscale : Qc → G → G)
    (optimizer_step : AdamW * OptState → CNNLSTMClassifier.t → G
                      → (AdamW * OptState) * CNNLSTMClassifier.t)
    (classification_report : list Z → list Z → string) (device : string) :
  (∀ (m : CNNLSTMClassifier.t) (dataloader : list batch) (D C Hd : nat),
     CNNLSTMClassifier.head_dims m D C Hd CNNLSTMClassifier.default_num_classes →
     CNNLSTMClassifier.model_name m = "distilbert"
       ∨ CNNLSTMClassifier.model_name m = "tinybert"
       ∨ CNNLSTMClassifier.model_name m = "electra" →
     (1 ≤ D)%nat → (1 ≤ C)%nat →
     Forall (λ batches,
         length (labels batches) = length (input_ids batches) ∧
         ∃ L, (1 ≤ L)%nat ∧
           let hidden_states :=
             Encoder.hidden_states (CNNLSTMClassifier.bert m) false
               (input_ids batches) (attention_mask batches) in
           hidden_states ≠ [] ∧
           Forall (shape3 (length (input_ids batches)) L D) hidden_states)
       dataloader →
     concat (map input_ids dataloader) ≠ [] →
     ∃ (fr : frame CNNLSTMClassifier.t (list Z * list Z)) (logits : list mat),
       test_model CNNLSTMClassifier.forward CNNLSTMClassifier.eval
         classification_report m dataloader device = Ok fr ∧
       returned fr = (predictions fr, true_labels fr) ∧
       true_labels fr = concat (map labels dataloader) ∧
       length (true_labels fr) = length (concat (map input_ids dataloader)) ∧
       length (predictions fr) = length (concat (map input_ids dataloader)) ∧
       Forall2 (λ batches out,
           ∃ outputs,
             CNNLSTMClassifier.forward (CNNLSTMClassifier.eval m)
               (input_ids batches) (attention_mask batches) false = Ok outputs
             ∧ data outputs = out
             ∧ shape2 (length (input_ids batches)) 2 out) dataloader logits ∧
       Forall2 is_argmax (concat logits) (predictions fr) ∧
       Forall (λ p, p = 0 ∨ p = 1) (predictions fr)) ∧
  (∀ (checkpoint : Encoder.t) (w : head_init) (o0 : OptState) (g0 : G)
     (train_dataloader dev_dataloader test_dataloader : list batch)
     (fs fs' : gmap string file)
     (te : frame CNNLSTMClassifier.t (list Z * list Z)),
     let saved path :=
       fs' !! path = Some (SavedList (fst (returned te))) ∧
       ∃ m', test_model CNNLSTMClassifier.forward CNNLSTMClassifier.eval
               classification_report m' test_dataloader device = Ok te in
     (Notebook.DB_experiment criterion gradient gzero gadd gscale optimizer_step
        classification_report device checkpoint w o0 g0
        train_dataloader dev_dataloader test_dataloader fs = Ok (fs', te) →
      saved "predictions/DB_preds.pt") ∧
     (Notebook.TB_experiment criterion gradient gzero gadd gscale optimizer_step
        classification_report device checkpoint w o0 g0
        train_dataloader dev_dataloader test_dataloader fs = Ok (fs', te) →
      saved "predictions/TB_preds.pt") ∧
     (Notebook.EL_experiment criterion gradient gzero gadd gscale optimizer_step
        classification_report device checkpoint w o0 g0
        train_dataloader dev_dataloader test_dataloader fs = Ok (fs', te) →
      saved "predictions/EL_preds.pt")).
Proof.
  split.
  - intros m dataloader D C Hd Hdims Hname HD HC Hall Hsome.
    destruct (test_batches_spec CNNLSTMClassifier.forward (CNNLSTMClassifier.eval m)
                dataloader [] []) as (logits & preds & Hrun & HF & Harg).
    { eapply Forall_impl; [exact Hall|].
      intros batches (_ & L & HL & Hne & Hs).
      exact (forward_shape (CNNLSTMClassifier.eval m) (input_ids batches)
               (attention_mask batches) false _ L D C Hd _
               (head_dims_train false m _ _ _ _ Hdims) Hname Hne Hs HL HD HC). }
    simpl in Hrun.
    assert (Hlen : length (concat logits) = length (concat (map input_ids dataloader))).
    { apply (length_concat_Forall2 (λ _ _, True)).
      eapply Forall2_impl; [exact HF|].
      intros batches out (outputs & _ & _ & [Hb _]). by split. }
    assert (Hlabs : length (concat (map labels dataloader))
                    = length (concat (map input_ids dataloader))).
    { clear -Hall. induction Hall as [|batches rest [Hb _] _ IH]; simpl; [reflexivity|].
      rewrite !length_app. lia. }
    assert (Hpreds : length preds = length (concat (map input_ids dataloader))).
    { rewrite <- Hlen. symmetry. exact (Forall2_length _ _ _ Harg). }
    eexists _, logits. unfold test_model. rewrite Hrun, bind_Ok. cbn [fst snd].
    rewrite report_call_ok, bind_Ok; [|by rewrite Hlabs, Hpreds|].
    2:{ intros Hnil. rewrite Hnil in Hlabs. symmetry in Hlabs.
        by apply length_zero_iff_nil in Hlabs. }
    simpl.
    split; [reflexivity|]. split; [reflexivity|]. split; [reflexivity|].
    split; [exact Hlabs|]. split; [exact Hpreds|].
    split; [exact HF|]. split; [exact Harg|].
    assert (Hrows : Forall (λ row : vec, length row = 2%nat) (concat logits)).
    { clear -HF. induction HF as [|batches out rest logits (o & _ & _ & [_ Hr]) _ IH];
        simpl; [constructor|]. by apply Forall_app. }
    clear -Harg Hrows.
    induction Harg as [|row p rows ps Hp _ IH]; constructor.
    + apply Forall_cons in Hrows as [Hrow _].
      apply is_argmax_lt in Hp. lia.
    + apply IH. by apply Forall_cons in Hrows as [_ ?].
  - intros checkpoint w o0 g0 train_dataloader dev_dataloader test_dataloader
      fs fs' te saved.
    split; [|split]; intros Hrun; subst saved;
      eapply experiment_saves_predictions; exact Hrun.
Qed.

Lemma test_model_predictions_witness :
  let m := Notebook.build "tinybert" (Samples.encoder 5 3) 3 Samples.weights in
  (∃ fr, test_model (CNNLSTMClassifier.forward (H := Samples.activation))
           CNNLSTMClassifier.eval (λ _ _, "report") m
           [Samples.batch1; Samples.batch2] "cpu" = Ok fr ∧
         true_labels fr = [1; 0; 1] ∧
         length (predictions fr) = 3%nat) ∧
  (∃ fs' te, Samples.electra_run = Ok (fs', te) ∧
             fs' !! "predictions/EL_preds.pt" = Some (SavedList (fst (returned te)))).
Proof.
  intros m.
  destruct (test_model_predictions (H := Samples.activation) (G := unit)
              (OptState := unit) (λ _ _, 0%Qc) (λ _ _ _, tt) tt (λ _ _, tt)
              (λ _ _, tt) (λ o m _, (o, m)) (λ _ _, "report") "cpu")
    as [Htest Hsave].
  split.
  - assert (Hdims : CNNLSTMClassifier.head_dims m 3 64 64
                      CNNLSTMClassifier.default_num_classes) by (repeat split).
    assert (Hname : CNNLSTMClassifier.model_name m = "distilbert"
                    ∨ CNNLSTMClassifier.model_name m = "tinybert"
                    ∨ CNNLSTMClassifier.model_name m = "electra")
      by (right; left; reflexivity).
    assert (H3 : (1 ≤ 3)%nat) by lia.
    assert (H64 : (1 ≤ 64)%nat) by lia.
    assert (Hsome : concat (map input_ids [Samples.batch1; Samples.batch2]) ≠ [])
      by discriminate.
    destruct (Htest m [Samples.batch1; Samples.batch2] 3%nat 64%nat 64%nat
                Hdims Hname H3 H64)
      as (fr & logits & Hrun & _ & Hlabs & _ & Hlen & _); [|exact Hsome|].
    { repeat constructor; exists 2%nat; repeat constructor; discriminate. }
    exists fr. split; [exact Hrun|]. split; [exact Hlabs | exact Hlen].
  - assert (Hok : (if Samples.electra_run is Ok _ then true else false) = true)
      by (vm_compute; reflexivity).
    destruct Samples.electra_run as [[fs' te]|e] eqn:E; [|discriminate Hok].
    exists fs', te. split; [reflexivity|].
    destruct (Hsave (Samples.encoder 13 256) Samples.weights tt tt
                [Samples.batch2] [Samples.batch3] [Samples.batch3] ∅ fs' te)
      as (_ & _ & HEL).
    destruct (HEL E) as [Hfile _]. exact Hfile.
Defined.

(** ** train_model: the arithmetic of the schedule *)

Lemma Qc_of_Z_nonzero (a : Z) : a ≠ 0 → Qc_of_Z a ≠ 0%Qc.
Proof. intros Ha E. apply Ha. apply Z2Qc_inj. by rewrite E, Z2Qc_inj_0. Qed.

Lemma max_list_app (l1 l2 : list nat) :
  max_list (l1 ++ l2) = (max_list l1 `max` max_list l2)%nat.
Proof.
  induction l1 as [|x l1 IH]; simpl; [reflexivity|]. rewrite IH. lia.
Qed.

Lemma previous_step_lt (a : Z) (n i : nat) :
  (previous_step a n (S i) ≤ i)%nat.
Proof.
  unfold previous_step. simpl. rewrite Nat.sub_0_r.
  destruct (decide (filter (λ k, step_due a n k = true) (seq 1 i) = [])) as [E|Hne].
  - rewrite E. simpl. lia.
  - apply max_list_elem_of in Hne.
    apply list_elem_of_filter in Hne as [_ Hin].
    apply elem_of_seq in Hin. lia.
Qed.


Lemma previous_step_S (a : Z) (n i : nat) :
  (1 ≤ i)%nat →
  previous_step a n (S i)
  = if step_due a n i then i else previous_step a n i.
Proof.
  intros Hi. pose proof (previous_step_lt a n (i - 1)) as Hlt.
  replace (S (i - 1)) with i in Hlt by lia.
  unfold previous_step in *. simpl. rewrite Nat.sub_0_r.
  replace i with (S (i - 1)) at 1 by lia.
  rewrite seq_S, filter_app, max_list_app.
  replace (1 + (i - 1))%nat with i by lia.
  rewrite filter_singleton; [|exact []].
  destruct (step_due a n i) eqn:Hdue.
  - rewrite decide_True by reflexivity. simpl. lia.
  - rewrite decide_False by discriminate. simpl. lia.
Qed.

(** The multiples of [a] among 1, ..., k. *)
Lemma count_multiples (a : Z) (k : nat) :
  1 ≤ a →
  Z.of_nat (length (List.filter (λ j, Z.of_nat j mod a =? 0) (seq 1 k)))
  = Z.of_nat k / a.
Proof.
  intros Ha. induction k as [|k IH].
  - simpl. by rewrite Z.div_0_l by lia.
  - rewrite seq_S, List.filter_app, length_app, Nat2Z.inj_add, IH. simpl.
    replace (Z.of_nat (S k)) with (Z.of_nat k + 1) by lia.
    replace (Z.pos (Pos.of_succ_nat k)) with (Z.of_nat k + 1) by lia.
    destruct (Z.eqb_spec ((Z.of_nat k + 1) mod a) 0) as [E|E]; simpl;
      revert E; generalize (Z.of_nat k); intros z E;
      Z.div_mod_to_equations; nia.
Qed.

(** The steps of one epoch over [n >= 1] batches: ceil(n / a). *)
Lemma count_step_due (a : Z) (n : nat) :
  1 ≤ a → (1 ≤ n)%nat →
  Z.of_nat (length (List.filter (step_due a n) (seq 1 n))) = (Z.of_nat n + a - 1) / a.
Proof.
  intros Ha Hn. replace n with (S (n - 1)) at 2 by lia.
  rewrite seq_S, List.filter_app, length_app, Nat2Z.inj_add.
  replace (1 + (n - 1))%nat with n by lia. simpl.
  assert (Hlast : step_due a n n = true).
  { unfold step_due. rewrite Nat.eqb_refl. apply orb_true_r. }
  rewrite Hlast. simpl.
  rewrite (List.filter_ext_in (step_due a n) (λ j, Z.of_nat j mod a =? 0)).
  - rewrite count_multiples by exact Ha.
    replace (Z.of_nat n + a - 1) with (Z.of_nat (n - 1) + 1 * a) by lia.
    rewrite Z.div_add by lia. lia.
  - intros j Hj. apply List.in_seq in Hj. unfold step_due.
    destruct (Nat.eqb_spec j n); [lia|]. apply orb_false_r.
Qed.

(** ** train_model: the loop *)

Section TrainProofs.
Context {Model Opt G : Type}.
Variable call : Model → list (list Z) → list (list Z) → bool → res (tracked mat).
Variable criterion : mat → list Z → Qc.
Variable gradient : Model → batch → tracked mat → G.
Variable gzero : G.
Variable gadd : G → G → G.
Variable gscale : Qc → G → G.
Variable optimizer_step : Opt → Model → G → Opt * Model.

Lemma step_due_code (a : Z) (n i : nat) :
  ((Z.of_nat i + 1) mod a =? 0) || (Z.of_nat i + 1 =? Z.of_nat n)
  = step_due a n (S i).
Proof.
  unfold step_due. replace (Z.of_nat (S i)) with (Z.of_nat i + 1) by lia.
  f_equal. destruct (Z.eqb_spec (Z.of_nat i + 1) (Z.of_nat n)),
             (Nat.eqb_spec (S i) n); (reflexivity || lia).
Qed.

Lemma loss_div_item (l : loss G) (a : Z) :
  a ≠ 0 → (item (loss_div gscale l a) * Qc_of_Z a)%Qc = item l.
Proof.
  intros Ha. simpl. rewrite Qcmult_comm.
  apply Qcmult_div_r. by apply Qc_of_Z_nonzero.
Qed.

(** One pass through the body of the loop. *)
Lemma train_batch_ok (a : Z) (n i : nat) (b : batch)
    (s : train_state Model Opt G) (t : Qc) (outputs : tracked mat) :
  1 ≤ a →
  call (model s) (input_ids b) (attention_mask b) true = Ok outputs →
  let l := Loss (criterion (data outputs) (labels b)) (gradient (model s) b outputs) in
  let s1 := backward gadd (loss_div gscale l a) (log (EvCriterion l) s) in
  train_batch call criterion gradient gzero gadd gscale optimizer_step a n i b (s, t)
  = Ok (if step_due a n (S i) then zero_grad gzero (step optimizer_step s1) else s1,
        (t + item l)%Qc).
Proof.
  intros Ha Hcall l s1. unfold train_batch. rewrite Hcall. simpl.
  unfold py_mod. destruct (Z.eqb_spec a 0) as [?|_]; [lia|]. simpl.
  rewrite step_due_code.
  fold l. fold s1.
  assert (Ht : (t + criterion (data outputs) (labels b) / Qc_of_Z a * Qc_of_Z a)%Qc
               = (t + item l)%Qc).
  { f_equal. apply (loss_div_item l a). lia. }
  rewrite Ht. by destruct (step_due a n (S i)).
Qed.

Lemma foldl_gadd_snoc (a : Z) (xs : list (loss G)) (l : loss G) :
  foldl gadd gzero (map (λ l, grad (loss_div gscale l a)) (xs ++ [l]))
  = gadd (foldl gadd gzero (map (λ l, grad (loss_div gscale l a)) xs))
         (grad (loss_div gscale l a)).
Proof. by rewrite List.map_app, foldl_app. Qed.

Lemma accumulated_prefix (a : Z) (n i : nat) (pre rest : list (loss G)) :
  length pre = i →
  accumulated gzero gadd gscale a n (pre ++ rest) i
  = foldl gadd gzero
      (map (λ l, grad (loss_div gscale l a)) (drop (previous_step a n i) pre)).
Proof.
  intros Hlen. unfold accumulated. by rewrite take_app_length'.
Qed.

(** The loop from index [i] on, [pre] being the criterion losses of the
    batches before: the losses of the remaining batches, the events, the
    sum of the loss values and the gradient left in the buffers. *)
Lemma train_batches_spec (a : Z) (n : nat) (dataloader : list batch) :
  1 ≤ a →
  ∀ (i : nat) (s : train_state Model Opt G) (t : Qc) (pre : list (loss G)),
    length pre = i → (i + length dataloader)%nat = n →
    grads s = foldl gadd gzero
                (map (λ l, grad (loss_div gscale l a))
                     (drop (previous_step a n (S i)) pre)) →
    (∀ m b, b ∈ dataloader →
       ∃ outputs, call m (input_ids b) (attention_mask b) true = Ok outputs) →
    ∃ (ls : list (loss G)) (s' : train_state Model Opt G),
      train_batches call criterion gradient gzero gadd gscale optimizer_step
        a n i dataloader (s, t)
      = Ok (s', (t + Qc_sum (map item ls))%Qc) ∧
      length ls = length dataloader ∧
      trace s' = trace s
                 ++ concat (imap (λ j l, schedule_batch gzero gadd gscale a n
                                           (pre ++ ls) (i + j) l) ls) ∧
      grads s' = foldl gadd gzero
                   (map (λ l, grad (loss_div gscale l a))
                        (drop (previous_step a n (S n)) (pre ++ ls))).
Proof.
  intros Ha. induction dataloader as [|b rest IH]; intros i s t pre Hpre Hn Hg Hcall.
  - assert (n = i) as -> by (simpl in Hn; lia).
    exists [], s. simpl. rewrite !app_nil_r, Qcplus_0_r. auto.
  - destruct (Hcall (model s) b) as [outputs Hout]; [by left|].
    pose proof (train_batch_ok a n i b s t outputs Ha Hout) as Hb. cbv zeta in Hb.
    set (l := Loss (criterion (data outputs) (labels b))
                   (gradient (model s) b outputs)) in *.
    set (s1 := backward gadd (loss_div gscale l a) (log (EvCriterion l) s)) in *.
    set (s2 := if step_due a n (S i)
               then zero_grad gzero (step optimizer_step s1) else s1) in *.
    assert (Hg1 : grads s1
                  = foldl gadd gzero
                      (map (λ l, grad (loss_div gscale l a))
                           (drop (previous_step a n (S i)) (pre ++ [l])))).
    { pose proof (previous_step_lt a n i) as Hlt.
      rewrite drop_app_le by lia. rewrite foldl_gadd_snoc, <- Hg. reflexivity. }
    assert (Hg2 : grads s2
                  = foldl gadd gzero
                      (map (λ l, grad (loss_div gscale l a))
                           (drop (previous_step a n (S (S i))) (pre ++ [l])))).
    { rewrite previous_step_S by lia. subst s2.
      destruct (step_due a n (S i)).
      - rewrite drop_ge by (rewrite length_app; simpl; lia).
        unfold step. destruct (optimizer_step _ _ _). reflexivity.
      - exact Hg1. }
    destruct (IH (S i) s2 (t + item l)%Qc (pre ++ [l])) as (ls & s' & Hrun & Hlen & Htr & Hgr).
    { rewrite length_app. simpl. lia. }
    { simpl in Hn. lia. }
    { exact Hg2. }
    { intros m b' Hb'. apply Hcall. by right. }
    replace ((pre ++ [l]) ++ ls) with (pre ++ l :: ls) in *
      by (by rewrite <- app_assoc).
    exists (l :: ls), s'. split.
    { cbn [train_batches]. rewrite Hb, bind_Ok, Hrun. f_equal. f_equal.
      change (Qc_sum (map item (l :: ls)))
        with (item l + Qc_sum (map item ls))%Qc. ring. }
    split; [simpl; by rewrite Hlen|]. split; [|exact Hgr].
    assert (Htr2 : trace s2 = trace s ++ schedule_batch gzero gadd gscale a n
                                           (pre ++ l :: ls) (i + 0) l).
    { unfold schedule_batch. rewrite Nat.add_0_r.
      replace (pre ++ l :: ls) with ((pre ++ [l]) ++ ls)
        by (by rewrite <- app_assoc).
      rewrite (accumulated_prefix a n (S i) (pre ++ [l]) ls)
        by (rewrite length_app; simpl; lia).
      rewrite <- Hg1. subst s2. destruct (step_due a n (S i)).
      - unfold step. destruct (optimizer_step _ _ _). simpl.
        by rewrite <- !app_assoc.
      - simpl. by rewrite <- !app_assoc. }
    rewrite Htr, imap_cons. cbn [concat]. rewrite Htr2, <- app_assoc.
    f_equal. f_equal. f_equal.
    apply imap_ext. intros j l' _. simpl. f_equal. lia.
Qed.

Lemma previous_step_end (a : Z) (n : nat) : previous_step a n (S n) = n.
Proof.
  destruct n as [|n]; [reflexivity|].
  rewrite previous_step_S by lia.
  unfold step_due. by rewrite Nat.eqb_refl, orb_true_r.
Qed.

Lemma count_steps_batches (a : Z) (n : nat) (all ls : list (loss G)) (i : nat) :
  count_steps (concat (imap (λ j l, schedule_batch gzero gadd gscale a n all (i + j) l)
                            ls))
  = length (List.filter (step_due a n) (seq (S i) (length ls))).
Proof.
  unfold count_steps. revert i. induction ls as [|l ls IH]; intros i; [reflexivity|].
  rewrite imap_cons. cbn [concat length seq].
  rewrite List.filter_app, length_app.
  rewrite (imap_ext _ (λ j l, schedule_batch gzero gadd gscale a n all (S i + j) l))
    by (intros j l' _; simpl; f_equal; lia).
  rewrite IH. unfold schedule_batch. rewrite Nat.add_0_r. cbn [List.filter].
  by destruct (step_due a n (S i)).
Qed.

Lemma count_steps_schedule (a : Z) (n : nat) (ls : list (loss G)) :
  1 ≤ a → (1 ≤ n)%nat → length ls = n →
  Z.of_nat (count_steps (schedule gzero gadd gscale a n ls))
  = (Z.of_nat n + a - 1) / a.
Proof.
  intros Ha Hn Hlen.
  change (schedule gzero gadd gscale a n ls)
    with (concat (imap (λ j l, schedule_batch gzero gadd gscale a n ls (0 + j) l) ls)).
  rewrite (count_steps_batches a n ls ls 0), Hlen.
  by apply count_step_due.
Qed.

Lemma criterion_losses_batches (a : Z) (n : nat) (all ls : list (loss G)) (i : nat) :
  criterion_losses (concat (imap (λ j l, schedule_batch gzero gadd gscale a n all
                                           (i + j) l) ls)) = ls
  ∧ printed_losses (concat (imap (λ j l, schedule_batch gzero gadd gscale a n all
                                           (i + j) l) ls)) = [].
Proof.
  unfold criterion_losses, printed_losses.
  revert i. induction ls as [|l ls IH]; intros i; [by split|].
  rewrite imap_cons. cbn [concat]. rewrite !omap_app.
  rewrite (imap_ext _ (λ j l, schedule_batch gzero gadd gscale a n all (S i + j) l))
    by (intros j l' _; simpl; f_equal; lia).
  destruct (IH (S i)) as [-> ->]. unfold schedule_batch.
  by destruct (step_due a n (S (i + 0))).
Qed.

(** One epoch, started with empty gradient buffers. *)
Lemma train_epoch_spec (a num_epochs : Z) (dataloader : list batch) (epoch : nat)
    (s : train_state Model Opt G) :
  1 ≤ a → (1 ≤ length dataloader)%nat → grads s = gzero →
  (∀ m b, b ∈ dataloader →
     ∃ outputs, call m (input_ids b) (attention_mask b) true = Ok outputs) →
  ∃ (ls : list (loss G)) (s' : train_state Model Opt G),
    train_epoch call criterion gradient gzero gadd gscale optimizer_step
      dataloader num_epochs a epoch s = Ok s' ∧
    length ls = length dataloader ∧
    trace s' = trace s
               ++ (schedule gzero gadd gscale a (length dataloader) ls
                   ++ [EvPrint (Z.of_nat epoch + 1) num_epochs
                         (mean_loss (length dataloader) ls)]) ∧
    grads s' = gzero.
Proof.
  intros Ha Hn Hg Hcall.
  destruct (train_batches_spec a (length dataloader) dataloader Ha 0 s 0%Qc [])
    as (ls & s' & Hrun & Hlen & Htr & Hgr); [reflexivity | reflexivity | | exact Hcall |].
  { by rewrite drop_nil. }
  exists ls, (log (EvPrint (Z.of_nat epoch + 1) num_epochs
                     (mean_loss (length dataloader) ls)) s').
  split.
  - unfold train_epoch. rewrite Hrun, bind_Ok. cbn [fst snd].
    unfold py_truediv.
    destruct (Z.eqb_spec (Z.of_nat (length dataloader)) 0) as [?|_]; [lia|].
    rewrite bind_Ok, Qcplus_0_l. reflexivity.
  - split; [exact Hlen|]. split.
    + simpl. rewrite Htr. simpl. unfold schedule. by rewrite <- app_assoc.
    + simpl. rewrite Hgr, previous_step_end. simpl.
      by rewrite drop_ge by lia.
Qed.

(** The epochs [e0, e0 + 1, ..., e0 + k - 1]. *)
Lemma train_epochs_spec (a num_epochs : Z) (dataloader : list batch) (k : nat) :
  1 ≤ a → (1 ≤ length dataloader)%nat →
  (∀ m b, b ∈ dataloader →
     ∃ outputs, call m (input_ids b) (attention_mask b) true = Ok outputs) →
  ∀ (e0 : nat) (s : train_state Model Opt G), grads s = gzero →
  ∃ (per_epoch : list (list (loss G))) (s' : train_state Model Opt G),
    train_epochs call criterion gradient gzero gadd gscale optimizer_step
      dataloader num_epochs a (seq e0 k) s = Ok s' ∧
    length per_epoch = k ∧
    Forall (λ ls, length ls = length dataloader) per_epoch ∧
    trace s' = trace s
               ++ concat (imap (λ e ls,
                            schedule gzero gadd gscale a (length dataloader) ls
                            ++ [EvPrint (Z.of_nat (e0 + e) + 1) num_epochs
                                  (mean_loss (length dataloader) ls)]) per_epoch).
Proof.
  intros Ha Hn Hcall. induction k as [|k IH]; intros e0 s Hg.
  - exists [], s. simpl. rewrite app_nil_r. repeat split. constructor.
  - destruct (train_epoch_spec a num_epochs dataloader e0 s Ha Hn Hg Hcall)
      as (ls & s1 & Hrun & Hlen & Htr & Hg1).
    destruct (IH (S e0) s1 Hg1) as (per_epoch & s' & Hrest & Hk & Hall & Htr').
    exists (ls :: per_epoch), s'. split.
    { cbn [seq train_epochs]. by rewrite Hrun, bind_Ok. }
    split; [simpl; by rewrite Hk|]. split; [by constructor|].
    rewrite Htr', Htr, imap_cons. cbn [concat].
    rewrite Nat.add_0_r, <- !app_assoc. f_equal. f_equal. f_equal.
    f_equal. apply imap_ext. intros e ls' _. simpl.
    by replace (S (e0 + e))%nat with (e0 + S e)%nat by lia.
Qed.

(** The whole of [train_model]: the losses that the criterion returned in
    every epoch and the trace of the calls. *)
Lemma train_model_spec (m : Model) (dataloader : list batch) (o : Opt)
    (num_epochs a : Z) (g0 : G) :
  1 ≤ a → (1 ≤ length dataloader)%nat →
  (∀ m b, b ∈ dataloader →
     ∃ outputs, call m (input_ids b) (attention_mask b) true = Ok outputs) →
  ∃ (per_epoch : list (list (loss G))) (s' : train_state Model Opt G),
    train_model call criterion gradient gzero gadd gscale optimizer_step
      m dataloader o num_epochs a g0 = Ok s' ∧
    length per_epoch = Z.to_nat num_epochs ∧
    Forall (λ ls, length ls = length dataloader) per_epoch ∧
    trace s' = EvZeroGrad
               :: concat (imap (λ e ls,
                            schedule gzero gadd gscale a (length dataloader) ls
                            ++ [EvPrint (Z.of_nat e + 1) num_epochs
                                  (mean_loss (length dataloader) ls)]) per_epoch).
Proof.
  intros Ha Hn Hcall. unfold train_model.
  destruct (train_epochs_spec a num_epochs dataloader (Z.to_nat num_epochs) Ha Hn Hcall
              0 (zero_grad gzero (TrainState m o g0 []))) as (per_epoch & s' & H);
    [reflexivity|].
  exists per_epoch, s'. exact H.
Qed.

Lemma losses_of_epochs (a num_epochs : Z) (n : nat) (per_epoch : list (list (loss G)))
    (g : nat → Z) :
  let tr := concat (imap (λ e ls,
                      schedule gzero gadd gscale a n ls
                      ++ [EvPrint (g e) num_epochs (mean_loss n ls)]) per_epoch) in
  criterion_losses tr = concat per_epoch ∧
  printed_losses tr = map (mean_loss n) per_epoch.
Proof.
  revert g. induction per_epoch as [|ls per_epoch IH]; intros g; [by split|].
  cbv zeta. rewrite imap_cons. cbn [concat map].
  rewrite (imap_ext _ (λ e ls, schedule gzero gadd gscale a n ls
                               ++ [EvPrint (g (S e)) num_epochs (mean_loss n ls)]))
    by reflexivity.
  destruct (IH (λ e, g (S e))) as [IHc IHp].
  unfold criterion_losses, printed_losses in *. rewrite !omap_app, IHc, IHp.
  destruct (criterion_losses_batches a n ls ls 0) as [Hc Hp].
  unfold criterion_losses, printed_losses in Hc, Hp.
  change (schedule gzero gadd gscale a n ls)
    with (concat (imap (λ j l, schedule_batch gzero gadd gscale a n ls (0 + j) l) ls)).
  rewrite Hc, Hp. simpl. by rewrite app_nil_r.
Qed.

Lemma concat_inj_length {A} (n : nat) (l k : list (list A)) :
  (1 ≤ n)%nat →
  Forall (λ x, length x = n) l → Forall (λ x, length x = n) k →
  concat l = concat k → l = k.
Proof.
  intros Hn Hl. revert k. induction Hl as [|x l Hx _ IH]; intros k Hk Heq.
  - destruct Hk as [|y k Hy _]; [reflexivity|].
    apply (f_equal length) in Heq. simpl in Heq. rewrite length_app in Heq. lia.
  - destruct Hk as [|y k Hy Hk].
    + apply (f_equal length) in Heq. simpl in Heq. rewrite length_app in Heq. lia.
    + simpl in Heq. apply app_inj_1 in Heq as [-> Heq]; [|congruence].
      f_equal. by apply IH.
Qed.

End TrainProofs.

(** C1: with [n >= 1] batches and [a >= 1] accumulation steps every epoch of
    [train_model] is the schedule of the specification: after batch [i]
    (counted from 1) the optimizer steps exactly when [i mod a = 0] or
    [i = n], and the step is followed at once by [zero_grad]; the gradient of
    a step is the sum of the gradients of the losses divided by [a] of the
    batches after the previous step; and an epoch has ceil(n / a) steps.  The
    model is taken to return logits on every batch. *)
Theorem train_model_schedule {Model Opt G : Type}
    (call : Model → list (list Z) → list (list Z) → bool → res (tracked mat))
    (criterion : mat → list Z → Qc) (gradient : Model → batch → tracked mat → G)
    (gzero : G) (gadd : G → G → G) (gscale : Qc → G → G)
    (optimizer_step : Opt → Model → G → Opt * Model)
    (m : Model) (dataloader : list batch) (o : Opt) (num_epochs a : Z) (g0 : G) :
  let n := length dataloader in
  1 ≤ a → (1 ≤ n)%nat →
  (∀ m b, b ∈ dataloader →
     ∃ outputs, call m (input_ids b) (attention_mask b) true = Ok outputs) →
  ∃ (per_epoch : list (list (loss G))) (s' : train_state Model Opt G),
    train_model call criterion gradient gzero gadd gscale optimizer_step
      m dataloader o num_epochs a g0 = Ok s' ∧
    length per_epoch = Z.to_nat num_epochs ∧
    Forall (λ ls, length ls = n) per_epoch ∧
    trace s' = EvZeroGrad
               :: concat (imap (λ e ls,
                            schedule gzero gadd gscale a n ls
                            ++ [EvPrint (Z.of_nat e + 1) num_epochs (mean_loss n ls)])
                            per_epoch) ∧
    Forall (λ ls, Z.of_nat (count_steps (schedule gzero gadd gscale a n ls))
                  = (Z.of_nat n + a - 1) / a) per_epoch ∧
    a * ((Z.of_nat n + a - 1) / a - 1) < Z.of_nat n ≤ a * ((Z.of_nat n + a - 1) / a).
Proof.
  intros n Ha Hn Hcall.
  destruct (train_model_spec call criterion gradient gzero gadd gscale optimizer_step
              m dataloader o num_epochs a g0 Ha Hn Hcall)
    as (per_epoch & s' & Hrun & Hlen & Hall & Htr).
  exists per_epoch, s'. split; [exact Hrun|]. split; [exact Hlen|].
  split; [exact Hall|]. split; [exact Htr|]. split.
  - eapply Forall_impl; [exact Hall|]. intros ls Hls.
    by apply count_steps_schedule.
  - generalize (Z.of_nat n). intros z. Z.div_mod_to_equations. nia.
Qed.

(** C9: for [a > 0] the average that [train_model] prints for an epoch is
    the arithmetic mean of the values that the criterion returned for the
    batches of that epoch; the division by [a] and the multiplication by [a]
    cancel, so that two runs with different accumulation steps that see the
    same criterion losses print the same averages. *)
Theorem train_model_avg_loss {Model Opt G : Type}
    (call : Model → list (list Z) → list (list Z) → bool → res (tracked mat))
    (criterion : mat → list Z → Qc) (gradient : Model → batch → tracked mat → G)
    (gzero : G) (gadd : G → G → G) (gscale : Qc → G → G)
    (optimizer_step : Opt → Model → G → Opt * Model)
    (m : Model) (dataloader : list batch) (o : Opt) (num_epochs a : Z) (g0 : G) :
  let n := length dataloader in
  0 < a → (1 ≤ n)%nat →
  (∀ m b, b ∈ dataloader →
     ∃ outputs, call m (input_ids b) (attention_mask b) true = Ok outputs) →
  ∃ (per_epoch : list (list (loss G))) (s' : train_state Model Opt G),
    train_model call criterion gradient gzero gadd gscale optimizer_step
      m dataloader o num_epochs a g0 = Ok s' ∧
    length per_epoch = Z.to_nat num_epochs ∧
    Forall (λ ls, length ls = n) per_epoch ∧
    criterion_losses (trace s') = concat per_epoch ∧
    printed_losses (trace s')
    = map (λ ls, (Qc_sum (map item ls) / Qc_of_Z (Z.of_nat n))%Qc) per_epoch ∧
    ∀ (a' : Z) (m' : Model) (o' : Opt) (g0' : G) (s'' : train_state Model Opt G),
      0 < a' →
      train_model call criterion gradient gzero gadd gscale optimizer_step
        m' dataloader o' num_epochs a' g0' = Ok s'' →
      criterion_losses (trace s'') = criterion_losses (trace s') →
      printed_losses (trace s'') = printed_losses (trace s').
Proof.
  intros n Ha Hn Hcall.
  assert (Hgen : ∀ a m o g0, 0 < a →
            ∃ per_epoch s',
              train_model call criterion gradient gzero gadd gscale optimizer_step
                m dataloader o num_epochs a g0 = Ok s' ∧
              length per_epoch = Z.to_nat num_epochs ∧
              Forall (λ ls, length ls = n) per_epoch ∧
              criterion_losses (trace s') = concat per_epoch ∧
              printed_losses (trace s') = map (mean_loss n) per_epoch).
  { intros a1 m1 o1 g1 Ha1.
    destruct (train_model_spec call criterion gradient gzero gadd gscale optimizer_step
                m1 dataloader o1 num_epochs a1 g1 ltac:(lia) Hn Hcall)
      as (per_epoch & s' & Hrun & Hlen & Hall & Htr).
    exists per_epoch, s'. split; [exact Hrun|]. split; [exact Hlen|].
    split; [exact Hall|].
    destruct (losses_of_epochs gzero gadd gscale a1 num_epochs n per_epoch
                (λ e, Z.of_nat e + 1)) as [Hc Hp].
    rewrite Htr. unfold criterion_losses, printed_losses in *.
    cbn [omap list_omap]. split; [exact Hc | exact Hp]. }
  destruct (Hgen a m o g0 Ha) as (per_epoch & s' & Hrun & Hlen & Hall & Hc & Hp).
  exists per_epoch, s'. split; [exact Hrun|]. split; [exact Hlen|].
  split; [exact Hall|]. split; [exact Hc|]. split; [exact Hp|].
  intros a' m' o' g0' s'' Ha' Hrun' Hsame.
  destruct (Hgen a' m' o' g0' Ha') as (per_epoch' & s2 & Hrun2 & _ & Hall' & Hc' & Hp').
  rewrite Hrun' in Hrun2. injection Hrun2 as <-.
  rewrite Hp, Hp'. f_equal.
  apply (concat_inj_length n); [exact Hn | exact Hall' | exact Hall |].
  by rewrite <- Hc', <- Hc.
Qed.

Lemma train_model_schedule_witness :
  let dataloader := [Samples.batch1; Samples.batch2; Samples.batch3] in
  ∃ (per_epoch : list (list (loss Qc))) (s' : train_state unit unit Qc),
    train_model Samples.constant_model Samples.count_labels Samples.unit_gradient
      0%Qc Qcplus Qcmult Samples.keep_model tt dataloader tt 2 2 0%Qc = Ok s' ∧
    length per_epoch = 2%nat ∧
    Forall (λ ls, Z.of_nat (count_steps (schedule 0%Qc Qcplus Qcmult 2 3 ls)) = 2)
      per_epoch.
Proof.
  intros dataloader.
  assert (Ha : 1 ≤ 2) by lia.
  assert (Hn : (1 ≤ length dataloader)%nat) by (simpl; lia).
  destruct (train_model_schedule Samples.constant_model Samples.count_labels
              Samples.unit_gradient 0%Qc Qcplus Qcmult Samples.keep_model
              tt dataloader tt 2 2 0%Qc Ha Hn)
    as (per_epoch & s' & Hrun & Hlen & _ & _ & Hcount & _).
  { intros m b _. eexists. reflexivity. }
  exists per_epoch, s'. split; [exact Hrun|]. split; [exact Hlen|]. exact Hcount.
Defined.

Lemma train_model_avg_loss_witness :
  let dataloader := [Samples.batch1; Samples.batch2; Samples.batch3] in
  ∃ (per_epoch : list (list (loss Qc))) (s' : train_state unit unit Qc),
    train_model Samples.constant_model Samples.count_labels Samples.unit_gradient
      0%Qc Qcplus Qcmult Samples.keep_model tt dataloader tt 2 2 0%Qc = Ok s' ∧
    criterion_losses (trace s') = concat per_epoch ∧
    printed_losses (trace s')
    = map (λ ls, (Qc_sum (map item ls) / Qc_of_Z 3)%Qc) per_epoch.
Proof.
  intros dataloader.
  assert (Ha : 0 < 2) by lia.
  assert (Hn : (1 ≤ length dataloader)%nat) by (simpl; lia).
  destruct (train_model_avg_loss Samples.constant_model Samples.count_labels
              Samples.unit_gradient 0%Qc Qcplus Qcmult Samples.keep_model
              tt dataloader tt 2 2 0%Qc Ha Hn)
    as (per_epoch & s' & Hrun & _ & _ & Hc & Hp & _).
  { intros m b _. eexists. reflexivity. }
  exists per_epoch, s'. split; [exact Hrun|]. split; [exact Hc | exact Hp].
Defined.

(** * Further properties of the notebook's code *)

(** ** CustomDataset: indices and errors *)

Lemma py_index_negative {A} (t : list A) (idx : Z) :
  - Z.of_nat (length t) ≤ idx < 0 →
  py_index t idx = py_index t (idx + Z.of_nat (length t)).
Proof.
  intros Hi. unfold py_index.
  destruct (Z.ltb_spec idx 0) as [_|?]; [|lia].
  destruct (Z.ltb_spec (idx + Z.of_nat (length t)) 0) as [?|_]; [lia|].
  destruct (Z.leb_spec 0 (idx + Z.of_nat (length t))) as [_|?]; [|lia].
  destruct (Z.ltb_spec (idx + Z.of_nat (length t)) (Z.of_nat (length t)))
    as [_|?]; [|lia].
  reflexivity.
Qed.

Lemma py_index_out_of_range {A} (t : list A) (idx : Z) :
  Z.of_nat (length t) ≤ idx ∨ idx < - Z.of_nat (length t) →
  py_index t idx
  = if fits_int64 idx then Raise IndexError else Raise LibraryValueError.
Proof.
  intros Hi. unfold py_index.
  destruct (Z.ltb_spec idx 0) as [Hneg|Hpos].
  - destruct (Z.leb_spec 0 (idx + Z.of_nat (length t))) as [?|_]; [|reflexivity].
    destruct (Z.ltb_spec (idx + Z.of_nat (length t)) (Z.of_nat (length t)))
      as [?|_]; [lia | reflexivity].
  - destruct (Z.leb_spec 0 idx) as [_|?]; [|lia].
    destruct (Z.ltb_spec idx (Z.of_nat (length t))) as [?|_]; [lia | reflexivity].
Qed.

Lemma fits_int64_spec (z : Z) :
  fits_int64 z = true ↔ - 9223372036854775808 ≤ z < 9223372036854775808.
Proof. unfold fits_int64. rewrite andb_true_iff, Z.leb_le, Z.ltb_lt. tauto. Qed.

(** X1: A negative index counts from the end: on a data set whose three tensors
    have one length [n], item [idx] for [-n <= idx < 0] is item [idx + n]. *)
Theorem getitem_negative_index
    (inputs : gmap string (list (list Z))) (labels : list Z)
    (ids masks : list (list Z)) (idx : Z) :
  inputs !! "input_ids" = Some ids →
  inputs !! "attention_mask" = Some masks →
  length masks = length ids →
  length labels = length ids →
  - Z.of_nat (length ids) ≤ idx < 0 →
  let self := CustomDataset.__init__ inputs labels in
  CustomDataset.__getitem__ self idx
  = CustomDataset.__getitem__ self (idx + Z.of_nat (length ids)) ∧
  ∃ d, CustomDataset.__getitem__ self idx = Ok d.
Proof.
  intros Hids Hmasks Hlm Hll Hi self.
  assert (Heq : CustomDataset.__getitem__ self idx
                = CustomDataset.__getitem__ self (idx + Z.of_nat (length ids))).
  { unfold CustomDataset.__getitem__, dict_get. simpl. rewrite Hids, Hmasks. simpl.
    rewrite (py_index_negative ids idx) by lia.
    rewrite (py_index_negative masks idx) by lia.
    rewrite (py_index_negative labels idx) by lia.
    by rewrite Hlm, Hll. }
  split; [exact Heq|]. rewrite Heq.
  destruct (py_index_in_range ids (idx + Z.of_nat (length ids))) as (r & _ & Er); [lia|].
  destruct (py_index_in_range masks (idx + Z.of_nat (length ids))) as (m & _ & Em); [lia|].
  destruct (py_index_in_range labels (idx + Z.of_nat (length ids))) as (l & _ & El); [lia|].
  unfold CustomDataset.__getitem__, dict_get. simpl. rewrite Hids, Hmasks. simpl.
  rewrite Er. simpl. rewrite Em. simpl. rewrite El. simpl. by eexists.
Qed.

Lemma getitem_negative_index_witness :
  let inputs : gmap string (list (list Z)) :=
    <["input_ids" := [[101; 7; 102]; [101; 9; 102]]]>
    (<["attention_mask" := [[1; 1; 1]; [1; 1; 0]]]> ∅) in
  let self := CustomDataset.__init__ inputs [0; 1] in
  CustomDataset.__getitem__ self (-1) = CustomDataset.__getitem__ self 1.
Proof.
  intros inputs self.
  assert (Hi : - Z.of_nat 2 ≤ -1 < 0) by lia.
  exact (proj1 (getitem_negative_index inputs [0; 1]
                  [[101; 7; 102]; [101; 9; 102]] [[1; 1; 1]; [1; 1; 0]] (-1)
                  eq_refl eq_refl eq_refl eq_refl Hi)).
Defined.

(** X2: The exceptions of [CustomDataset]: a missing key is a [KeyError] naming
    the key, for [__len__] and for every [__getitem__]; an index outside
    [-n, n) of the input ids, or of the labels, is an [IndexError] as long
    as it fits 64 bits, and the [ValueError] of the overflow beyond. *)
Theorem CustomDataset_errors
    (inputs : gmap string (list (list Z))) (labels : list Z) (idx : Z) :
  let self := CustomDataset.__init__ inputs labels in
  (inputs !! "input_ids" = None →
   CustomDataset.__len__ self = Raise (KeyError "input_ids") ∧
   CustomDataset.__getitem__ self idx = Raise (KeyError "input_ids")) ∧
  (∀ ids, inputs !! "input_ids" = Some ids →
     Z.of_nat (length ids) ≤ idx ∨ idx < - Z.of_nat (length ids) →
     - 9223372036854775808 ≤ idx < 9223372036854775808 →
     CustomDataset.__getitem__ self idx = Raise IndexError) ∧
  (∀ ids, inputs !! "input_ids" = Some ids →
     Z.of_nat (length ids) ≤ 9223372036854775808 →
     idx < - 9223372036854775808 ∨ 9223372036854775808 ≤ idx →
     CustomDataset.__getitem__ self idx = Raise LibraryValueError) ∧
  (∀ ids, inputs !! "input_ids" = Some ids →
     0 ≤ idx < Z.of_nat (length ids) →
     inputs !! "attention_mask" = None →
     CustomDataset.__getitem__ self idx = Raise (KeyError "attention_mask")) ∧
  (∀ ids masks, inputs !! "input_ids" = Some ids →
     inputs !! "attention_mask" = Some masks →
     0 ≤ idx < Z.of_nat (length ids) →
     0 ≤ idx < Z.of_nat (length masks) →
     Z.of_nat (length labels) ≤ idx →
     idx < 9223372036854775808 →
     CustomDataset.__getitem__ self idx = Raise IndexError).
Proof.
  intros self. unfold CustomDataset.__len__, CustomDataset.__getitem__, dict_get.
  simpl. split; [|split; [|split; [|split] ] ].
  - intros ->. split; reflexivity.
  - intros ids -> Hi H64. simpl. rewrite (py_index_out_of_range ids idx Hi).
    apply fits_int64_spec in H64. by rewrite H64.
  - intros ids -> Hn H64. simpl.
    rewrite (py_index_out_of_range ids idx) by lia.
    destruct (fits_int64 idx) eqn:Hfit; [|reflexivity].
    apply fits_int64_spec in Hfit. lia.
  - intros ids -> Hi ->. simpl.
    destruct (py_index_in_range ids idx Hi) as (r & _ & ->). reflexivity.
  - intros ids masks -> -> Hi Hm Hl H64. simpl.
    destruct (py_index_in_range ids idx Hi) as (r & _ & ->). simpl.
    destruct (py_index_in_range masks idx Hm) as (m & _ & ->). simpl.
    rewrite (py_index_out_of_range labels idx) by lia.
    assert (Hfit : fits_int64 idx = true) by (apply fits_int64_spec; lia).
    by rewrite Hfit.
Qed.

Lemma CustomDataset_errors_witness :
  let inputs : gmap string (list (list Z)) := <["input_ids" := [[101; 102]]]> ∅ in
  CustomDataset.__getitem__ (CustomDataset.__init__ inputs [0]) 1 = Raise IndexError ∧
  CustomDataset.__getitem__ (CustomDataset.__init__ inputs [0]) 9223372036854775808
  = Raise LibraryValueError ∧
  CustomDataset.__getitem__ (CustomDataset.__init__ inputs [0]) 0
  = Raise (KeyError "attention_mask") ∧
  CustomDataset.__len__ (CustomDataset.__init__ ∅ [0]) = Raise (KeyError "input_ids").
Proof.
  intros inputs.
  destruct (CustomDataset_errors inputs [0] 1) as (_ & Hrange & _).
  destruct (CustomDataset_errors inputs [0] 9223372036854775808)
    as (_ & _ & Hover & _).
  destruct (CustomDataset_errors inputs [0] 0) as (_ & _ & _ & Hmask & _).
  destruct (CustomDataset_errors ∅ [0] 0) as (Hkey & _).
  assert (H1 : Z.of_nat 1 ≤ 1 ∨ 1 < - Z.of_nat 1) by (left; lia).
  assert (H64 : - 9223372036854775808 ≤ 1 < 9223372036854775808) by lia.
  assert (Hn : Z.of_nat 1 ≤ 9223372036854775808) by lia.
  assert (Hbig : 9223372036854775808 < - 9223372036854775808
                 ∨ 9223372036854775808 ≤ 9223372036854775808) by (right; lia).
  assert (H0 : 0 ≤ 0 < Z.of_nat 1) by lia.
  split; [exact (Hrange [[101; 102]] eq_refl H1 H64)|].
  split; [exact (Hover [[101; 102]] eq_refl Hn Hbig)|].
  split; [exact (Hmask [[101; 102]] eq_refl H0 eq_refl)|].
  exact (proj1 (Hkey eq_refl)).
Defined.

(** ** sum_model_layers: short, empty and ragged inputs *)

Lemma torch_stack_inv (ts ts' : list ten3) :
  torch_stack ts = Ok ts' →
  ts' = ts ∧ ts ≠ [] ∧ ∃ b r c, Forall (shape3 b r c) ts.
Proof.
  unfold torch_stack. destruct ts as [|t0 rest]; [discriminate|].
  destruct (dims3 t0) as [[b r] c].
  destruct (forallb (shape3b b r c) (t0 :: rest)) eqn:Hall; [|discriminate].
  intros [= <-]. split; [reflexivity|]. split; [discriminate|].
  exists b, r, c. apply Forall_forall. intros t Ht.
  apply shape3b_spec. rewrite forallb_forall in Hall.
  apply Hall. by apply list_elem_of_In.
Qed.

Lemma sum_model_layers_unfold (model_name : string) (k : nat)
    (hidden_states : list ten3) :
  (model_name = "distilbert" ∧ k = 6%nat) ∨ (model_name = "tinybert" ∧ k = 4%nat)
    ∨ (model_name = "electra" ∧ k = 12%nat) →
  (1 ≤ k)%nat ∧
  sum_model_layers model_name hidden_states
  = (stacked ← torch_stack (py_slice_last k hidden_states); mret (sum_dim0 stacked)).
Proof.
  intros [ [-> ->] | [ [-> ->] | [-> ->] ] ]; (split; [lia | reflexivity]).
Qed.

(** X3: For a supported model name and hidden states without a dimension of
    size zero, the outcome is decided by the last [k] hidden states (all of
    them when there are fewer): [RuntimeError] exactly when the tuple is
    empty or these tensors are not of one shape, and otherwise a tensor of
    their shape. *)
Theorem sum_model_layers_RuntimeError_iff (model_name : string) (k : nat)
    (hidden_states : list ten3) :
  (model_name = "distilbert" ∧ k = 6%nat) ∨ (model_name = "tinybert" ∧ k = 4%nat)
    ∨ (model_name = "electra" ∧ k = 12%nat) →
  Forall proper_tensor hidden_states →
  let last := drop (length hidden_states - k) hidden_states in
  (sum_model_layers model_name hidden_states = Raise RuntimeError
   ↔ hidden_states = [] ∨ ¬ ∃ b r c, Forall (shape3 b r c) last) ∧
  (∀ s, sum_model_layers model_name hidden_states = Ok s →
        ∃ b r c, Forall (shape3 b r c) last ∧ shape3 b r c s) ∧
  (∀ e, sum_model_layers model_name hidden_states = Raise e → e = RuntimeError).
Proof.
  intros Hk _ last.
  destruct (sum_model_layers_unfold _ _ hidden_states Hk) as [Hk1 ->].
  fold last. change (py_slice_last k hidden_states) with last.
  assert (Hnil : last = [] ↔ hidden_states = []).
  { split; [|by intros ->].
    intros E. destruct hidden_states as [|t hs]; [reflexivity|].
    exfalso. by apply (py_slice_last_nonempty k (t :: hs) Hk1). }
  destruct (torch_stack last) as [ts|e] eqn:Hst.
  - apply torch_stack_inv in Hst as (-> & Hne & b & r & c & Hall).
    simpl. split; [|split].
    + split; [discriminate|]. intros [E | Hnot].
      * exfalso. apply Hne. by apply Hnil.
      * exfalso. apply Hnot. by exists b, r, c.
    + intros s [= <-]. exists b, r, c. split; [exact Hall|].
      by apply sum_dim0_spec.
    + discriminate.
  - destruct (torch_stack_cases last) as [E|E]; rewrite E in Hst; [discriminate|].
    injection Hst as <-. simpl. split; [|split].
    + split; [|reflexivity]. intros _.
      destruct (decide (hidden_states = [])) as [?|Hne]; [by left|]. right.
      intros (b & r & c & Hall).
      rewrite (torch_stack_ok b r c last) in E; [discriminate| |exact Hall].
      intros El. by apply Hne, Hnil.
    + discriminate.
    + by intros e [= <-].
Qed.

Lemma sum_model_layers_RuntimeError_iff_witness :
  sum_model_layers "electra" [] = Raise RuntimeError ∧
  sum_model_layers "tinybert" [[[[0%Qc]]]; [[[0%Qc; 1%Qc]]]] = Raise RuntimeError.
Proof.
  assert (He : ("electra" : string) = "distilbert" ∧ 12%nat = 6%nat
               ∨ ("electra" : string) = "tinybert" ∧ 12%nat = 4%nat
               ∨ ("electra" : string) = "electra" ∧ 12%nat = 12%nat)
    by (right; right; by split).
  assert (Ht : ("tinybert" : string) = "distilbert" ∧ 4%nat = 6%nat
               ∨ ("tinybert" : string) = "tinybert" ∧ 4%nat = 4%nat
               ∨ ("tinybert" : string) = "electra" ∧ 4%nat = 12%nat)
    by (right; left; by split).
  assert (Hnone : Forall (proper_tensor (A := Qc)) []) by constructor.
  assert (Htwo : Forall proper_tensor [[[[0%Qc]]]; [[[0%Qc; 1%Qc]]]]).
  { constructor; [|constructor; [|constructor] ].
    - exists 1%nat, 1%nat, 1%nat. repeat constructor.
    - exists 1%nat, 1%nat, 2%nat. repeat constructor. }
  split.
  - apply (proj1 (sum_model_layers_RuntimeError_iff "electra" 12 [] He Hnone)).
    by left.
  - apply (proj1 (sum_model_layers_RuntimeError_iff "tinybert" 4
                    [[[[0%Qc]]]; [[[0%Qc; 1%Qc]]]] Ht Htwo)).
    right. simpl. intros (b & r & c & Hall).
    apply Forall_cons in Hall as [[_ H1] Hall].
    apply Forall_cons in Hall as [[_ H2] _].
    apply Forall_cons in H1 as [[_ H1] _].
    apply Forall_cons in H2 as [[_ H2] _].
    apply Forall_cons in H1 as [H1 _].
    apply Forall_cons in H2 as [H2 _].
    simpl in H1, H2. congruence.
Defined.

(** X4: With fewer hidden states than the slice asks for, all of them are
    summed: the slice [hidden_states[-k:]] does not fail on a short tuple. *)
Theorem sum_model_layers_short_tuple (model_name : string) (k : nat)
    (hidden_states : list ten3) (b r c : nat) :
  (model_name = "distilbert" ∧ k = 6%nat) ∨ (model_name = "tinybert" ∧ k = 4%nat)
    ∨ (model_name = "electra" ∧ k = 12%nat) →
  hidden_states ≠ [] → (length hidden_states ≤ k)%nat →
  Forall (shape3 b r c) hidden_states →
  ∃ s, sum_model_layers model_name hidden_states = Ok s ∧
       shape3 b r c s ∧
       ∀ i j l, (i < b)%nat → (j < r)%nat → (l < c)%nat →
         elem3 s i j l = Qc_sum (map (λ t, elem3 t i j l) hidden_states).
Proof.
  intros Hk Hne Hlen Hall.
  exists (sum_dim0 (py_slice_last k hidden_states)).
  split; [by apply (sum_model_layers_supported _ k _ b r c)|].
  unfold py_slice_last. replace (length hidden_states - k)%nat with 0%nat by lia.
  rewrite drop_0. by apply sum_dim0_spec.
Qed.

Lemma sum_model_layers_short_tuple_witness :
  ∃ s, sum_model_layers "electra"
         [[[[Qc_of_Z 1; Qc_of_Z 2]]]; [[[Qc_of_Z 3; Qc_of_Z 4]]]] = Ok s ∧
       elem3 s 0 0 1 = Qc_of_Z 6.
Proof.
  assert (He : ("electra" : string) = "distilbert" ∧ 12%nat = 6%nat
               ∨ ("electra" : string) = "tinybert" ∧ 12%nat = 4%nat
               ∨ ("electra" : string) = "electra" ∧ 12%nat = 12%nat)
    by (right; right; by split).
  assert (Hlen : (2 ≤ 12)%nat) by lia.
  destruct (sum_model_layers_short_tuple "electra" 12
              [[[[Qc_of_Z 1; Qc_of_Z 2]]]; [[[Qc_of_Z 3; Qc_of_Z 4]]]] 1 1 2
              He ltac:(discriminate) Hlen) as (s & Hs & _ & Hel).
  { repeat constructor. }
  exists s. split; [exact Hs|].
  rewrite Hel by lia. apply Qc_is_canon. vm_compute. reflexivity.
Defined.

(** X5: Hidden states before the last [k] never influence the result: for
    these encoders the output of the embedding layer is left out of the sum. *)
Theorem sum_model_layers_ignores_earlier (model_name : string) (k : nat)
    (earlier last : list ten3) :
  (model_name = "distilbert" ∧ k = 6%nat) ∨ (model_name = "tinybert" ∧ k = 4%nat)
    ∨ (model_name = "electra" ∧ k = 12%nat) →
  length last = k →
  sum_model_layers model_name (earlier ++ last) = sum_model_layers model_name last.
Proof.
  intros Hk Hlen.
  destruct (sum_model_layers_unfold _ _ (earlier ++ last) Hk) as [_ ->].
  destruct (sum_model_layers_unfold _ _ last Hk) as [_ ->].
  unfold py_slice_last. rewrite length_app, Hlen, Nat.sub_diag, drop_0.
  replace (length earlier + k - k)%nat with (length earlier) by lia.
  by rewrite drop_app_length.
Qed.

Lemma sum_model_layers_ignores_earlier_witness :
  sum_model_layers "tinybert"
    ([[[[Qc_of_Z 9]]]] ++ repeat [[[1%Qc]]] 4)
  = sum_model_layers "tinybert" (repeat [[[1%Qc]]] 4).
Proof.
  apply (sum_model_layers_ignores_earlier "tinybert" 4).
  - right. left. by split.
  - reflexivity.
Defined.

(** ** forward: errors and grad mode *)






(** X7: The ambient grad mode changes what is tracked and nothing else: with
    and without gradient tracking [forward] raises the same exception or
    returns the same logits, and without it the logits carry no graph. *)
Theorem forward_grad_mode `{!Activation} (self : CNNLSTMClassifier.t)
    (input_ids attention_mask : list (list Z)) :
  match CNNLSTMClassifier.forward self input_ids attention_mask true,
        CNNLSTMClassifier.forward self input_ids attention_mask false with
  | Ok tracked_logits, Ok logits =>
      data tracked_logits = data logits ∧ graph logits = ∅
  | Raise e1, Raise e2 => e1 = e2
  | _, _ => False
  end.
Proof.
  unfold CNNLSTMClassifier.forward.
  destruct (CNNLSTMClassifier.encoder_block self input_ids attention_mask)
    as [emb|e]; [|reflexivity].
  simpl. unfold CNNLSTMClassifier.classification_head, apply_op.
  destruct (Conv1d.forward _ (data emb)) as [cnn_out|e]; [|reflexivity]. simpl.
  destruct (LSTM.forward _ (permute_0_2_1 cnn_out)) as [r|e]; [|reflexivity]. simpl.
  destruct (CNNLSTMClassifier.last_step r.1) as [lastv|e]; [|reflexivity]. simpl.
  destruct (Linear.forward _ lastv) as [logits|e]; [|reflexivity]. simpl.
  by split.
Qed.

(** X8: When the hidden size of the encoder differs from the [in_channels] the
    classifier was built with, [forward] raises [RuntimeError] in the
    convolution, for every batch that is not empty. *)
Theorem forward_channel_mismatch `{!Activation} (self : CNNLSTMClassifier.t)
    (input_ids attention_mask : list (list Z)) (grad_enabled : bool) (b L D : nat) :
  let hidden_states :=
    Encoder.hidden_states (CNNLSTMClassifier.bert self)
      (Encoder.training (CNNLSTMClassifier.bert self)) input_ids attention_mask in
  CNNLSTMClassifier.model_name self = "distilbert"
    ∨ CNNLSTMClassifier.model_name self = "tinybert"
    ∨ CNNLSTMClassifier.model_name self = "electra" →
  hidden_states ≠ [] → Forall (shape3 b L D) hidden_states →
  (1 ≤ b)%nat → (1 ≤ L)%nat →
  D ≠ Conv1d.in_channels (CNNLSTMClassifier.cnn self) →
  CNNLSTMClassifier.forward self input_ids attention_mask grad_enabled
  = Raise RuntimeError.
Proof.
  intros hs Hname Hne Hs Hb HL HD.
  destruct (encoder_block_ok self input_ids attention_mask b L D Hname Hne Hs HL)
    as (emb & Hemb & [Hlen Hrows] & _).
  unfold CNNLSTMClassifier.forward. rewrite Hemb. simpl.
  unfold CNNLSTMClassifier.classification_head, apply_op.
  destruct (data emb) as [|x xs]; [simpl in Hlen; lia|].
  apply Forall_cons in Hrows as [[Hx _] _].
  assert (Hf : Conv1d.forward1 (CNNLSTMClassifier.cnn self) x = Raise RuntimeError).
  { unfold Conv1d.forward1, shape2b. rewrite Hx.
    destruct (Nat.eqb_spec D (Conv1d.in_channels (CNNLSTMClassifier.cnn self)));
      [contradiction | reflexivity]. }
  unfold Conv1d.forward. cbn [data mapM]. rewrite Hf. reflexivity.
Qed.

Lemma forward_channel_mismatch_witness :
  let m := Notebook.build "tinybert" (Samples.encoder 5 3) 768 Samples.weights in
  CNNLSTMClassifier.forward (H := Samples.activation) m
    (input_ids Samples.batch1) (attention_mask Samples.batch1) true
  = Raise RuntimeError.
Proof.
  intros m.
  assert (Hname : CNNLSTMClassifier.model_name m = "distilbert"
                  ∨ CNNLSTMClassifier.model_name m = "tinybert"
                  ∨ CNNLSTMClassifier.model_name m = "electra")
    by (right; left; reflexivity).
  assert (Hne : Encoder.hidden_states (CNNLSTMClassifier.bert m)
                  (Encoder.training (CNNLSTMClassifier.bert m))
                  (input_ids Samples.batch1) (attention_mask Samples.batch1) ≠ [])
    by discriminate.
  assert (Hs : Forall (shape3 2 2 3)
                 (Encoder.hidden_states (CNNLSTMClassifier.bert m)
                    (Encoder.training (CNNLSTMClassifier.bert m))
                    (input_ids Samples.batch1) (attention_mask Samples.batch1)))
    by (repeat constructor).
  assert (H1 : (1 ≤ 2)%nat) by lia.
  assert (HD : 3%nat ≠ Conv1d.in_channels (CNNLSTMClassifier.cnn m)) by discriminate.
  exact (forward_channel_mismatch (H := Samples.activation) m
           (input_ids Samples.batch1) (attention_mask Samples.batch1) true
           2 2 3 Hname Hne Hs H1 H1 HD).
Defined.

(** ** train_model: edge cases and exceptions *)

Section TrainEdges.
Context {Model Opt G : Type}.
Variable call : Model → list (list Z) → list (list Z) → bool → res (tracked mat).
Variable criterion : mat → list Z → Qc.
Variable gradient : Model → batch → tracked mat → G.
Variable gzero : G.
Variable gadd : G → G → G.
Variable gscale : Qc → G → G.
Variable optimizer_step : Opt → Model → G → Opt * Model.

Lemma train_batches_app (a : Z) (n : nat) (l1 l2 : list batch) :
  ∀ (i : nat) (st : train_state Model Opt G * Qc),
    train_batches call criterion gradient gzero gadd gscale optimizer_step
      a n i (l1 ++ l2) st
    = train_batches call criterion gradient gzero gadd gscale optimizer_step a n i l1 st
      ≫= train_batches call criterion gradient gzero gadd gscale optimizer_step
            a n (i + length l1) l2.
Proof.
  induction l1 as [|b l1 IH]; intros i st.
  - simpl. by rewrite Nat.add_0_r.
  - cbn [app train_batches length].
    destruct (train_batch call criterion gradient gzero gadd gscale optimizer_step
                a n i b st) as [st'|e]; [|reflexivity].
    rewrite !bind_Ok, IH. by replace (S i + length l1)%nat with (i + S (length l1))%nat by lia.
Qed.

Lemma train_batches_total (a : Z) (n : nat) (dataloader : list batch) :
  a ≠ 0 →
  (∀ m b, b ∈ dataloader →
     ∃ outputs, call m (input_ids b) (attention_mask b) true = Ok outputs) →
  ∀ (i : nat) (st : train_state Model Opt G * Qc),
    ∃ st', train_batches call criterion gradient gzero gadd gscale optimizer_step
             a n i dataloader st = Ok st'.
Proof.
  intros Ha. induction dataloader as [|b rest IH]; intros Hcall i st.
  - by eexists.
  - destruct st as [s t].
    destruct (Hcall (model s) b) as [outputs Hout]; [by left|].
    cbn [train_batches]. unfold train_batch. rewrite Hout. simpl.
    unfold py_mod. destruct (Z.eqb_spec a 0) as [?|_]; [contradiction|]. simpl.
    destruct (_ || _); rewrite bind_Ok; apply IH; intros m b' Hb'; apply Hcall;
      by right.
Qed.

End TrainEdges.

(** X9: The edge cases of [train_model].  Without epochs it only zeroes the
    gradients and returns the model as it is, whatever the data loader and
    the accumulation steps.  With at least one epoch an empty data loader
    ends in [ZeroDivisionError] (the average over no batches), and so do
    accumulation steps of zero, at the first batch. *)
Theorem train_model_edge_cases {Model Opt G : Type}
    (call : Model → list (list Z) → list (list Z) → bool → res (tracked mat))
    (criterion : mat → list Z → Qc) (gradient : Model → batch → tracked mat → G)
    (gzero : G) (gadd : G → G → G) (gscale : Qc → G → G)
    (optimizer_step : Opt → Model → G → Opt * Model)
    (m : Model) (o : Opt) (num_epochs a : Z) (g0 : G) :
  (∀ dataloader, num_epochs ≤ 0 →
     train_model call criterion gradient gzero gadd gscale optimizer_step
       m dataloader o num_epochs a g0
     = Ok (TrainState m o gzero [EvZeroGrad])) ∧
  (0 < num_epochs →
   train_model call criterion gradient gzero gadd gscale optimizer_step
     m [] o num_epochs a g0 = Raise ZeroDivisionError) ∧
  (∀ b rest outputs, 0 < num_epochs →
     call m (input_ids b) (attention_mask b) true = Ok outputs →
     train_model call criterion gradient gzero gadd gscale optimizer_step
       m (b :: rest) o num_epochs 0 g0 = Raise ZeroDivisionError).
Proof.
  split; [|split].
  - intros dataloader HE. unfold train_model.
    replace (Z.to_nat num_epochs) with 0%nat by lia. reflexivity.
  - intros HE. unfold train_model.
    destruct (Z.to_nat num_epochs) as [|k] eqn:Hk; [lia|]. reflexivity.
  - intros b rest outputs HE Hcall. unfold train_model.
    destruct (Z.to_nat num_epochs) as [|k] eqn:Hk; [lia|].
    cbn [seq train_epochs]. unfold train_epoch. cbn [train_batches].
    unfold train_batch. simpl. rewrite Hcall. reflexivity.
Qed.

Lemma train_model_edge_cases_witness :
  train_model Samples.constant_model Samples.count_labels Samples.unit_gradient
    0%Qc Qcplus Qcmult Samples.keep_model tt [Samples.batch1] tt 0 10 1%Qc
  = Ok (TrainState tt tt 0%Qc [EvZeroGrad]) ∧
  train_model Samples.constant_model Samples.count_labels Samples.unit_gradient
    0%Qc Qcplus Qcmult Samples.keep_model tt [] tt 1 10 1%Qc
  = Raise ZeroDivisionError ∧
  train_model Samples.constant_model Samples.count_labels Samples.unit_gradient
    0%Qc Qcplus Qcmult Samples.keep_model tt [Samples.batch1] tt 1 0 1%Qc
  = Raise ZeroDivisionError.
Proof.
  assert (H0 : 0 ≤ 0) by lia. assert (H1 : 0 < 1) by lia.
  split; [|split].
  - exact (proj1 (train_model_edge_cases Samples.constant_model Samples.count_labels
                    Samples.unit_gradient 0%Qc Qcplus Qcmult Samples.keep_model
                    tt tt 0 10 1%Qc) [Samples.batch1] H0).
  - exact (proj1 (proj2 (train_model_edge_cases Samples.constant_model
                    Samples.count_labels Samples.unit_gradient 0%Qc Qcplus Qcmult
                    Samples.keep_model tt tt 1 10 1%Qc)) H1).
  - exact (proj2 (proj2 (train_model_edge_cases Samples.constant_model
                    Samples.count_labels Samples.unit_gradient 0%Qc Qcplus Qcmult
                    Samples.keep_model tt tt 1 0 1%Qc))
             Samples.batch1 [] _ H1 eq_refl).
Defined.

(** X10: An exception of the model ends the training: when the model returns
    logits on the batches before batch [b] and raises [e] on [b],
    [train_model] raises [e] (for at least one epoch and accumulation steps
    other than zero). *)
Theorem train_model_propagates_exception {Model Opt G : Type}
    (call : Model → list (list Z) → list (list Z) → bool → res (tracked mat))
    (criterion : mat → list Z → Qc) (gradient : Model → batch → tracked mat → G)
    (gzero : G) (gadd : G → G → G) (gscale : Qc → G → G)
    (optimizer_step : Opt → Model → G → Opt * Model)
    (m : Model) (before after : list batch) (b : batch) (o : Opt)
    (num_epochs a : Z) (g0 : G) (e : exn) :
  0 < num_epochs → a ≠ 0 →
  (∀ m' b', b' ∈ before →
     ∃ outputs, call m' (input_ids b') (attention_mask b') true = Ok outputs) →
  (∀ m', call m' (input_ids b) (attention_mask b) true = Raise e) →
  train_model call criterion gradient gzero gadd gscale optimizer_step
    m (before ++ b :: after) o num_epochs a g0 = Raise e.
Proof.
  intros HE Ha Hok Hraise. unfold train_model.
  destruct (Z.to_nat num_epochs) as [|k] eqn:Hk; [lia|].
  cbn [seq train_epochs]. unfold train_epoch.
  rewrite train_batches_app.
  destruct (train_batches_total call criterion gradient gzero gadd gscale optimizer_step
              a (length (before ++ b :: after)) before Ha Hok 0
              (zero_grad gzero (TrainState m o g0 []), 0%Qc)) as [[s t] ->].
  rewrite bind_Ok. cbn [train_batches]. unfold train_batch.
  rewrite Hraise. reflexivity.
Qed.

Lemma train_model_propagates_exception_witness :
  train_model
    (λ (m : unit) ids mask enabled,
       if decide (length ids = 1%nat) then Raise RuntimeError
       else Samples.constant_model m ids mask enabled)
    Samples.count_labels Samples.unit_gradient
    0%Qc Qcplus Qcmult Samples.keep_model tt
    ([Samples.batch1] ++ Samples.batch2 :: [Samples.batch1]) tt 1 10 0%Qc
  = Raise RuntimeError.
Proof.
  assert (H1 : 0 < 1) by lia. assert (H10 : 10 ≠ 0) by lia.
  apply train_model_propagates_exception; [exact H1 | exact H10 | |].
  - intros m b Hb. apply list_elem_of_singleton in Hb as ->. by eexists.
  - intros m. reflexivity.
Defined.

(** ** train_model: what the trace holds *)

Lemma omap_concat_imap {A B C} (h : B → option C) (g : A → list C) (L : list A) :
  ∀ f : nat → A → list B,
    (∀ e x, x ∈ L → omap h (f e x) = g x) →
    omap h (concat (imap f L)) = concat (map g L).
Proof.
  induction L as [|x L IH]; intros f Hf; [reflexivity|].
  rewrite imap_cons. cbn [concat map]. rewrite omap_app, Hf by (by left). f_equal.
  apply IH. intros e y Hy. apply Hf. by right.
Qed.

Lemma length_filter_concat_imap {A B} (p : B → bool) (c : nat) (L : list A) :
  ∀ f : nat → A → list B,
    (∀ e x, x ∈ L → length (List.filter p (f e x)) = c) →
    length (List.filter p (concat (imap f L))) = (length L * c)%nat.
Proof.
  induction L as [|x L IH]; intros f Hf; [reflexivity|].
  rewrite imap_cons. cbn [concat length].
  rewrite List.filter_app, length_app, Hf by (by left).
  rewrite IH; [lia|]. intros e y Hy. apply Hf. by right.
Qed.

Section TraceProofs.
Context {G : Type}.
Variable gzero : G.
Variable gadd : G → G → G.
Variable gscale : Qc → G → G.

Lemma backward_losses_batches (a : Z) (n : nat) (all ls : list (loss G)) (i : nat) :
  backward_losses (concat (imap (λ j l, schedule_batch gzero gadd gscale a n all
                                          (i + j) l) ls))
  = map (λ l, loss_div gscale l a) ls.
Proof.
  unfold backward_losses.
  revert i. induction ls as [|l ls IH]; intros i; [reflexivity|].
  rewrite imap_cons. cbn [concat map]. rewrite omap_app.
  rewrite (imap_ext _ (λ j l, schedule_batch gzero gadd gscale a n all (S i + j) l))
    by (intros j l' _; simpl; f_equal; lia).
  rewrite IH. unfold schedule_batch.
  by destruct (step_due a n (S (i + 0))).
Qed.

Lemma applied_gradients_batches (a : Z) (n : nat) (all ls : list (loss G)) (i : nat) :
  applied_gradients (concat (imap (λ j l, schedule_batch gzero gadd gscale a n all
                                            (i + j) l) ls))
  = map (accumulated gzero gadd gscale a n all)
        (List.filter (step_due a n) (seq (S i) (length ls))).
Proof.
  unfold applied_gradients.
  revert i. induction ls as [|l ls IH]; intros i; [reflexivity|].
  rewrite imap_cons. cbn [concat length seq List.filter]. rewrite omap_app.
  rewrite (imap_ext _ (λ j l, schedule_batch gzero gadd gscale a n all (S i + j) l))
    by (intros j l' _; simpl; f_equal; lia).
  rewrite IH. unfold schedule_batch. rewrite Nat.add_0_r.
  by destruct (step_due a n (S i)).
Qed.

Lemma schedule_as_batches (a : Z) (n : nat) (ls : list (loss G)) :
  schedule gzero gadd gscale a n ls
  = concat (imap (λ j l, schedule_batch gzero gadd gscale a n ls (0 + j) l) ls).
Proof. reflexivity. Qed.

End TraceProofs.

Lemma criterion_losses_epochs {G : Type} (gzero : G) (gadd : G → G → G)
    (gscale : Qc → G → G) (a num_epochs : Z) (n : nat)
    (per_epoch : list (list (loss G))) :
  criterion_losses
    (EvZeroGrad
     :: concat (imap (λ e ls,
                  schedule gzero gadd gscale a n ls
                  ++ [EvPrint (Z.of_nat e + 1) num_epochs (mean_loss n ls)])
                  per_epoch))
  = concat per_epoch.
Proof.
  unfold criterion_losses. cbn [omap list_omap].
  rewrite (omap_concat_imap _ (λ ls, ls)); [by rewrite List.map_id|].
  intros e ls _. rewrite omap_app, schedule_as_batches.
  destruct (criterion_losses_batches gzero gadd gscale a n ls ls 0) as [Hcl _].
  unfold criterion_losses in Hcl. rewrite Hcl. simpl. by rewrite app_nil_r.
Qed.

Lemma train_model_counts {Model Opt G : Type}
    (call : Model → list (list Z) → list (list Z) → bool → res (tracked mat))
    (criterion : mat → list Z → Qc) (gradient : Model → batch → tracked mat → G)
    (gzero : G) (gadd : G → G → G) (gscale : Qc → G → G)
    (optimizer_step : Opt → Model → G → Opt * Model)
    (m : Model) (dataloader : list batch) (o : Opt) (num_epochs a : Z) (g0 : G) :
  let n := length dataloader in
  1 ≤ a → (1 ≤ n)%nat →
  (∀ m b, b ∈ dataloader →
     ∃ outputs, call m (input_ids b) (attention_mask b) true = Ok outputs) →
  ∃ s' : train_state Model Opt G,
    train_model call criterion gradient gzero gadd gscale optimizer_step
      m dataloader o num_epochs a g0 = Ok s' ∧
    length (criterion_losses (trace s')) = (Z.to_nat num_epochs * n)%nat ∧
    Z.of_nat (count_steps (trace s'))
    = Z.of_nat (Z.to_nat num_epochs) * ((Z.of_nat n + a - 1) / a).
Proof.
  intros n Ha Hn Hcall.
  destruct (train_model_spec call criterion gradient gzero gadd gscale optimizer_step
              m dataloader o num_epochs a g0 Ha Hn Hcall)
    as (per_epoch & s' & Hrun & Hlen & Hall & Htr).
  exists s'. split; [exact Hrun|]. rewrite Htr. fold n in Hall |- *. split.
  - rewrite criterion_losses_epochs, <- Hlen. clear -Hall.
    induction Hall as [|ls L Hls _ IH]; [reflexivity|].
    cbn [concat length]. rewrite length_app, IH, Hls. lia.
  - unfold count_steps. cbn [List.filter is_step].
    rewrite (length_filter_concat_imap _
               (Z.to_nat ((Z.of_nat n + a - 1) / a))).
    + rewrite Hlen, Nat2Z.inj_mul. f_equal. apply Z2Nat.id.
      apply Z.div_pos; lia.
    + intros e ls Hls. rewrite List.filter_app, length_app. simpl.
      rewrite Nat.add_0_r.
      rewrite Forall_forall in Hall.
      pose proof (count_steps_schedule gzero gadd gscale a n ls Ha Hn (Hall ls Hls))
        as Hcount.
      unfold count_steps in Hcount. lia.
Qed.

(** X11: Every criterion loss is back-propagated once, divided by the
    accumulation steps, in the order of the batches; [train_model] on [n]
    batches makes [num_epochs * n] calls of the criterion and
    [num_epochs * ceil(n / a)] optimizer steps in all. *)
Theorem train_model_totals {Model Opt G : Type}
    (call : Model → list (list Z) → list (list Z) → bool → res (tracked mat))
    (criterion : mat → list Z → Qc) (gradient : Model → batch → tracked mat → G)
    (gzero : G) (gadd : G → G → G) (gscale : Qc → G → G)
    (optimizer_step : Opt → Model → G → Opt * Model)
    (m : Model) (dataloader : list batch) (o : Opt) (num_epochs a : Z) (g0 : G) :
  let n := length dataloader in
  1 ≤ a → (1 ≤ n)%nat →
  (∀ m b, b ∈ dataloader →
     ∃ outputs, call m (input_ids b) (attention_mask b) true = Ok outputs) →
  ∃ s' : train_state Model Opt G,
    train_model call criterion gradient gzero gadd gscale optimizer_step
      m dataloader o num_epochs a g0 = Ok s' ∧
    backward_losses (trace s')
    = map (λ l, loss_div gscale l a) (criterion_losses (trace s')) ∧
    length (criterion_losses (trace s')) = (Z.to_nat num_epochs * n)%nat ∧
    Z.of_nat (count_steps (trace s'))
    = Z.of_nat (Z.to_nat num_epochs) * ((Z.of_nat n + a - 1) / a).
Proof.
  intros n Ha Hn Hcall.
  destruct (train_model_counts call criterion gradient gzero gadd gscale
              optimizer_step m dataloader o num_epochs a g0 Ha Hn Hcall)
    as (s' & Hrun & Hcrit & Hsteps).
  exists s'. split; [exact Hrun|]. split; [|by split].
  destruct (train_model_spec call criterion gradient gzero gadd gscale optimizer_step
              m dataloader o num_epochs a g0 Ha Hn Hcall)
    as (per_epoch & s'' & Hrun' & _ & _ & Htr).
  rewrite Hrun in Hrun'. injection Hrun' as <-.
  rewrite Htr, criterion_losses_epochs.
  unfold backward_losses. cbn [omap list_omap].
  rewrite (omap_concat_imap _ (map (λ l, loss_div gscale l a))).
  - clear. induction per_epoch as [|ls L IH]; [reflexivity|].
    cbn [map concat]. by rewrite List.map_app, IH.
  - intros e ls _. rewrite omap_app, schedule_as_batches.
    pose proof (backward_losses_batches gzero gadd gscale a (length dataloader) ls ls 0)
      as Hb.
    unfold backward_losses in Hb. rewrite Hb. simpl. by rewrite app_nil_r.
Qed.

Lemma train_model_totals_witness :
  let dataloader := [Samples.batch1; Samples.batch2; Samples.batch3] in
  ∃ s' : train_state unit unit Qc,
    train_model Samples.constant_model Samples.count_labels Samples.unit_gradient
      0%Qc Qcplus Qcmult Samples.keep_model tt dataloader tt 2 2 0%Qc = Ok s' ∧
    length (criterion_losses (trace s')) = 6%nat ∧
    Z.of_nat (count_steps (trace s')) = 4.
Proof.
  intros dataloader.
  assert (Ha : 1 ≤ 2) by lia.
  assert (Hn : (1 ≤ length dataloader)%nat) by (simpl; lia).
  destruct (train_model_totals Samples.constant_model Samples.count_labels
              Samples.unit_gradient 0%Qc Qcplus Qcmult Samples.keep_model
              tt dataloader tt 2 2 0%Qc Ha Hn)
    as (s' & Hrun & _ & Hcrit & Hsteps).
  { intros m b _. eexists. reflexivity. }
  exists s'. split; [exact Hrun|]. split; [exact Hcrit | exact Hsteps].
Defined.

(** ** train_model: the optimizer steps *)

Lemma steps_in_place_app {G} (tr1 tr2 : list (event G)) :
  steps_in_place tr1 → steps_in_place tr2 → steps_in_place (tr1 ++ tr2).
Proof.
  intros H1 H2 pre g post Heq. symmetry in Heq.
  apply app_eq_inv in Heq as [(k & -> & Hk)|(k & Hk & Hpost)].
  - destruct (H2 _ _ _ Hk) as [(pre' & l & ->) Hz]. split; [|exact Hz].
    exists (tr1 ++ pre'), l. by rewrite app_assoc.
  - destruct k as [|x k].
    + simpl in Hpost. rewrite app_nil_r in Hk. subst.
      destruct (H2 [] g post eq_refl) as [(pre' & l & Hnil) _].
      by destruct pre'.
    + simpl in Hpost. injection Hpost as <- ->.
      destruct (H1 _ _ _ Hk) as [Hb (post' & ->)]. split; [exact Hb|].
      by exists (post' ++ tr2).
Qed.

Lemma steps_in_place_concat {G} (trs : list (list (event G))) :
  Forall steps_in_place trs → steps_in_place (concat trs).
Proof.
  induction 1 as [|tr trs Htr _ IH].
  - intros pre g post Heq. by destruct pre.
  - by apply steps_in_place_app.
Qed.

Lemma Forall_imap_intro {A B} (P : B → Prop) (L : list A) :
  ∀ f : nat → A → B, (∀ i x, P (f i x)) → Forall P (imap f L).
Proof.
  induction L as [|x L IH]; intros f Hf; [constructor|].
  rewrite imap_cons. constructor; [apply Hf|]. apply IH. intros i y. apply Hf.
Qed.

Lemma steps_in_place_no_step {G} (tr : list (event G)) :
  Forall (λ e, is_step e = false) tr → steps_in_place tr.
Proof.
  intros Hall pre g post ->. rewrite Forall_app, Forall_cons in Hall.
  by destruct Hall as (_ & ? & _).
Qed.

Section StepProofs.
Context {Model Opt G : Type}.
Variable call : Model → list (list Z) → list (list Z) → bool → res (tracked mat).
Variable criterion : mat → list Z → Qc.
Variable gradient : Model → batch → tracked mat → G.
Variable gzero : G.
Variable gadd : G → G → G.
Variable gscale : Qc → G → G.
Variable optimizer_step : Opt → Model → G → Opt * Model.

Lemma steps_in_place_batch (a : Z) (n : nat) (all : list (loss G)) (i : nat)
    (l : loss G) :
  steps_in_place (schedule_batch gzero gadd gscale a n all i l).
Proof.
  unfold schedule_batch. destruct (step_due a n (S i)).
  - intros pre g post Heq.
    destruct pre as [|e1 [|e2 [|e3 [|e4 pre] ] ] ]; simplify_eq/=.
    + split; [by eexists [_], _ | by eexists].
    + by destruct pre.
  - apply steps_in_place_no_step. by repeat constructor.
Qed.

Lemma steps_in_place_schedule (a : Z) (n : nat) (ls : list (loss G)) :
  steps_in_place (schedule gzero gadd gscale a n ls).
Proof.
  rewrite schedule_as_batches.
  apply steps_in_place_concat, Forall_imap_intro. intros i l.
  apply steps_in_place_batch.
Qed.

Lemma train_epochs_grads (a num_epochs : Z) (dataloader : list batch) (k : nat) :
  1 ≤ a → (1 ≤ length dataloader)%nat →
  (∀ m b, b ∈ dataloader →
     ∃ outputs, call m (input_ids b) (attention_mask b) true = Ok outputs) →
  ∀ (e0 : nat) (s s' : train_state Model Opt G), grads s = gzero →
    train_epochs call criterion gradient gzero gadd gscale optimizer_step
      dataloader num_epochs a (seq e0 k) s = Ok s' →
    grads s' = gzero.
Proof.
  intros Ha Hn Hcall. induction k as [|k IH]; intros e0 s s' Hg Hrun.
  - simpl in Hrun. by injection Hrun as <-.
  - destruct (train_epoch_spec call criterion gradient gzero gadd gscale
                optimizer_step a num_epochs dataloader e0 s Ha Hn Hg Hcall)
      as (ls & s1 & Hrun1 & _ & _ & Hg1).
    cbn [seq train_epochs] in Hrun. rewrite Hrun1, bind_Ok in Hrun.
    exact (IH (S e0) s1 s' Hg1 Hrun).
Qed.

End StepProofs.

(** X12: [train_model] never steps the optimizer on its own: in the trace of a
    run every optimizer step comes directly after a backward pass and is
    directly followed by [zero_grad], and when [train_model] returns no
    accumulated gradient is left over, whatever the number of batches and
    of accumulation steps. *)
Theorem train_model_steps_in_place {Model Opt G : Type}
    (call : Model → list (list Z) → list (list Z) → bool → res (tracked mat))
    (criterion : mat → list Z → Qc) (gradient : Model → batch → tracked mat → G)
    (gzero : G) (gadd : G → G → G) (gscale : Qc → G → G)
    (optimizer_step : Opt → Model → G → Opt * Model)
    (m : Model) (dataloader : list batch) (o : Opt) (num_epochs a : Z) (g0 : G) :
  1 ≤ a → (1 ≤ length dataloader)%nat →
  (∀ m b, b ∈ dataloader →
     ∃ outputs, call m (input_ids b) (attention_mask b) true = Ok outputs) →
  ∃ s' : train_state Model Opt G,
    train_model call criterion gradient gzero gadd gscale optimizer_step
      m dataloader o num_epochs a g0 = Ok s' ∧
    steps_in_place (trace s') ∧
    grads s' = gzero.
Proof.
  intros Ha Hn Hcall.
  destruct (train_model_spec call criterion gradient gzero gadd gscale optimizer_step
              m dataloader o num_epochs a g0 Ha Hn Hcall)
    as (per_epoch & s' & Hrun & _ & _ & Htr).
  exists s'. split; [exact Hrun|]. split.
  - rewrite Htr. apply (steps_in_place_app [EvZeroGrad]).
    { apply steps_in_place_no_step. by repeat constructor. }
    apply steps_in_place_concat, Forall_imap_intro. intros e ls.
    apply steps_in_place_app; [apply steps_in_place_schedule|].
    apply steps_in_place_no_step. by repeat constructor.
  - unfold train_model in Hrun.
    by apply (train_epochs_grads call criterion gradient gzero gadd gscale
                optimizer_step a num_epochs dataloader (Z.to_nat num_epochs)
                Ha Hn Hcall 0 (zero_grad gzero (TrainState m o g0 [])) s').
Qed.

Lemma train_model_steps_in_place_witness :
  let dataloader := [Samples.batch1; Samples.batch2; Samples.batch3] in
  ∃ s' : train_state unit unit Qc,
    train_model Samples.constant_model Samples.count_labels Samples.unit_gradient
      0%Qc Qcplus Qcmult Samples.keep_model tt dataloader tt 2 2 0%Qc = Ok s' ∧
    steps_in_place (trace s') ∧ grads s' = 0%Qc.
Proof.
  intros dataloader.
  assert (Ha : 1 ≤ 2) by lia.
  assert (Hn : (1 ≤ length dataloader)%nat) by (simpl; lia).
  apply (train_model_steps_in_place Samples.constant_model Samples.count_labels
           Samples.unit_gradient 0%Qc Qcplus Qcmult Samples.keep_model
           tt dataloader tt 2 2 0%Qc Ha Hn).
  intros m b _. eexists. reflexivity.
Defined.

(** ** train_model: the gradient that a step applies *)

Lemma step_due_before_end (a : Z) (n j : nat) :
  Z.of_nat n ≤ a → (1 ≤ j < n)%nat → step_due a n j = false.
Proof.
  intros Ha Hj. unfold step_due.
  rewrite Z.mod_small by lia.
  destruct (Z.eqb_spec (Z.of_nat j) 0) as [?|_]; [lia|].
  by destruct (Nat.eqb_spec j n) as [?|_]; [lia|].
Qed.

Lemma previous_step_none (a : Z) (n i : nat) :
  Z.of_nat n ≤ a → (i ≤ n)%nat → previous_step a n i = 0%nat.
Proof.
  intros Ha. induction i as [|i IH]; intros Hi; [reflexivity|].
  destruct i as [|i]; [reflexivity|].
  rewrite previous_step_S by lia.
  rewrite step_due_before_end by lia. apply IH. lia.
Qed.

Lemma filter_step_due_none (a : Z) (n i k : nat) :
  Z.of_nat n ≤ a → (1 ≤ i)%nat → (i + k ≤ n)%nat →
  List.filter (step_due a n) (seq i k) = [].
Proof.
  intros Ha. revert i. induction k as [|k IH]; intros i Hi Hk; [reflexivity|].
  cbn [seq List.filter]. rewrite step_due_before_end by lia. apply IH; lia.
Qed.

Lemma filter_step_due_last (a : Z) (n : nat) :
  Z.of_nat n ≤ a → (1 ≤ n)%nat → List.filter (step_due a n) (seq 1 n) = [n].
Proof.
  intros Ha Hn. replace n with (S (n - 1)) at 2 by lia.
  rewrite seq_S, List.filter_app, filter_step_due_none by lia.
  replace (1 + (n - 1))%nat with n by lia. simpl.
  unfold step_due. by rewrite Nat.eqb_refl, orb_true_r.
Qed.

Lemma previous_step_every (n i : nat) : previous_step 1 n (S i) = i.
Proof.
  destruct i as [|i]; [reflexivity|].
  rewrite previous_step_S by lia. unfold step_due. by rewrite Z.mod_1_r.
Qed.

Lemma filter_step_due_every (n i k : nat) :
  List.filter (step_due 1 n) (seq i k) = seq i k.
Proof.
  revert i. induction k as [|k IH]; intros i; [reflexivity|].
  cbn [seq List.filter]. unfold step_due at 1. rewrite Z.mod_1_r. simpl.
  by rewrite IH.
Qed.

Section GradientProofs.
Context {G : Type}.
Variable gzero : G.
Variable gadd : G → G → G.
Variable gscale : Qc → G → G.

Lemma applied_gradients_whole_epoch (a : Z) (n : nat) (ls : list (loss G)) :
  Z.of_nat n ≤ a → (1 ≤ n)%nat → length ls = n →
  applied_gradients (schedule gzero gadd gscale a n ls)
  = [foldl gadd gzero (map (λ l, grad (loss_div gscale l a)) ls)].
Proof.
  intros Ha Hn Hlen.
  rewrite schedule_as_batches, applied_gradients_batches, Hlen.
  rewrite filter_step_due_last by done. cbn [map]. unfold accumulated.
  rewrite previous_step_none by done.
  by rewrite drop_0, take_ge by lia.
Qed.

Lemma applied_gradients_every_batch (n : nat) (ls : list (loss G)) :
  applied_gradients (schedule gzero gadd gscale 1 n ls)
  = map (λ l, gadd gzero (grad (loss_div gscale l 1))) ls.
Proof.
  rewrite schedule_as_batches, applied_gradients_batches.
  rewrite filter_step_due_every.
  apply list_eq. intros i.
  change (map ?f ?l) with (f <$> l). rewrite !list_lookup_fmap.
  destruct (ls !! i) as [l|] eqn:Hl.
  - rewrite (lookup_seq_lt 1 (length ls) i) by (by eapply lookup_lt_Some).
    simpl. f_equal. unfold accumulated. rewrite previous_step_every.
    rewrite (take_S_r ls i l Hl).
    rewrite drop_app_length' by (rewrite length_take; apply lookup_lt_Some in Hl; lia).
    reflexivity.
  - rewrite lookup_seq_ge by (by apply lookup_ge_None). reflexivity.
Qed.

End GradientProofs.

(** X13: When the accumulation steps are at least the number of batches,
    [train_model] steps the optimizer once per epoch, and the gradient it
    applies is the sum over all batches of the epoch of the gradient of the
    loss divided by the accumulation steps. *)
Theorem train_model_one_step_per_epoch {Model Opt G : Type}
    (call : Model → list (list Z) → list (list Z) → bool → res (tracked mat))
    (criterion : mat → list Z → Qc) (gradient : Model → batch → tracked mat → G)
    (gzero : G) (gadd : G → G → G) (gscale : Qc → G → G)
    (optimizer_step : Opt → Model → G → Opt * Model)
    (m : Model) (dataloader : list batch) (o : Opt) (num_epochs a : Z) (g0 : G) :
  let n := length dataloader in
  (1 ≤ n)%nat → Z.of_nat n ≤ a →
  (∀ m b, b ∈ dataloader →
     ∃ outputs, call m (input_ids b) (attention_mask b) true = Ok outputs) →
  ∃ (per_epoch : list (list (loss G))) (s' : train_state Model Opt G),
    train_model call criterion gradient gzero gadd gscale optimizer_step
      m dataloader o num_epochs a g0 = Ok s' ∧
    length per_epoch = Z.to_nat num_epochs ∧
    Forall (λ ls, length ls = n) per_epoch ∧
    criterion_losses (trace s') = concat per_epoch ∧
    applied_gradients (trace s')
    = map (λ ls, foldl gadd gzero (map (λ l, grad (loss_div gscale l a)) ls))
          per_epoch.
Proof.
  intros n Hn Ha Hcall.
  assert (Ha1 : 1 ≤ a) by lia.
  destruct (train_model_spec call criterion gradient gzero gadd gscale optimizer_step
              m dataloader o num_epochs a g0 Ha1 Hn Hcall)
    as (per_epoch & s' & Hrun & Hlen & Hall & Htr).
  exists per_epoch, s'. split; [exact Hrun|]. split; [exact Hlen|].
  split; [exact Hall|]. rewrite Htr. fold n in Hall |- *. split.
  - unfold criterion_losses. cbn [omap list_omap].
    rewrite (omap_concat_imap _ (λ ls, ls)); [by rewrite List.map_id|].
    intros e ls _. rewrite omap_app, schedule_as_batches.
    destruct (criterion_losses_batches gzero gadd gscale a n ls ls 0) as [Hcl _].
    unfold criterion_losses in Hcl. rewrite Hcl. simpl. by rewrite app_nil_r.
  - unfold applied_gradients. cbn [omap list_omap].
    rewrite (omap_concat_imap _
               (λ ls, [foldl gadd gzero (map (λ l, grad (loss_div gscale l a)) ls)])).
    + clear. induction per_epoch as [|ls L IH]; [reflexivity|].
      cbn [map concat]. by rewrite IH.
    + intros e ls Hls. rewrite omap_app.
      rewrite Forall_forall in Hall.
      pose proof (applied_gradients_whole_epoch gzero gadd gscale a n ls
                    Ha Hn (Hall ls Hls)) as Hg.
      unfold applied_gradients in Hg. rewrite Hg. reflexivity.
Qed.

Lemma train_model_one_step_per_epoch_witness :
  let dataloader := [Samples.batch1; Samples.batch2; Samples.batch3] in
  ∃ (per_epoch : list (list (loss Qc))) (s' : train_state unit unit Qc),
    train_model Samples.constant_model Samples.count_labels Samples.unit_gradient
      0%Qc Qcplus Qcmult Samples.keep_model tt dataloader tt 2 5 0%Qc = Ok s' ∧
    length per_epoch = 2%nat ∧
    applied_gradients (trace s')
    = map (λ ls, foldl Qcplus 0%Qc (map (λ l, grad (loss_div Qcmult l 5)) ls))
          per_epoch.
Proof.
  intros dataloader.
  assert (Hn : (1 ≤ length dataloader)%nat) by (simpl; lia).
  assert (Ha : Z.of_nat (length dataloader) ≤ 5) by (simpl; lia).
  destruct (train_model_one_step_per_epoch Samples.constant_model
              Samples.count_labels Samples.unit_gradient 0%Qc Qcplus Qcmult
              Samples.keep_model tt dataloader tt 2 5 0%Qc Hn Ha)
    as (per_epoch & s' & Hrun & Hlen & _ & _ & Hg).
  { intros m b _. eexists. reflexivity. }
  exists per_epoch, s'. split; [exact Hrun|]. split; [exact Hlen | exact Hg].
Defined.

(** X14: Without accumulation (accumulation steps 1) [train_model] steps the
    optimizer after every batch, and each step applies the gradient of that
    batch's loss alone. *)
Theorem train_model_no_accumulation {Model Opt G : Type}
    (call : Model → list (list Z) → list (list Z) → bool → res (tracked mat))
    (criterion : mat → list Z → Qc) (gradient : Model → batch → tracked mat → G)
    (gzero : G) (gadd : G → G → G) (gscale : Qc → G → G)
    (optimizer_step : Opt → Model → G → Opt * Model)
    (m : Model) (dataloader : list batch) (o : Opt) (num_epochs : Z) (g0 : G) :
  (1 ≤ length dataloader)%nat →
  (∀ m b, b ∈ dataloader →
     ∃ outputs, call m (input_ids b) (attention_mask b) true = Ok outputs) →
  ∃ s' : train_state Model Opt G,
    train_model call criterion gradient gzero gadd gscale optimizer_step
      m dataloader o num_epochs 1 g0 = Ok s' ∧
    applied_gradients (trace s')
    = map (λ l, gadd gzero (grad (loss_div gscale l 1)))
          (criterion_losses (trace s')).
Proof.
  intros Hn Hcall.
  assert (Ha1 : 1 ≤ 1) by lia.
  destruct (train_model_spec call criterion gradient gzero gadd gscale optimizer_step
              m dataloader o num_epochs 1 g0 Ha1 Hn Hcall)
    as (per_epoch & s' & Hrun & _ & _ & Htr).
  exists s'. split; [exact Hrun|]. rewrite Htr.
  set (n := length dataloader).
  unfold criterion_losses, applied_gradients. cbn [omap list_omap].
  rewrite (omap_concat_imap _ (λ ls, ls)), List.map_id.
  - rewrite (omap_concat_imap _
               (map (λ l, gadd gzero (grad (loss_div gscale l 1))))).
    + clear. induction per_epoch as [|ls L IH]; [reflexivity|].
      cbn [map concat]. by rewrite List.map_app, IH.
    + intros e ls _. rewrite omap_app.
      pose proof (applied_gradients_every_batch gzero gadd gscale n ls) as Hg.
      unfold applied_gradients in Hg. rewrite Hg. simpl. by rewrite app_nil_r.
  - intros e ls _. rewrite omap_app, schedule_as_batches.
    destruct (criterion_losses_batches gzero gadd gscale 1 n ls ls 0) as [Hcl _].
    unfold criterion_losses in Hcl. rewrite Hcl. simpl. by rewrite app_nil_r.
Qed.

Lemma train_model_no_accumulation_witness :
  let dataloader := [Samples.batch1; Samples.batch2; Samples.batch3] in
  ∃ s' : train_state unit unit Qc,
    train_model Samples.constant_model Samples.count_labels Samples.unit_gradient
      0%Qc Qcplus Qcmult Samples.keep_model tt dataloader tt 2 1 0%Qc = Ok s' ∧
    applied_gradients (trace s')
    = map (λ l, (0 + grad (loss_div Qcmult l 1))%Qc) (criterion_losses (trace s')).
Proof.
  intros dataloader.
  assert (Hn : (1 ≤ length dataloader)%nat) by (simpl; lia).
  apply (train_model_no_accumulation Samples.constant_model
           Samples.count_labels Samples.unit_gradient 0%Qc Qcplus Qcmult
           Samples.keep_model tt dataloader tt 2 0%Qc Hn).
  intros m b _. eexists. reflexivity.
Defined.

(** ** evaluate_model and test_model: composition *)

Lemma test_batches_acc {Model : Type}
    (call : Model → list (list Z) → list (list Z) → bool → res (tracked mat))
    (m : Model) (dataloader : list batch) (p t : list Z) :
  test_batches call m dataloader p t
  = (pt ← test_batches call m dataloader [] []; Ok (p ++ fst pt, t ++ snd pt)).
Proof.
  revert p t. induction dataloader as [|b rest IH]; intros p t.
  - simpl. by rewrite !app_nil_r.
  - cbn [test_batches].
    destruct (call m (input_ids b) (attention_mask b) false) as [outputs|e];
      [|reflexivity].
    rewrite !bind_Ok.
    destruct (torch_max_dim1 (data outputs)) as [vi|e]; [|reflexivity].
    rewrite !bind_Ok. cbn zeta.
    rewrite (IH (p ++ snd vi) (t ++ labels b)), (IH ([] ++ snd vi) ([] ++ labels b)).
    destruct (test_batches call m rest [] []) as [[p' t']|e]; [|reflexivity].
    simpl. by rewrite !app_assoc.
Qed.

Lemma test_batches_app {Model : Type}
    (call : Model → list (list Z) → list (list Z) → bool → res (tracked mat))
    (m : Model) (dl1 dl2 : list batch) (p t : list Z) :
  test_batches call m (dl1 ++ dl2) p t
  = (pt ← test_batches call m dl1 p t; test_batches call m dl2 (fst pt) (snd pt)).
Proof.
  revert p t. induction dl1 as [|b rest IH]; intros p t; [reflexivity|].
  cbn [app test_batches].
  destruct (call m (input_ids b) (attention_mask b) false) as [outputs|e];
    [|reflexivity].
  rewrite !bind_Ok.
  destruct (torch_max_dim1 (data outputs)) as [vi|e]; [|reflexivity].
  rewrite !bind_Ok. apply IH.
Qed.

(** X15: No batch influences the predictions of another: when [test_model]
    finishes on two data loaders, it finishes on the batches of the first
    followed by those of the second, and its predictions and true labels are
    those of the first run followed by those of the second. *)
Theorem test_model_app {Model : Type}
    (call : Model → list (list Z) → list (list Z) → bool → res (tracked mat))
    (eval : Model → Model) (classification_report : list Z → list Z → string)
    (m : Model) (dl1 dl2 : list batch) (device : string)
    (f1 f2 : frame Model (list Z * list Z)) :
  test_model call eval classification_report m dl1 device = Ok f1 →
  test_model call eval classification_report m dl2 device = Ok f2 →
  ∃ f, test_model call eval classification_report m (dl1 ++ dl2) device = Ok f ∧
       returned f = (fst (returned f1) ++ fst (returned f2),
                     snd (returned f1) ++ snd (returned f2)) ∧
       stdout f = ["Classification Report:" +:+ newline;
                   classification_report (snd (returned f)) (fst (returned f))].
Proof.
  unfold test_model. intros H1 H2.
  rewrite test_batches_app.
  destruct (test_batches call (eval m) dl1 [] []) as [[p1 t1]|e]; [|discriminate H1].
  rewrite bind_Ok. cbn [fst snd].
  rewrite test_batches_acc.
  destruct (test_batches call (eval m) dl2 [] []) as [[p2 t2]|e]; [|discriminate H2].
  rewrite bind_Ok in H1, H2. cbn [fst snd] in H1, H2.
  destruct (report_call classification_report t1 p1) as [r1|e] eqn:R1;
    [|discriminate H1].
  destruct (report_call classification_report t2 p2) as [r2|e] eqn:R2;
    [|discriminate H2].
  apply report_call_inv in R1 as (_ & Hl1 & Hn1).
  apply report_call_inv in R2 as (_ & Hl2 & _).
  simpl in H1, H2. injection H1 as <-. injection H2 as <-.
  rewrite !bind_Ok. cbn [fst snd app].
  rewrite report_call_ok.
  - eexists. split; [reflexivity|]. by split.
  - rewrite !length_app. lia.
  - intros Hnil. apply app_eq_nil in Hnil as [Hnil _]. by apply Hn1.
Qed.

Lemma test_model_app_witness :
  ∃ f, test_model Samples.constant_model (λ m, m) (λ _ _, "report") tt
         ([Samples.batch2] ++ [Samples.batch3]) "cpu" = Ok f ∧
       returned f = ([1; 1], [1; 0]).
Proof.
  destruct (test_model_app Samples.constant_model (λ m, m) (λ _ _, "report") tt
              [Samples.batch2] [Samples.batch3] "cpu" _ _ eq_refl eq_refl)
    as (f & Hrun & Hret & _).
  exists f. split; [exact Hrun | exact Hret].
Defined.

(** X16: [evaluate_model] and [test_model] put the model in evaluation mode
    themselves, so the mode the classifier was left in does not matter: they
    give the same result on a classifier in training mode and in evaluation
    mode, and running [evaluate_model] first, as the notebook does, leaves
    the result of [test_model] unchanged. *)
Theorem evaluation_ignores_mode `{!Activation}
    (classification_report : list Z → list Z → string) (device : string)
    (m : CNNLSTMClassifier.t) (dev_dataloader test_dataloader : list batch)
    (ev : frame CNNLSTMClassifier.t unit) :
  evaluate_model CNNLSTMClassifier.forward CNNLSTMClassifier.eval
    classification_report m dev_dataloader device = Ok ev →
  test_model CNNLSTMClassifier.forward CNNLSTMClassifier.eval
    classification_report (frame_model ev) test_dataloader device
  = test_model CNNLSTMClassifier.forward CNNLSTMClassifier.eval
      classification_report m test_dataloader device ∧
  CNNLSTMClassifier.training (frame_model ev) = false ∧
  Encoder.training (CNNLSTMClassifier.bert (frame_model ev)) = false ∧
  ∀ mode,
    evaluate_model CNNLSTMClassifier.forward CNNLSTMClassifier.eval
      classification_report (CNNLSTMClassifier.train mode m) dev_dataloader device
    = Ok ev ∧
    test_model CNNLSTMClassifier.forward CNNLSTMClassifier.eval
      classification_report (CNNLSTMClassifier.train mode m) test_dataloader device
    = test_model CNNLSTMClassifier.forward CNNLSTMClassifier.eval
        classification_report m test_dataloader device.
Proof.
  intros Hev.
  assert (Hm : frame_model ev = CNNLSTMClassifier.eval m).
  { unfold evaluate_model in Hev.
    destruct (evaluate_batches _ _ _ _ _) as [pt|e]; [|discriminate Hev].
    rewrite bind_Ok in Hev.
    destruct (report_call _ _ _) as [r|e]; [|discriminate Hev].
    simpl in Hev. by injection Hev as <-. }
  rewrite Hm. split; [reflexivity|]. split; [reflexivity|]. split; [reflexivity|].
  intros mode. split; [exact Hev | reflexivity].
Qed.

Lemma evaluation_ignores_mode_witness :
  let m := CNNLSTMClassifier.__init__ "electra" (Samples.encoder 13 2) 2 1 1 2
             Samples.weights in
  ∃ ev,
    evaluate_model (CNNLSTMClassifier.forward (H := Samples.activation))
      CNNLSTMClassifier.eval (λ _ _, "report") m [Samples.batch3] "cpu" = Ok ev ∧
    test_model (CNNLSTMClassifier.forward (H := Samples.activation))
      CNNLSTMClassifier.eval (λ _ _, "report") (frame_model ev) [Samples.batch2] "cpu"
    = test_model (CNNLSTMClassifier.forward (H := Samples.activation))
        CNNLSTMClassifier.eval (λ _ _, "report") m [Samples.batch2] "cpu".
Proof.
  intros m.
  assert (Hok : (if evaluate_model (CNNLSTMClassifier.forward (H := Samples.activation))
                      CNNLSTMClassifier.eval (λ _ _, "report") m [Samples.batch3] "cpu"
                 is Ok _ then true else false) = true)
    by (vm_compute; reflexivity).
  destruct (evaluate_model (CNNLSTMClassifier.forward (H := Samples.activation))
              CNNLSTMClassifier.eval (λ _ _, "report") m [Samples.batch3] "cpu")
    as [ev|e] eqn:E; [|discriminate Hok].
  exists ev. split; [reflexivity|].
  exact (proj1 (evaluation_ignores_mode (H := Samples.activation) (λ _ _, "report")
                  "cpu" m [Samples.batch3] [Samples.batch2] ev E)).
Defined.

(** ** The data loaders *)

Lemma mapM_res_map {A B} (f : A → res B) (g : A → B) (l : list A) :
  Forall (λ x, f x = Ok (g x)) l → mapM f l = Ok (map g l).
Proof.
  induction 1 as [|x l Hx _ IH]; [reflexivity|].
  simpl. rewrite Hx. simpl. by rewrite IH.
Qed.

Lemma py_index_nth {A} (t : list A) (i : nat) (d : A) :
  (i < length t)%nat → py_index t (Z.of_nat i) = Ok (nth i t d).
Proof.
  intros Hi.
  destruct (py_index_in_range t (Z.of_nat i)) as (x & Hx & ->); [lia|].
  rewrite Nat2Z.id in Hx. by rewrite nth_lookup, Hx.
Qed.

Lemma batch_sampler_spec (bs : nat) (l : list nat) :
  (1 ≤ bs)%nat →
  ∀ acc, (length acc < bs)%nat →
    let r := DataLoader.batch_sampler bs l acc in
    concat r = acc ++ l ∧
    length r = ((length acc + length l + bs - 1) / bs)%nat ∧
    Forall (λ c, (1 ≤ length c ≤ bs)%nat) r ∧
    Forall (λ c, length c = bs) (take (length r - 1) r).
Proof.
  intros Hbs. induction l as [|idx rest IH]; intros acc Hacc r; subst r.
  - destruct acc as [|x acc].
    + simpl. split; [reflexivity|]. split; [|split; constructor].
      symmetry. apply Nat.div_small. lia.
    + cbn [DataLoader.batch_sampler concat]. rewrite !app_nil_r.
      split; [reflexivity|]. split; [|split].
      * apply (Nat.div_unique _ _ 1 (length (x :: acc) - 1)); simpl in *; lia.
      * constructor; [simpl in *; lia | constructor].
      * constructor.
  - cbn [DataLoader.batch_sampler]. cbv zeta.
    rewrite length_app. cbn [length].
    destruct (Nat.eqb_spec (length acc + 1) bs) as [Heq|Hne].
    + destruct (IH [] ltac:(simpl; lia)) as (Hc & Hl & Hb & Hf).
      cbn [concat length]. rewrite Hc. split; [by rewrite <- app_assoc|].
      split; [|split].
      * rewrite Hl. simpl. replace (length acc + S (length rest) + bs - 1)%nat
          with (1 * bs + (length rest + bs - 1))%nat by lia.
        rewrite Nat.div_add_l by lia. lia.
      * constructor; [rewrite length_app; simpl; lia | exact Hb].
      * clear Hl Hc Hb.
        destruct (DataLoader.batch_sampler bs rest []) as [|c r'];
          [constructor|].
        cbn [length take Nat.sub]. constructor.
        { rewrite length_app. simpl. lia. }
        simpl in Hf. by rewrite Nat.sub_0_r in Hf.
    + destruct (IH (acc ++ [idx])) as (Hc & Hl & Hb & Hf).
      { rewrite length_app. simpl. lia. }
      rewrite Hc, <- app_assoc. split; [reflexivity|].
      split; [|by split].
      rewrite Hl, length_app. cbn [length]. f_equal. lia.
Qed.

Lemma nth_seq_all {A} (l : list A) (d : A) (n : nat) :
  (n ≤ length l)%nat → map (λ i, nth i l d) (seq 0 n) = take n l.
Proof.
  intros Hn. apply list_eq. intros i.
  change (map ?f ?k) with (f <$> k). rewrite list_lookup_fmap.
  destruct (decide (i < n)%nat) as [Hi|Hi].
  - rewrite lookup_seq_lt, lookup_take_lt by done. simpl.
    destruct (lookup_lt_is_Some_2 l i) as [x Hx]; [lia|].
    by rewrite nth_lookup, Hx.
  - rewrite lookup_seq_ge, lookup_take_ge by lia. reflexivity.
Qed.

Section DataLoaderProofs.
Variable inputs : gmap string (list (list Z)).
Variable labs : list Z.
Variable ids masks : list (list Z).
Hypothesis Hids : inputs !! "input_ids" = Some ids.
Hypothesis Hmasks : inputs !! "attention_mask" = Some masks.
Hypothesis Hmasks_len : (length ids ≤ length masks)%nat.
Hypothesis Hlabels_len : (length ids ≤ length labs)%nat.

Lemma getitem_nth (i : nat) :
  (i < length ids)%nat →
  CustomDataset.__getitem__ (CustomDataset.__init__ inputs labs) (Z.of_nat i)
  = Ok (<["input_ids" := Row (nth i ids [])]>
        (<["attention_mask" := Row (nth i masks [])]>
         (<["labels" := Scalar (nth i labs 0)]> ∅))).
Proof.
  intros Hi. unfold CustomDataset.__getitem__, dict_get. simpl.
  rewrite Hids, Hmasks. simpl.
  rewrite (py_index_nth ids i []) by lia. simpl.
  rewrite (py_index_nth masks i []) by lia. simpl.
  rewrite (py_index_nth labs i 0) by lia. reflexivity.
Qed.

Lemma fetch_ok (indices : list nat) :
  Forall (λ i, (i < length ids)%nat) indices →
  DataLoader.fetch (CustomDataset.__init__ inputs labs) indices
  = Ok {| input_ids := map (λ i, nth i ids []) indices;
          attention_mask := map (λ i, nth i masks []) indices;
          labels := map (λ i, nth i labs 0) indices |}.
Proof.
  intros Hall. unfold DataLoader.fetch.
  rewrite (mapM_res_map _
             (λ i, <["input_ids" := Row (nth i ids [])]>
                   (<["attention_mask" := Row (nth i masks [])]>
                    (<["labels" := Scalar (nth i labs 0)]> ∅)))).
  2:{ eapply Forall_impl; [exact Hall|]. intros i Hi. by apply getitem_nth. }
  rewrite bind_Ok. unfold DataLoader.collate.
  rewrite (mapM_res_map (λ d, DataLoader.item_row d "input_ids")
             (λ d, match d !! "input_ids" with Some (Row r) => r | _ => [] end)).
  2:{ apply Forall_forall. intros d Hd.
      apply list_elem_of_fmap in Hd as (i & -> & _). reflexivity. }
  rewrite bind_Ok.
  rewrite (mapM_res_map (λ d, DataLoader.item_row d "attention_mask")
             (λ d, match d !! "attention_mask" with Some (Row r) => r | _ => [] end)).
  2:{ apply Forall_forall. intros d Hd.
      apply list_elem_of_fmap in Hd as (i & -> & _). reflexivity. }
  rewrite bind_Ok.
  rewrite (mapM_res_map (λ d, DataLoader.item_scalar d "labels")
             (λ d, match d !! "labels" with Some (Scalar z) => z | _ => 0 end)).
  2:{ apply Forall_forall. intros d Hd.
      apply list_elem_of_fmap in Hd as (i & -> & _). reflexivity. }
  rewrite bind_Ok. simpl. rewrite !List.map_map. reflexivity.
Qed.

(** One pass over the loader along [order], any arrangement of the indices
    of the data set. *)
Lemma batches_spec (bs : positive) (shuffle : bool) (randperm : nat → list nat) :
  let N := length ids in
  let self := DataLoader.mk (CustomDataset.__init__ inputs labs) bs shuffle in
  let order := DataLoader.sampler self randperm N in
  order ≡ₚ seq 0 N →
  ∃ bl : list batch,
    DataLoader.batches self randperm = Ok bl ∧
    DataLoader.__len__ self = Ok (length bl) ∧
    length bl = ((N + Pos.to_nat bs - 1) / Pos.to_nat bs)%nat ∧
    concat (map input_ids bl) = map (λ i, nth i ids []) order ∧
    concat (map attention_mask bl) = map (λ i, nth i masks []) order ∧
    concat (map labels bl) = map (λ i, nth i labs 0) order ∧
    Forall (λ b, (1 ≤ length (input_ids b) ≤ Pos.to_nat bs)%nat ∧
                 length (attention_mask b) = length (input_ids b) ∧
                 length (labels b) = length (input_ids b)) bl ∧
    Forall (λ b, length (input_ids b) = Pos.to_nat bs) (take (length bl - 1) bl).
Proof.
  intros N self order Hperm.
  assert (Hbs : (1 ≤ Pos.to_nat bs)%nat) by lia.
  destruct (batch_sampler_spec (Pos.to_nat bs) order Hbs [] ltac:(simpl; lia))
    as (Hc & Hl & Hb & Hf).
  simpl in Hc, Hl.
  assert (Hlen : length order = N).
  { by rewrite Hperm, length_seq. }
  assert (Hlt : Forall (λ i, (i < N)%nat) order).
  { apply Forall_forall. intros i Hi. rewrite Hperm in Hi.
    apply elem_of_seq in Hi. lia. }
  set (chunks := DataLoader.batch_sampler (Pos.to_nat bs) order []) in *.
  set (mkb := λ indices : list nat,
         {| input_ids := map (λ i, nth i ids []) indices;
            attention_mask := map (λ i, nth i masks []) indices;
            labels := map (λ i, nth i labs 0) indices |}).
  assert (Hrun : DataLoader.batches self randperm = Ok (map mkb chunks)).
  { unfold DataLoader.batches, CustomDataset.__len__, dict_get. simpl.
    rewrite Hids. simpl. fold N. fold self. fold order. fold chunks.
    apply mapM_res_map. apply Forall_forall. intros c Hin.
    apply fetch_ok. apply Forall_forall. intros i Hi.
    rewrite Forall_forall in Hlt. apply Hlt. rewrite <- Hc.
    apply list_elem_of_In, in_concat. exists c.
    by split; apply list_elem_of_In. }
  exists (map mkb chunks). split; [exact Hrun|].
  rewrite length_map, Hl, Hlen.
  split.
  { unfold DataLoader.__len__, CustomDataset.__len__, dict_get. simpl.
    by rewrite Hids. }
  split; [reflexivity|].
  assert (Hcat : ∀ {A} (f : list nat → list A) (g : nat → A),
             (∀ c, f c = map g c) →
             concat (map f chunks) = map g order).
  { intros A f g Hfg. rewrite <- Hc. clear -Hfg. induction chunks as [|c cs IH];
      [reflexivity|]. simpl. by rewrite Hfg, IH, List.map_app. }
  rewrite !List.map_map.
  split; [by apply Hcat|]. split; [by apply Hcat|]. split; [by apply Hcat|].
  split.
  - apply Forall_fmap. eapply Forall_impl; [exact Hb|].
    intros c Hcl. simpl. by rewrite !length_map.
  - rewrite <- Hlen, <- Hl. change (map mkb chunks) with (mkb <$> chunks).
    rewrite <- fmap_take. apply Forall_fmap.
    eapply Forall_impl; [exact Hf|]. intros c Hcl. simpl. by rewrite length_map.
Qed.

End DataLoaderProofs.

Lemma DataLoader_init (inputs : gmap string (list (list Z))) (labs : list Z)
    (ids : list (list Z)) (bs : positive) (shuffle : bool) :
  inputs !! "input_ids" = Some ids →
  DataLoader.__init__ (CustomDataset.__init__ inputs labs) bs shuffle
  = if shuffle && Nat.eqb (length ids) 0 then Raise LibraryValueError
    else Ok (DataLoader.mk (CustomDataset.__init__ inputs labs) bs shuffle).
Proof.
  intros Hids. unfold DataLoader.__init__, CustomDataset.__len__, dict_get. simpl.
  rewrite Hids. simpl. destruct shuffle; [|reflexivity]. simpl.
  by destruct (length ids =? 0)%nat.
Qed.

(** X17: A data loader over an empty data set is refused at construction when
    it shuffles.  Otherwise one pass over the loader reads every item of
    the data set once: the pass yields [ceil(N / batch_size)] batches, which
    is also [len(dataloader)]; every batch but the last holds [batch_size]
    items and the last between 1 and [batch_size]; and the batches put end
    to end are the rows of the data set in the order of the sampler, which
    without shuffling is the order of the data set. *)
Theorem DataLoader_batches (inputs : gmap string (list (list Z))) (labs : list Z)
    (ids masks : list (list Z)) (bs : positive) (shuffle : bool)
    (randperm : nat → list nat) :
  inputs !! "input_ids" = Some ids →
  inputs !! "attention_mask" = Some masks →
  (length ids ≤ length masks)%nat →
  (length ids ≤ length labs)%nat →
  (shuffle = true → randperm (length ids) ≡ₚ seq 0 (length ids)) →
  let N := length ids in
  let dataset := CustomDataset.__init__ inputs labs in
  (shuffle = true → N = 0%nat →
   DataLoader.__init__ dataset bs shuffle = Raise LibraryValueError) ∧
  ((shuffle = true → (1 ≤ N)%nat) →
   ∃ (self : DataLoader.t) (bl : list batch) (order : list nat),
     DataLoader.__init__ dataset bs shuffle = Ok self ∧
     DataLoader.batches self randperm = Ok bl ∧
     order ≡ₚ seq 0 N ∧ (shuffle = false → order = seq 0 N) ∧
     DataLoader.__len__ self = Ok (length bl) ∧
     length bl = ((N + Pos.to_nat bs - 1) / Pos.to_nat bs)%nat ∧
     concat (map input_ids bl) = map (λ i, nth i ids []) order ∧
     concat (map attention_mask bl) = map (λ i, nth i masks []) order ∧
     concat (map labels bl) = map (λ i, nth i labs 0) order ∧
     Forall (λ b, (1 ≤ length (input_ids b) ≤ Pos.to_nat bs)%nat ∧
                  length (attention_mask b) = length (input_ids b) ∧
                  length (labels b) = length (input_ids b)) bl ∧
     Forall (λ b, length (input_ids b) = Pos.to_nat bs) (take (length bl - 1) bl) ∧
     (shuffle = false →
      concat (map input_ids bl) = ids ∧
      concat (map attention_mask bl) = take N masks ∧
      concat (map labels bl) = take N labs)).
Proof.
  intros Hids Hmasks Hml Hll Hperm N dataset.
  pose proof (DataLoader_init inputs labs ids bs shuffle Hids) as Hinit.
  fold dataset in Hinit. fold N in Hinit. split.
  { intros -> HN. by rewrite Hinit, HN. }
  intros Hsome.
  set (self := DataLoader.mk dataset bs shuffle) in *.
  assert (Horder : DataLoader.sampler self randperm N ≡ₚ seq 0 N).
  { unfold DataLoader.sampler. simpl. destruct shuffle; [by apply Hperm | done]. }
  destruct (batches_spec inputs labs ids masks Hids Hmasks Hml Hll bs shuffle
              randperm Horder)
    as (bl & Hrun & Hlen & Hcount & Hi & Hm & Hl & Hb & Hf).
  exists self, bl, (DataLoader.sampler self randperm N).
  split.
  { rewrite Hinit. destruct shuffle; [|reflexivity].
    destruct (Nat.eqb_spec N 0) as [HN|_]; [|reflexivity].
    specialize (Hsome eq_refl). lia. }
  split; [exact Hrun|]. split; [exact Horder|].
  split; [by intros ->|]. split; [exact Hlen|]. split; [exact Hcount|].
  split; [exact Hi|]. split; [exact Hm|]. split; [exact Hl|].
  split; [exact Hb|]. split; [exact Hf|].
  intros ->. rewrite Hi, Hm, Hl. unfold DataLoader.sampler. simpl.
  rewrite !nth_seq_all by done. by rewrite take_ge.
Qed.

Lemma DataLoader_batches_witness :
  let inputs : gmap string (list (list Z)) :=
    <["input_ids" := [[5; 7]; [2; 3]; [4; 1] ] ]>
      (<["attention_mask" := [[1; 1]; [1; 1]; [1; 0] ] ]> ∅) in
  let empty : gmap string (list (list Z)) :=
    <["input_ids" := [] ]> (<["attention_mask" := [] ]> ∅) in
  (∃ self bl,
     DataLoader.__init__ (CustomDataset.__init__ inputs [1; 0; 1]) 2 false = Ok self ∧
     DataLoader.batches self (λ n, seq 0 n) = Ok bl ∧
     length bl = 2%nat ∧
     concat (map labels bl) = [1; 0; 1]) ∧
  DataLoader.__init__ (CustomDataset.__init__ empty []) 2 true
  = Raise LibraryValueError.
Proof.
  intros inputs empty.
  assert (Hm : (3 ≤ 3)%nat) by lia.
  assert (H0 : (0 ≤ 0)%nat) by lia.
  assert (Hp : true = true → seq 0 0 ≡ₚ seq 0 0) by done.
  assert (Hf : false = true → seq 0 3 ≡ₚ seq 0 3) by done.
  assert (Hs : false = true → (1 ≤ 3)%nat) by (intros; lia).
  destruct (DataLoader_batches inputs [1; 0; 1] [[5; 7]; [2; 3]; [4; 1] ]
              [[1; 1]; [1; 1]; [1; 0] ] 2 false (λ n, seq 0 n)
              eq_refl eq_refl Hm Hm Hf) as [_ Hpass].
  destruct (DataLoader_batches empty [] [] [] 2 true (λ n, seq 0 n)
              eq_refl eq_refl H0 H0 Hp) as [Hrefused _].
  destruct (Hpass Hs)
    as (self & bl & order & Hinit & Hrun & _ & _ & _ & Hlen & _ & _ & _ & _ & _ & Hseq).
  split; [|exact (Hrefused eq_refl eq_refl)].
  exists self, bl. split; [exact Hinit|]. split; [exact Hrun|].
  split; [exact Hlen|]. exact (proj2 (proj2 (Hseq eq_refl))).
Defined.

(** X18: [test_model] over the data loader of a data set, not shuffled as the
    notebook's test loader.  On a data set with at least one example the
    true labels it returns are the labels of the data set in the order of
    the data set and there is one prediction, 0 or 1, per example, whatever
    the batch size; the model is taken to return two logits per example on
    every batch of the loader.  On an empty data set the loader yields no
    batch and [test_model] ends in the [ValueError] of the report. *)
Theorem test_model_over_dataset {Model : Type}
    (call : Model → list (list Z) → list (list Z) → bool → res (tracked mat))
    (eval : Model → Model) (classification_report : list Z → list Z → string)
    (m : Model) (device : string)
    (inputs : gmap string (list (list Z))) (labs : list Z)
    (ids masks : list (list Z)) (bs : positive) (randperm : nat → list nat) :
  inputs !! "input_ids" = Some ids →
  inputs !! "attention_mask" = Some masks →
  (length ids ≤ length masks)%nat →
  (length ids ≤ length labs)%nat →
  let dataset := CustomDataset.__init__ inputs labs in
  let self := DataLoader.mk dataset bs false in
  DataLoader.__init__ dataset bs false = Ok self ∧
  (ids = [] →
   DataLoader.batches self randperm = Ok [] ∧
   test_model call eval classification_report m [] device
   = Raise LibraryValueError) ∧
  ((1 ≤ length ids)%nat →
   (∀ bl, DataLoader.batches self randperm = Ok bl →
      Forall (λ b, ∃ outputs,
                 call (eval m) (input_ids b) (attention_mask b) false = Ok outputs ∧
                 shape2 (length (input_ids b)) 2 (data outputs)) bl) →
   ∃ (bl : list batch) (fr : frame Model (list Z * list Z)),
     DataLoader.batches self randperm = Ok bl ∧
     test_model call eval classification_report m bl device = Ok fr ∧
     returned fr = (predictions fr, true_labels fr) ∧
     true_labels fr = take (length ids) labs ∧
     length (predictions fr) = length ids ∧
     Forall (λ p, p = 0 ∨ p = 1) (predictions fr)).
Proof.
  intros Hids Hmasks Hml Hll dataset self.
  split; [reflexivity|].
  destruct (batches_spec inputs labs ids masks Hids Hmasks Hml Hll bs false
              randperm (reflexivity _))
    as (bl & Hrun & _ & Hcount & Hi & _ & Hl & _ & _).
  fold dataset in Hrun. fold self in Hrun.
  unfold DataLoader.sampler in Hi, Hl. simpl in Hi, Hl.
  rewrite nth_seq_all in Hi by done. rewrite nth_seq_all in Hl by done.
  rewrite take_ge in Hi by done.
  split.
  { intros ->. simpl in Hcount. rewrite Nat.div_small in Hcount by lia.
    destruct bl; [|discriminate Hcount]. split; [exact Hrun | reflexivity]. }
  intros HN Hcall.
  destruct (test_batches_spec call (eval m) bl [] [] (Hcall bl Hrun))
    as (logits & preds & Htest & HF & Harg).
  simpl in Htest.
  assert (Hlen : length (concat logits) = length (concat (map input_ids bl))).
  { apply (length_concat_Forall2 (λ _ _, True)).
    eapply Forall2_impl; [exact HF|].
    intros b out (outputs & _ & _ & [Hb _]). by split. }
  assert (Hpreds : length preds = length ids).
  { rewrite <- Hi, <- Hlen. symmetry. exact (Forall2_length _ _ _ Harg). }
  exists bl. eexists. split; [exact Hrun|]. unfold test_model.
  rewrite Htest, bind_Ok. cbn [fst snd].
  rewrite report_call_ok, bind_Ok.
  2:{ rewrite Hl, Hpreds, length_take. lia. }
  2:{ rewrite Hl. intros Hnil. apply (f_equal length) in Hnil.
      rewrite length_take in Hnil. simpl in Hnil. lia. }
  simpl. split; [reflexivity|]. split; [reflexivity|].
  split; [exact Hl|]. split; [exact Hpreds|].
  assert (Hrows : Forall (λ row : vec, length row = 2%nat) (concat logits)).
  { clear -HF. induction HF as [|b out rest logits (o & _ & _ & [_ Hr]) _ IH];
      simpl; [constructor|]. by apply Forall_app. }
  clear -Harg Hrows.
  induction Harg as [|row p rows ps Hp _ IH]; constructor.
  - apply Forall_cons in Hrows as [Hrow _].
    apply is_argmax_lt in Hp. lia.
  - apply IH. by apply Forall_cons in Hrows as [_ ?].
Qed.

Lemma test_model_over_dataset_witness :
  let inputs : gmap string (list (list Z)) :=
    <["input_ids" := [[5; 7]; [2; 3]; [4; 1] ] ]>
      (<["attention_mask" := [[1; 1]; [1; 1]; [1; 0] ] ]> ∅) in
  let empty : gmap string (list (list Z)) :=
    <["input_ids" := [] ]> (<["attention_mask" := [] ]> ∅) in
  let call (m : unit) (ids mask : list (list Z)) (enabled : bool)
    : res (tracked mat) := Ok (Tracked (map (λ _, [0%Qc; 1%Qc]) ids) ∅) in
  (∃ bl fr,
     DataLoader.batches
       (DataLoader.mk (CustomDataset.__init__ inputs [1; 0; 1]) 2 false)
       (λ n, seq 0 n) = Ok bl ∧
     test_model call (λ m, m) (λ _ _, "report") tt bl "cpu" = Ok fr ∧
     true_labels fr = [1; 0; 1] ∧
     length (predictions fr) = 3%nat) ∧
  test_model call (λ m, m) (λ _ _, "report") tt [] "cpu" = Raise LibraryValueError.
Proof.
  intros inputs empty call.
  assert (Hm : (3 ≤ 3)%nat) by lia.
  assert (H0 : (0 ≤ 0)%nat) by lia.
  assert (H1 : (1 ≤ 3)%nat) by lia.
  destruct (test_model_over_dataset call (λ m, m) (λ _ _, "report") tt "cpu"
              inputs [1; 0; 1] [[5; 7]; [2; 3]; [4; 1] ]
              [[1; 1]; [1; 1]; [1; 0] ] 2 (λ n, seq 0 n) eq_refl eq_refl Hm Hm)
    as (_ & _ & Hpass).
  destruct (test_model_over_dataset call (λ m, m) (λ _ _, "report") tt "cpu"
              empty [] [] [] 2 (λ n, seq 0 n) eq_refl eq_refl H0 H0)
    as (_ & Hnone & _).
  split; [|exact (proj2 (Hnone eq_refl))].
  destruct (Hpass H1) as (bl & fr & Hrun & Htest & _ & Hlabels & Hlen & _).
  { intros bl Hbl. vm_compute in Hbl. injection Hbl as <-.
    repeat constructor; eexists; (split; [reflexivity|]); repeat constructor. }
  exists bl, fr. split; [exact Hrun|]. split; [exact Htest|].
  split; [exact Hlabels | exact Hlen].
Defined.

(** X19: The training cell of each part of the notebook: one epoch over a
    shuffled loader with batches of 10 and 10 accumulation steps, on a data
    set of [N ≥ 1] examples.  The loader is built, every example is read
    once, the criterion is called [ceil(N / 10)] times and the optimizer
    steps [ceil(ceil(N / 10) / 10)] times. *)
Theorem notebook_training_pass {Model Opt G : Type}
    (call : Model → list (list Z) → list (list Z) → bool → res (tracked mat))
    (criterion : mat → list Z → Qc) (gradient : Model → batch → tracked mat → G)
    (gzero : G) (gadd : G → G → G) (gscale : Qc → G → G)
    (optimizer_step : Opt → Model → G → Opt * Model)
    (m : Model) (o : Opt) (g0 : G)
    (inputs : gmap string (list (list Z))) (labs : list Z)
    (ids masks : list (list Z)) (randperm : nat → list nat) :
  inputs !! "input_ids" = Some ids →
  inputs !! "attention_mask" = Some masks →
  (length ids ≤ length masks)%nat →
  (length ids ≤ length labs)%nat →
  (1 ≤ length ids)%nat →
  randperm (length ids) ≡ₚ seq 0 (length ids) →
  let N := length ids in
  let self := DataLoader.mk (CustomDataset.__init__ inputs labs) 10 true in
  (∀ bl, DataLoader.batches self randperm = Ok bl →
     ∀ m b, b ∈ bl →
       ∃ outputs, call m (input_ids b) (attention_mask b) true = Ok outputs) →
  ∃ (bl : list batch) (s' : train_state Model Opt G),
    DataLoader.__init__ (CustomDataset.__init__ inputs labs) 10 true = Ok self ∧
    DataLoader.batches self randperm = Ok bl ∧
    train_model call criterion gradient gzero gadd gscale optimizer_step
      m bl o 1 10 g0 = Ok s' ∧
    concat (map input_ids bl) ≡ₚ ids ∧
    concat (map labels bl) ≡ₚ take N labs ∧
    length (criterion_losses (trace s')) = ((N + 9) / 10)%nat ∧
    Z.of_nat (count_steps (trace s')) = (Z.of_nat ((N + 9) / 10) + 9) / 10.
Proof.
  intros Hids Hmasks Hml Hll HN Hperm N self Hcall.
  destruct (batches_spec inputs labs ids masks Hids Hmasks Hml Hll 10 true
              randperm Hperm)
    as (bl & Hrun & _ & Hcount & Hi & _ & Hl & _ & _).
  change (Pos.to_nat 10) with 10%nat in Hcount.
  replace (length ids + 10 - 1)%nat with (N + 9)%nat in Hcount by (subst N; lia).
  unfold DataLoader.sampler in Hi, Hl. simpl in Hi, Hl.
  assert (Hn : (1 ≤ length bl)%nat).
  { rewrite Hcount. apply (Nat.div_le_lower_bound _ 10 1); lia. }
  assert (Ha : 1 ≤ 10) by lia.
  destruct (train_model_counts call criterion gradient gzero gadd gscale
              optimizer_step m bl o 1 10 g0 Ha Hn (Hcall bl Hrun))
    as (s' & Htrain & Hcrit & Hsteps).
  exists bl, s'. split.
  { rewrite (DataLoader_init inputs labs ids 10 true Hids).
    destruct (Nat.eqb_spec (length ids) 0) as [?|_]; [lia | reflexivity]. }
  split; [exact Hrun|]. split; [exact Htrain|].
  split; [|split; [|split] ].
  - rewrite Hi. change (map ?f ?l) with (f <$> l). rewrite Hperm.
    fold N. change (?f <$> ?l) with (map f l).
    by rewrite nth_seq_all, take_ge.
  - rewrite Hl. change (map ?f ?l) with (f <$> l). rewrite Hperm.
    fold N. change (?f <$> ?l) with (map f l).
    by rewrite nth_seq_all.
  - rewrite Hcrit, Hcount. change (Z.to_nat 1) with 1%nat. lia.
  - rewrite Hsteps, Hcount. change (Z.of_nat (Z.to_nat 1)) with 1.
    rewrite Z.mul_1_l. f_equal. lia.
Qed.

Lemma notebook_training_pass_witness :
  let inputs : gmap string (list (list Z)) :=
    <["input_ids" := [[5; 7]; [2; 3]; [4; 1] ] ]>
      (<["attention_mask" := [[1; 1]; [1; 1]; [1; 0] ] ]> ∅) in
  ∃ bl s',
    DataLoader.__init__ (CustomDataset.__init__ inputs [1; 0; 1]) 10 true
    = Ok (DataLoader.mk (CustomDataset.__init__ inputs [1; 0; 1]) 10 true) ∧
    DataLoader.batches
      (DataLoader.mk (CustomDataset.__init__ inputs [1; 0; 1]) 10 true)
      (λ _, [2; 0; 1]%nat) = Ok bl ∧
    train_model Samples.constant_model Samples.count_labels Samples.unit_gradient
      0%Qc Qcplus Qcmult Samples.keep_model tt bl tt 1 10 0%Qc = Ok s' ∧
    length (criterion_losses (trace s')) = 1%nat ∧
    Z.of_nat (count_steps (trace s')) = 1.
Proof.
  intros inputs.
  assert (Hm : (3 ≤ 3)%nat) by lia.
  assert (H1 : (1 ≤ 3)%nat) by lia.
  assert (Hp : [2; 0; 1]%nat ≡ₚ seq 0 3).
  { simpl. etrans; [apply Permutation_swap|]. apply perm_skip, Permutation_swap. }
  destruct (notebook_training_pass Samples.constant_model Samples.count_labels
              Samples.unit_gradient 0%Qc Qcplus Qcmult Samples.keep_model tt tt 0%Qc
              inputs [1; 0; 1] [[5; 7]; [2; 3]; [4; 1] ]
              [[1; 1]; [1; 1]; [1; 0] ] (λ _, [2; 0; 1]%nat)
              eq_refl eq_refl Hm Hm H1 Hp)
    as (bl & s' & Hinit & Hrun & Htrain & _ & _ & Hcrit & Hsteps).
  { intros bl _ m b _. eexists. reflexivity. }
  exists bl, s'. split; [exact Hinit|]. split; [exact Hrun|]. split; [exact Htrain|].
  split; [exact Hcrit | exact Hsteps].
Defined.

(** ** The files of the notebook *)

Lemma experiment_spec `{!Activation} {G OptState : Type}
    (criterion : mat → list Z → Qc)
    (gradient : CNNLSTMClassifier.t → batch → tracked mat → G)
    (gzero : G) (gadd : G → G → G) (gscale : Qc → G → G)
    (optimizer_step : AdamW * OptState → CNNLSTMClassifier.t → G
                      → (AdamW * OptState) * CNNLSTMClassifier.t)
    (classification_report : list Z → list Z → string) (device : string)
    (model_name : string) (checkpoint : Encoder.t) (in_channels : nat)
    (model_path preds_path : string) (w : head_init) (o0 : OptState) (g0 : G)
    (train_dataloader dev_dataloader test_dataloader : list batch)
    (fs fs' : gmap string file)
    (te : frame CNNLSTMClassifier.t (list Z * list Z)) :
  Notebook.experiment criterion gradient gzero gadd gscale optimizer_step
    classification_report device model_name checkpoint in_channels
    model_path preds_path w o0 g0 train_dataloader dev_dataloader test_dataloader fs
  = Ok (fs', te) →
  let m := Notebook.build model_name checkpoint in_channels w in
  ∃ s,
    train_model CNNLSTMClassifier.forward criterion gradient gzero gadd gscale
      optimizer_step m train_dataloader (Notebook.make_optimizer m, o0) 1 10 g0
    = Ok s ∧
    fs' = <[preds_path := SavedList (fst (returned te))]>
            (<[model_path := SavedModel (model s)]> fs) ∧
    (∃ ev, evaluate_model CNNLSTMClassifier.forward CNNLSTMClassifier.eval
             classification_report (model s) dev_dataloader device = Ok ev) ∧
    test_model CNNLSTMClassifier.forward CNNLSTMClassifier.eval
      classification_report (model s) test_dataloader device = Ok te.
Proof.
  intros Hrun m. unfold Notebook.experiment, Notebook.after_training in Hrun.
  cbv zeta in Hrun. fold m in Hrun.
  destruct (train_model _ _ _ _ _ _ _ _ _ _ _ _ _) as [s|e]; [|discriminate Hrun].
  exists s. split; [reflexivity|]. simpl in Hrun.
  unfold Notebook.load_model, torch_load, torch_save in Hrun.
  rewrite lookup_insert_eq in Hrun. simpl in Hrun.
  destruct (evaluate_model _ _ _ (model s) _ _) as [ev|e] eqn:Hev;
    [|discriminate Hrun].
  simpl in Hrun.
  assert (Hm : frame_model ev = CNNLSTMClassifier.eval (model s)).
  { unfold evaluate_model in Hev.
    destruct (evaluate_batches _ _ _ _ _) as [pt|e]; [|discriminate Hev].
    rewrite bind_Ok in Hev.
    destruct (report_call _ _ _) as [r|e]; [|discriminate Hev].
    simpl in Hev. by injection Hev as <-. }
  assert (Htest : test_model CNNLSTMClassifier.forward CNNLSTMClassifier.eval
                    classification_report (frame_model ev) test_dataloader device
                  = test_model CNNLSTMClassifier.forward CNNLSTMClassifier.eval
                      classification_report (model s) test_dataloader device).
  { by rewrite Hm. }
  rewrite Htest in Hrun.
  destruct (test_model _ _ _ (model s) _ _) as [te'|e]; [|discriminate Hrun].
  simpl in Hrun. destruct (returned te') as [preds labs] eqn:Hret.
  simpl in Hrun. injection Hrun as <- <-.
  rewrite Hret. split; [reflexivity|]. split; [by exists ev | reflexivity].
Qed.

(** X20: A complete run of the notebook leaves six files: for each of the three
    encoders the trained classifier under models/ and the predictions that
    [test_model] returned for it under predictions/.  No part overwrites a
    file of another part, a file that was there before under one of the six
    names is replaced, and every other file is left as it was. *)
Theorem notebook_run_files `{!Activation} {G OptState : Type}
    (criterion : mat → list Z → Qc)
    (gradient : CNNLSTMClassifier.t → batch → tracked mat → G)
    (gzero : G) (gadd : G → G → G) (gscale : Qc → G → G)
    (optimizer_step : AdamW * OptState → CNNLSTMClassifier.t → G
                      → (AdamW * OptState) * CNNLSTMClassifier.t)
    (classification_report : list Z → list Z → string) (device : string)
    (distilbert tinybert electra : Encoder.t) (w1 w2 w3 : head_init)
    (o1 o2 o3 : OptState) (g1 g2 g3 : G) (DB TB EL : Notebook.loaders)
    (fs fs' : gmap string file)
    (frames : list (frame CNNLSTMClassifier.t (list Z * list Z))) :
  Notebook.run criterion gradient gzero gadd gscale optimizer_step
    classification_report device distilbert tinybert electra w1 w2 w3
    o1 o2 o3 g1 g2 g3 DB TB EL fs = Ok (fs', frames) →
  let trained m (l : Notebook.loaders) o g s :=
    train_model CNNLSTMClassifier.forward criterion gradient gzero gadd gscale
      optimizer_step m (Notebook.train_dataloader l) (Notebook.make_optimizer m, o)
      1 10 g = Ok s in
  let tested s (l : Notebook.loaders) te :=
    test_model CNNLSTMClassifier.forward CNNLSTMClassifier.eval
      classification_report (model s) (Notebook.test_dataloader l) device = Ok te in
  ∃ s1 s2 s3 te1 te2 te3,
    frames = [te1; te2; te3] ∧
    trained (Notebook.DB_model distilbert w1) DB o1 g1 s1 ∧
    trained (Notebook.TB_model tinybert w2) TB o2 g2 s2 ∧
    trained (Notebook.EL_model electra w3) EL o3 g3 s3 ∧
    tested s1 DB te1 ∧ tested s2 TB te2 ∧ tested s3 EL te3 ∧
    fs' !! "models/DB_model.pt" = Some (SavedModel (model s1)) ∧
    fs' !! "models/TB_model.pt" = Some (SavedModel (model s2)) ∧
    fs' !! "models/EL_model.pt" = Some (SavedModel (model s3)) ∧
    fs' !! "predictions/DB_preds.pt" = Some (SavedList (fst (returned te1))) ∧
    fs' !! "predictions/TB_preds.pt" = Some (SavedList (fst (returned te2))) ∧
    fs' !! "predictions/EL_preds.pt" = Some (SavedList (fst (returned te3))) ∧
    ∀ path : string,
      path ∉ ["models/DB_model.pt"; "predictions/DB_preds.pt";
              "models/TB_model.pt"; "predictions/TB_preds.pt";
              "models/EL_model.pt"; "predictions/EL_preds.pt"] →
      fs' !! path = fs !! path.
Proof.
  intros Hrun trained tested. unfold Notebook.run in Hrun.
  destruct (Notebook.DB_experiment _ _ _ _ _ _ _ _ _ _ _ _ _ _ _ _)
    as [[fs1 te1]|e] eqn:H1; [|discriminate Hrun].
  rewrite bind_Ok in Hrun. cbn [fst snd] in Hrun.
  destruct (Notebook.TB_experiment _ _ _ _ _ _ _ _ _ _ _ _ _ _ _ _)
    as [[fs2 te2]|e] eqn:H2; [|discriminate Hrun].
  rewrite bind_Ok in Hrun. cbn [fst snd] in Hrun.
  destruct (Notebook.EL_experiment _ _ _ _ _ _ _ _ _ _ _ _ _ _ _ _)
    as [[fs3 te3]|e] eqn:H3; [|discriminate Hrun].
  simpl in Hrun. injection Hrun as <- <-.
  apply experiment_spec in H1 as (s1 & Ht1 & -> & _ & Hte1).
  apply experiment_spec in H2 as (s2 & Ht2 & -> & _ & Hte2).
  apply experiment_spec in H3 as (s3 & Ht3 & -> & _ & Hte3).
  exists s1, s2, s3, te1, te2, te3.
  split; [reflexivity|].
  split; [exact Ht1|]. split; [exact Ht2|]. split; [exact Ht3|].
  split; [exact Hte1|]. split; [exact Hte2|]. split; [exact Hte3|].
  repeat split.
  1-6: by repeat (rewrite lookup_insert_eq || rewrite lookup_insert_ne by done).
  intros path Hpath.
  rewrite !not_elem_of_cons in Hpath.
  destruct Hpath as (? & ? & ? & ? & ? & ? & _).
  by rewrite !lookup_insert_ne by done.
Qed.

Lemma notebook_run_files_witness :
  ∃ fs' te1 te2 te3,
    Samples.notebook_run = Ok (fs', [te1; te2; te3]) ∧
    fs' !! "predictions/DB_preds.pt" = Some (SavedList (fst (returned te1))) ∧
    fs' !! "predictions/EL_preds.pt" = Some (SavedList (fst (returned te3))).
Proof.
  assert (Hok : (if Samples.notebook_run is Ok _ then true else false) = true)
    by (vm_compute; reflexivity).
  destruct Samples.notebook_run as [[fs' frames]|e] eqn:E; [|discriminate Hok].
  destruct (notebook_run_files (H := Samples.activation) _ _ _ _ _ _ _ _ _ _ _ _ _ _
              _ _ _ _ _ _ _ _ _ _ _ _ E)
    as (s1 & s2 & s3 & te1 & te2 & te3 & -> & _ & _ & _ & _ & _ & _ & _ & _ & _
        & HDB & _ & HEL & _).
  exists fs', te1, te2, te3. split; [reflexivity|]. split; [exact HDB | exact HEL].
Defined.
